(* ===== verification/_CoqProject ===== *)
-Q . S2P
Prelude.v
Adi.v
Kernel.v
Notifier.v
Classifier.v
Gates.v
Button.v
Detect.v
Sched.v
Probe.v
System.v
Refine.v
Preempt.v
Keys.v
Debug.v
