(* ===== verification/Prelude.v ===== *)
(** * A verification of the Spreadtrum headset detect and button driver

    Repository sources: src/drivers/input/misc/headset_sprd.c (the driver,
    814 lines) and src/arch/arm/mach-sc8825/include/mach/sprd_debug.h (a
    header of debug hooks the driver does not use).

    ** The program

    Two interrupt lines (the detect GPIO and the button GPIO) and an
    analog front end read through the ADI bus are turned into plug,
    headset-type and key events.  The detect interrupt flips the line's
    trigger polarity, disables the button interrupt and (re)arms a
    debounce timer; the timer posts the detection work; the detection work
    reads the GPIO, tells the plug notifier chain, classifies the accessory
    from two ADC readings, publishes the switch state and enables the
    button interrupt for a headset with a mic, or on unplug releases every
    pressed button.  The button interrupt flips its polarity and posts the
    button work, which filters implausible readings, checks the plug,
    confirms the press by two status reads 80 ms apart and reports one key
    event.  Works run in one serialised context: a kernel thread woken
    through an event word, or a single-thread work queue
    (CONFIG_INPUT_SPRD_HEADSET_USING_THREAD).

    ** The files, and the code each one models

    - [Prelude] (this file): the state monad [StM] with its laws and the
      loop combinator [for_each]; 32-bit helpers ([u32], [in_u32] for
      registers, [s32], [in_s32] for the driver's [int] counter) and
      their bit lemmas; the hint databases [hs] and [hs_bits]; the tactics
      [hs_run], [hs_step], [bits_at].
    - [Adi]: the ADI register file as a [gmap Z Z] of 32-bit words, the
      register macros of lines 38-59, the read-modify-write macros
      [headset_reg_msk_or], [headset_reg_clr_bit], [headset_reg_set_bit]
      (lines 68-90) and the register routines [headset_detect_circuit],
      [headset_detect_openclk], [headset_detect_init],
      [set_adc_to_headmic], [headset_mic_level] and the register writes of
      [headset_suspend]/[headset_resume] (lines 142-175, 238-244, 716-745).
    - [Kernel]: the state [St] of the driver and the machine it touches
      (register file, hardware inputs read through counters, interrupt
      lines, GPIO outputs, timer, work queue, notifier chain, trace of
      observable events); the driver's globals and struct fields as one
      store indexed by [gvar] with their initialisers (lines 100-127); the
      kernel services as monadic primitives written from their documented
      behaviour; the reasoning tools: [frame obs m] (running [m] leaves
      the observation [obs] unchanged) with the hint database [frame] and
      the tactic [frame_solve], [keeps P m] (running [m] preserves [P])
      with its combinators, and [zcmp_lia] for comparisons decided by
      [lia].
    - [Notifier]: [register_headset_plug_notifier] and
      [unregister_headset_plug_notifier] (lines 129-138) over the kernel's
      priority-ordered notifier chain.
    - [Classifier]: [headset_read_adc] (lines 177-196), the [ABS] macro as
      the preprocessor expands it (line 61), [ignore_wrong_button]
      (202-217), [detect_headset_type] (219-236), [headset_button_down]
      and [headset_plug_in] (246-267), with the spec's classification
      [classify_spec] for comparison.
    - [Gates]: [headset_button_irq_enable] and [headset_pwr_on] (lines
      269-307), the two toggles guarded by a function-static flag.
    - [Button]: [headset_button_release] (310-328) and
      [headset_button_workqueue_func] (331-390), the latter split as the
      code is: the ignore and plug checks, then
      [button_confirm_and_report] with the loops [scan_key] and
      [mark_first].
    - [Detect]: [headset_detect_workqueue_func] (392-460) with its switch
      [detect_type_config] and publication [detect_report], and
      [headset_detect_irq_handler] (542-562).
    - [Sched]: the event-word thread ([headset_wake_up_headset_thread],
      one iteration of [headset_thread], lines 463-511) and the work
      queue, as two instances of the class [Backend];
      [headset_button_irq_handler] (514-540) and [headset_detect_timer]
      (564-574) written once against [Backend].
    - [Probe]: [headset_detect_probe] and [headset_buttons_probe] (lines
      576-715) with every error path, [headset_init] and [headset_exit]
      (767-804) for both builds.  They run in [PM], the driver state
      paired with a record [Res] of what the driver holds (switch device,
      timer, GPIOs, interrupt lines, input device, capabilities,
      serialisation context, registered drivers); the kernel's answers
      ([gpio_request], [request_irq], [gpio_to_irq], ...) come from an
      environment record [PEnv], so every theorem holds for every answer.
    - [System]: the kernel running the entry points in any order, the
      step relation [sys_step] (detect interrupt, button interrupt while
      its line is enabled, timer expiry, one worker step, a delay, a sysfs
      write of one of the [module_params] of lines 806-809), for any back
      end that satisfies the interface [BackendLaws]; both back ends are
      instances.
    - [Refine]: the spec's detection state machine (section 4.2) as an
      abstract machine [AState] with its detect edge [spec_edge] and its
      detection run [spec_detect]; [alpha] reads it off the driver (the
      switch device's [sdev_state] and the button gate's flag); the back
      ends enter through the interface [BackendRefines].
    - [Preempt]: the works preempted.  [headset_detect_workqueue_func],
      [headset_button_workqueue_func], one iteration of [headset_thread],
      the worker of [headset_wq] and [headset_detect_irq_handler] are
      rewritten statement by statement as [prog]s (a tree of statements
      with continuations, and [spin_lock]/[spin_unlock] of
      [headmic_button_irq_lock] around the body of
      [headset_button_irq_enable], lines 100 and 269-288); run without
      preemption each equals the function of Detect, Button or Sched it is
      written from.  The machine [pstep] runs one CPU: the detect and
      button interrupts and the timer softirq come between any two
      statements of the work in process context, and a handler that meets
      the lock taken spins.  The back ends enter through the class
      [PreemptBackend].
    - [Keys]: the references of the key lookup and entry-update loops of
      the button work, written with stdpp's [list_find] and list insert.
    - [Debug]: src/arch/arm/mach-sc8825/include/mach/sprd_debug.h: the IRAM
      word addresses (lines 11-18), the union [sprd_debug_level_t] on a
      little-endian 32-bit word (20-26), every inline hook of both
      configurations (scheduling log 97-155, irq exit 158-164, semaphores
      166-205) over a log of entries standing for the [extern] functions,
      and the log structures (208-276) with their ARM EABI layout ([c_struct]:
      fields at multiples of their alignment, structure padded to its
      alignment).

    Every routine is a function [St -> A * St]; a C [static] or global is
    a [gvar]; hardware reads consume the next value of an oracle in
    [HwInputs], so each theorem holds for every sequence of readings.

    ** The theorems

    - Detection (Detect): spec scenarios A and B for every input, the
      unplug release of P3, and P1's coalescing of detect edges into one
      timer expiry with one polarity flip per edge.
    - Classification (Classifier): agreement with the spec where the mic
      reading is at least the ground reading, and the divergence caused by
      the [ABS] expansion below it; the P5 divergence of
      [ignore_wrong_button] on equal readings near 0.
    - Buttons (Button): scenario C, the plug check before any key event,
      the ignore path and the release loop.
    - Gates (Gates): the button line's disable depth is always 1 minus
      the enable flag, and the bias calls alternate on/off.
    - Scheduling (Sched): a pending detect event survives button events
      (counted in an [int] that wraps past INT_MAX), a pending button event is lost to a detect event (not
      counted), and one thread iteration runs exactly the posted work.
    - Probe (Probe): the successful detect probe (resources held, button
      line disabled through the gate), the error path that releases
      nothing, the buttons probe with and without platform data, the
      error code of [headset_init] (the OR of two errnos) and what
      [headset_exit] leaves held.
    - System (System): by induction on reachability, the gate invariant
      in every reachable state of either build and the event word of the
      thread build within its three values.
    - Refinement and liveness (Refine, System): every entry point is
      invisible to the spec's detection machine, or its detect edge, or its
      detection run on the inputs of that moment; in the thread build a
      detect edge followed by a quiet period leads to the detection run;
      the thread comes to rest after one iteration without new events;
      the work queue drains in two worker steps.  Two of the spec's
      invariants fail on runs reachable from a probed board: button events
      need an inserted headset with a mic (the ignore path of the button
      work re-arms the detection without disabling the button interrupt),
      and at most one button is pressed (two presses of different keys
      leave two entries pressed with no key-up between).
    - Preemption (Preempt): with interrupts between the statements of the
      works, the gate invariant holds in every reachable configuration
      where the lock is free, for either build; a detect interrupt that
      arrives while the detect work holds the lock at line 441 spins
      forever ([spin_lock] leaves interrupts enabled: a deadlock); in the
      thread build a [HEADSET_DETECT] posted between the read and the
      clear of the event word (lines 474-475) is lost and the headset is
      never published.
    - Equivalence (Keys): the key lookup and the entry updates equal
      their [list_find] references (except the empty table, where the
      lookup keeps the previous key).
    - Debug header (Debug): each hook records exactly when its options
      (and, for the scheduling hooks, the [kernel_fault] half) allow; the
      scheduling log takes 164032 bytes per CPU.
    - Registers (Adi): the detect-voltage field written by
      [headset_detect_init] and the suspend/resume asymmetry of
      BUTTON_REG(0x3c), both bit-exact on 32-bit words.
    - Notifier (Notifier): lemmas on the chain (registration keeps it
      sorted, unregistering undoes registering, a call reaches every
      block up to the first that stops it).

    ** Bounds and fuel

    No fuel is needed: every loop of the driver is bounded by a constant
    or a table length and is a structural recursion here ([adc_fill] over
    [ADC_FIFO_CNT], [for_each] over [seq 0 nbuttons], [scan_key] and
    [mark_first] over the table).  [headset_thread]'s endless loop is
    modelled one iteration at a time.  The runs of Preempt are finite
    schedules ([pev] lists) followed by [prun] and checked by evaluation.
    Register values are kept to 32 bits
    by [u32] at every write.  The one driver [int] that is incremented
    without bound, [headset_discard_button_irq] (line 503, writable through
    sysfs at line 809), wraps by [s32] as two's complement; the module
    parameters set through sysfs are kept in the [int] range by [sys_param];
    the other driver integers are flags and ADC values well inside it.

    ** What is not modelled

    - sprd_debug.h: the [extern] functions the hooks call
      ([__sprd_debug_task_log], [debug_semaphore_down_log], ...) are not
      in the repository; a call is recorded as an entry of the log.
    - Module parameters written with negative values: the delays and the
      timer period are used as non-negative millisecond counts
      ([msecs_to_jiffies] is the identity, jiffies are milliseconds), so
      [sys_step] only writes values in [0, INT_MAX].
    - Logging (pr_info, printk, dev_err): no effect on the state.
    - Preemption inside the driver's helpers: in Preempt a call of
      [headset_pwr_on], [detect_headset_type], [headset_read_adc],
      [ignore_wrong_button], [headset_plug_in], [headset_button_down],
      [switch_set_state], [headset_button_release] or the notifier chain
      is one statement; they touch only state no handler reads or writes
      (registers, ADC, codec, switch device, button table, notifier
      chain), so splitting them adds no behaviour on the driver's
      variables, except where the handlers read the clock, whose value
      inside a delay is not represented.
    - A second CPU: Preempt runs the CPU the interrupts are delivered to;
      on SMP a handler on another CPU waits for the lock instead of
      deadlocking.
    - The kernel services (switch class, notifier chain, timers, work
      queues, GPIO and IRQ core, ADC driver, codec bias) are not in the
      repository: they are modelled from their documented behaviour. *)

From stdpp Require Import base gmap list.
From Stdlib Require Import ZArith Lia.

Declare Scope hs_scope.
Delimit Scope hs_scope with hs.

(** ** The state monad of the driver *)

Definition StM (S A : Type) : Type := S -> A * S.

#[export] Instance StM_ret {S} : MRet (StM S) := fun A a s => (a, s).
#[export] Instance StM_bind {S} : MBind (StM S) :=
  fun A B k m s => let '(a, s') := m s in k a s'.

Definition gets {S A} (f : S -> A) : StM S A := fun s => (f s, s).
Definition modify {S} (f : S -> S) : StM S unit := fun s => (tt, f s).

(** Running a computation; [m @@ s] is the final state, [m @! s] the result. *)
Notation "m @@ s" := (snd (m s)) (at level 10, no associativity) : hs_scope.
Notation "m @! s" := (fst (m s)) (at level 10, no associativity) : hs_scope.

(** A C [for] loop over a list whose body only changes the state. *)
Fixpoint for_each {S A} (l : list A) (body : A -> StM S unit) : StM S unit :=
  match l with
  | [] => mret tt
  | x :: l' => body x ;; for_each l' body
  end.

Section MonadLaws.
Context {S : Type}.

Lemma bind_unfold {A B} (m : StM S A) (k : A -> StM S B) s :
  (m ≫= k) s = let '(a, s') := m s in k a s'.
Proof. reflexivity. Qed.

Lemma ret_unfold {A} (a : A) (s : S) : (mret a : StM S A) s = (a, s).
Proof. reflexivity. Qed.

Lemma bind_ret_l {A B} (a : A) (k : A -> StM S B) s :
  (mret a ≫= k) s = k a s.
Proof. reflexivity. Qed.

Lemma bind_assoc {A B C} (m : StM S A) (k : A -> StM S B)
      (h : B -> StM S C) s :
  ((m ≫= k) ≫= h) s = (m ≫= (fun a => k a ≫= h)) s.
Proof. unfold mbind, StM_bind. by destruct (m s). Qed.

(** Two continuations that agree on every answer and state give the same
    run. *)
Lemma bind_congr {A B} (m : StM S A) (f g : A -> StM S B) s :
  (forall a s', f a s' = g a s') -> (m ≫= f) s = (m ≫= g) s.
Proof. intros H. unfold mbind, StM_bind. destruct (m s). apply H. Qed.

Lemma bind_ret_unit (m : StM S unit) s : (m ≫= fun _ => mret tt) s = m s.
Proof. unfold mbind, StM_bind. by destruct (m s) as [[] s']. Qed.

Lemma gets_bind {A B} (f : S -> A) (k : A -> StM S B) s : (gets f ≫= k) s = k (f s) s.
Proof. reflexivity. Qed.

Lemma for_each_cons {A} (x : A) l (body : A -> StM S unit) s :
  for_each (x :: l) body s = for_each l body (body x @@ s)%hs.
Proof. cbn. unfold mbind, StM_bind. by destruct (body x s) as [[] s']. Qed.

Lemma for_each_app {A} (l1 l2 : list A) (body : A -> StM S unit) s :
  for_each (l1 ++ l2) body s
  = for_each l2 body (for_each l1 body @@ s)%hs.
Proof.
  revert s. induction l1 as [|x l1 IH]; intros s; [done|].
  cbn. unfold mbind, StM_bind. destruct (body x s) as [[] s']. apply IH.
Qed.
End MonadLaws.

Local Open Scope Z_scope.

(** ** 32-bit signed arithmetic *)

(** [s32 x] is [x] wrapped to an [int] by two's complement, what the
    kernel's arithmetic on [int] does (it is built with
    -fno-strict-overflow); [in_s32 x]: [x] is a value of type [int]. *)
Definition s32 (x : Z) : Z := (x + 2 ^ 31) mod 2 ^ 32 - 2 ^ 31.
Definition in_s32 (x : Z) : Prop := - 2 ^ 31 <= x < 2 ^ 31.

Lemma s32_range x : in_s32 (s32 x).
Proof. unfold s32, in_s32. pose proof (Z.mod_pos_bound (x + 2 ^ 31) (2 ^ 32)). lia. Qed.

Lemma s32_id x : in_s32 x -> s32 x = x.
Proof. unfold s32, in_s32. intros H. rewrite Z.mod_small; lia. Qed.

(** Wrapping after each step is wrapping once at the end. *)
Lemma s32_add x y : s32 (s32 x + y) = s32 (x + y).
Proof.
  unfold s32. replace (((x + 2 ^ 31) mod 2 ^ 32 - 2 ^ 31 + y + 2 ^ 31))
    with ((x + 2 ^ 31) mod 2 ^ 32 + y) by lia.
  rewrite Z.add_mod_idemp_l by lia. do 2 f_equal. lia.
Qed.

(** ** 32-bit unsigned arithmetic *)

(** [u32 x] is [x] reduced to an [uint32_t], the C conversion. *)
Definition u32 (x : Z) : Z := Z.land x (Z.ones 32).

(** [in_u32 x]: [x] is a value of type [uint32_t]. *)
Definition in_u32 (x : Z) : Prop := 0 <= x < 2 ^ 32.

#[export] Instance in_u32_dec x : Decision (in_u32 x).
Proof. unfold in_u32. apply _. Defined.

Lemma u32_range x : in_u32 (u32 x).
Proof.
  unfold u32, in_u32. rewrite Z.land_ones by lia.
  apply Z.mod_pos_bound. lia.
Qed.

Lemma u32_id x : in_u32 x -> u32 x = x.
Proof.
  unfold u32, in_u32. intros H. rewrite Z.land_ones by lia.
  apply Z.mod_small. lia.
Qed.

Lemma u32_testbit x i :
  0 <= i < 32 -> Z.testbit (u32 x) i = Z.testbit x i.
Proof.
  intros Hi. unfold u32. rewrite Z.land_spec, Z.testbit_ones by lia.
  assert (E1 : (0 <=? i) = true) by (apply Z.leb_le; lia).
  assert (E2 : (i <? 32) = true) by (apply Z.ltb_lt; lia).
  rewrite E1, E2. apply andb_true_r.
Qed.

Lemma u32_testbit_high x i : 32 <= i -> Z.testbit (u32 x) i = false.
Proof.
  intros Hi. unfold u32. rewrite Z.land_spec, Z.ones_spec_high by lia.
  apply andb_false_r.
Qed.

(** Two [uint32_t] values are equal when their 32 low bits are. *)
Lemma in_u32_bits_ext x y :
  in_u32 x -> in_u32 y ->
  (forall i, 0 <= i < 32 -> Z.testbit x i = Z.testbit y i) -> x = y.
Proof.
  intros Hx Hy Hb. rewrite <- (u32_id x), <- (u32_id y) by done.
  apply Z.bits_inj'. intros i Hi.
  destruct (Z.lt_ge_cases i 32).
  - rewrite !u32_testbit by lia. apply Hb. lia.
  - by rewrite !u32_testbit_high.
Qed.

(** Setting the bits of [m] after keeping some of them gives [m]. *)
Lemma lor_land_absorb x m : Z.lor (Z.land x m) m = m.
Proof.
  apply Z.bits_inj'. intros n _. rewrite Z.lor_spec, Z.land_spec.
  by destruct (Z.testbit m n); rewrite ?orb_true_r, ?andb_false_r.
Qed.

(** ** Automation shared by the components *)

Create HintDb hs discriminated.
#[export] Hint Resolve u32_range : hs.

Create Rewrite HintDb hs_bits.
#[export] Hint Rewrite Z.lor_spec Z.land_spec Z.lnot_spec using lia : hs_bits.
#[export] Hint Rewrite u32_testbit using lia : hs_bits.

(** [hs_run] unfolds the monad so that a concrete run computes. *)
Ltac hs_run :=
  repeat (unfold mbind, mret, StM_bind, StM_ret, gets, modify; cbn).

(** [hs_step] runs the binds of a computation without unfolding the
    functions it calls. *)
Ltac hs_step :=
  unfold mbind, StM_bind, mret, StM_ret, gets, modify; cbn beta iota zeta.

(** [bits_at] decides a statement about one bit of a constant. *)
Ltac bits_at := autorewrite with hs_bits; cbn; try reflexivity.
