(* ===== verification/Adi.v ===== *)
(** * The ADI register file and the register routines of headset_sprd.c

    The analog die is reached through the ADI bus ([sci_adi_read],
    [sci_adi_raw_write]).  The register file is a [gmap] from addresses to
    [uint32_t] values; an address never written reads as 0.  This file
    holds the address map of the driver, the three read-modify-write
    macros (lines 63-90) and the register routines that only use them
    ([headset_detect_circuit], [headset_detect_openclk],
    [headset_detect_init], [set_adc_to_headmic], [headset_mic_level], and
    the register sequences of [headset_suspend] / [headset_resume]).  The
    routines are pure functions on the register file; [Kernel] lifts them
    into the driver's monad. *)

From S2P Require Import Prelude.
From stdpp Require Import base gmap list.
From Stdlib Require Import ZArith Lia.

Local Open Scope Z_scope.

(** The register file of the ADI bus. *)
Abbreviation adi_regs := (gmap Z Z).

(** C truth of an [int]: non-zero. *)
Definition c_true (x : Z) : bool := negb (x =? 0).

Lemma c_true_false x : c_true x = false -> x = 0.
Proof. unfold c_true. destruct (Z.eqb_spec x 0); cbn; congruence. Qed.

Lemma c_true_true x : c_true x = true -> x <> 0.
Proof. unfold c_true. destruct (Z.eqb_spec x 0); cbn; congruence. Qed.

Lemma c_true_nz x : x <> 0 -> c_true x = true.
Proof. intros H. unfold c_true. by rewrite (proj2 (Z.eqb_neq _ _) H). Qed.

Lemma c_true_1 : c_true 1 = true.
Proof. reflexivity. Qed.

Lemma c_true_0 : c_true 0 = false.
Proof. reflexivity. Qed.

Definition BIT (n : Z) : Z := Z.shiftl 1 n.

(** Platform constants of mach/hardware.h (not in the repository).  Only
    the distinctness of the addresses built on them matters. *)
Definition SPRD_MISC_BASE : Z := 0x42000000.
Definition ANA_REGS_GLB_BASE : Z := SPRD_MISC_BASE + 0x600.

Definition HEADMIC_DETECT_BASE : Z := SPRD_MISC_BASE + 0x700.
Definition HEADMIC_DETECT_REG (x : Z) : Z := HEADMIC_DETECT_BASE + x.
Definition HEADMIC_BUTTON_BASE : Z := SPRD_MISC_BASE + 0xe00.
Definition HEADMIC_BUTTON_REG (x : Z) : Z := HEADMIC_BUTTON_BASE + x.
Definition HEADMIC_DETECT_GLB_REG (x : Z) : Z := ANA_REGS_GLB_BASE + x.

Definition HEADMIC_DETECT_INSRT_VOL_SHIFT : Z := 5.
Definition HEADMIC_DETECT_INSRT_VOL_MSK : Z :=
  Z.shiftl 0x3 HEADMIC_DETECT_INSRT_VOL_SHIFT.
Definition HEADMIC_DETECT_INSRT_2P1V : Z := 3.
Definition HEADMIC_DETECT_INSRT_2P3V : Z := 2.
Definition HEADMIC_DETECT_INSRT_2P5V : Z := 1.
Definition HEADMIC_DETECT_INSRT_2P7V : Z := 0.

Definition HEADMIC_ADC_SWITCH_BIT : Z := BIT 13.
Definition HEADMIC_DETECT_CIRCUIT_BIT : Z := BIT 11.
Definition HEADMIC_DET_ADC_BUF : Z := BIT 15.
Definition HEADMIC_DET_ADC_EN : Z := BIT 14.

(** ** The bus accessors *)

Definition sci_adi_read (r : adi_regs) (addr : Z) : Z :=
  u32 (default 0 (r !! addr)).

Definition sci_adi_raw_write (r : adi_regs) (addr v : Z) : adi_regs :=
  <[addr := u32 v]> r.

(** ** The read-modify-write macros *)

(** [temp = (temp & (~msk)) | val;] on a [uint32_t temp]. *)
Definition headset_reg_msk_or (val addr msk : Z) (r : adi_regs) : adi_regs :=
  let temp := sci_adi_read r addr in
  let temp := u32 (Z.lor (Z.land temp (u32 (Z.lnot msk))) (u32 val)) in
  sci_adi_raw_write r addr temp.

Definition headset_reg_clr_bit (addr bit : Z) (r : adi_regs) : adi_regs :=
  let temp := sci_adi_read r addr in
  let temp := u32 (Z.land temp (u32 (Z.lnot bit))) in
  sci_adi_raw_write r addr temp.

Definition headset_reg_set_bit (addr bit : Z) (r : adi_regs) : adi_regs :=
  let temp := sci_adi_read r addr in
  let temp := u32 (Z.lor temp (u32 bit)) in
  sci_adi_raw_write r addr temp.

(** ** Register routines *)

(** on = 0: open headmic detect circuit *)
Definition headset_detect_circuit (on : Z) (r : adi_regs) : adi_regs :=
  if c_true on
  then headset_reg_clr_bit (HEADMIC_DETECT_REG 0xA0) HEADMIC_DETECT_CIRCUIT_BIT r
  else headset_reg_set_bit (HEADMIC_DETECT_REG 0xA0) HEADMIC_DETECT_CIRCUIT_BIT r.

Definition headset_detect_openclk (r : adi_regs) : adi_regs :=
  headset_reg_set_bit (HEADMIC_DETECT_GLB_REG 0x84) (Z.lor (BIT 14) (BIT 15)) r.

Definition headset_detect_init (r : adi_regs) : adi_regs :=
  let r := headset_reg_set_bit (HEADMIC_DETECT_GLB_REG 0x84)
             (Z.lor (BIT 14) (BIT 15)) r in
  let r := headset_reg_set_bit (HEADMIC_DETECT_REG 0xA0)
             (Z.lor HEADMIC_DET_ADC_BUF HEADMIC_DET_ADC_EN) r in
  headset_reg_msk_or HEADMIC_DETECT_INSRT_2P1V (HEADMIC_DETECT_REG 0xA0)
    HEADMIC_DETECT_INSRT_VOL_MSK r.

(** is_set = 1, headset_mic to AUXADC *)
Definition set_adc_to_headmic (is_set : Z) (r : adi_regs) : adi_regs :=
  if c_true is_set
  then headset_reg_set_bit (HEADMIC_DETECT_REG 0xA0) HEADMIC_ADC_SWITCH_BIT r
  else headset_reg_clr_bit (HEADMIC_DETECT_REG 0xA0) HEADMIC_ADC_SWITCH_BIT r.

Definition headset_mic_level (level : Z) (r : adi_regs) : adi_regs :=
  if c_true level
  then headset_reg_msk_or 0x02 (HEADMIC_DETECT_REG 0xA0) 0x1e r
  else headset_reg_msk_or 0x16 (HEADMIC_DETECT_REG 0xA0) 0x1e r.

(** The register writes of [headset_suspend] (its [msleep(100)] sits
    between the button writes and the final clear). *)
Definition headset_suspend_regs (r : adi_regs) : adi_regs :=
  let r := headset_reg_msk_or 0x01 (HEADMIC_BUTTON_REG 0x34) 0x01 r in
  let r := headset_reg_msk_or 0x32 (HEADMIC_BUTTON_REG 0x3c) 0x0f r in
  let r := headset_reg_msk_or 0xff (HEADMIC_BUTTON_REG 0x40) 0xffff r in
  let r := headset_reg_msk_or 0xff (HEADMIC_BUTTON_REG 0x44) 0xffff r in
  headset_reg_clr_bit (HEADMIC_DETECT_REG 0x40) (BIT 5) r.

Definition headset_resume_regs (r : adi_regs) : adi_regs :=
  let r := headset_reg_set_bit (HEADMIC_DETECT_REG 0x40) (BIT 5) r in
  let r := headset_reg_clr_bit (HEADMIC_BUTTON_REG 0x34) 0x01 r in
  let r := headset_reg_clr_bit (HEADMIC_BUTTON_REG 0x3c) 0x0f r in
  let r := headset_reg_clr_bit (HEADMIC_BUTTON_REG 0x40) 0xffff r in
  headset_reg_clr_bit (HEADMIC_BUTTON_REG 0x44) 0xffff r.

(** ** Lemmas on the accessors and macros *)

Lemma adi_read_write_same r a v :
  sci_adi_read (sci_adi_raw_write r a v) a = u32 v.
Proof.
  unfold sci_adi_read, sci_adi_raw_write. rewrite lookup_insert_eq. cbn.
  apply u32_id, u32_range.
Qed.

Lemma adi_read_write_other r a b v :
  a <> b -> sci_adi_read (sci_adi_raw_write r a v) b = sci_adi_read r b.
Proof.
  intros Hne. unfold sci_adi_read, sci_adi_raw_write.
  by rewrite lookup_insert_ne.
Qed.

Lemma adi_read_range r a : in_u32 (sci_adi_read r a).
Proof. apply u32_range. Qed.

#[export] Hint Rewrite adi_read_write_same : hs_bits.
#[export] Hint Resolve adi_read_range : hs.

(** Masking a [uint32_t] conversion by a 32-bit field drops the
    conversion. *)
Lemma land_u32_field y f : in_u32 f -> Z.land (u32 y) f = Z.land y f.
Proof.
  intros Hf. unfold u32. rewrite <- Z.land_assoc.
  f_equal. rewrite Z.land_comm. apply (u32_id f Hf).
Qed.

(** The field [f] of the register after [headset_reg_msk_or]: the old
    bits of the field outside [msk], and the bits of [val]. *)
Lemma msk_or_field val addr msk f r :
  in_u32 f ->
  Z.land (sci_adi_read (headset_reg_msk_or val addr msk r) addr) f
  = Z.lor (Z.land (sci_adi_read r addr) (Z.land (Z.lnot msk) f))
          (Z.land val f).
Proof.
  intros Hf. unfold headset_reg_msk_or. rewrite adi_read_write_same.
  rewrite !land_u32_field, Z.land_lor_distr_l, <- Z.land_assoc by done.
  by rewrite !land_u32_field.
Qed.

Lemma msk_or_other val addr msk r b :
  addr <> b ->
  sci_adi_read (headset_reg_msk_or val addr msk r) b = sci_adi_read r b.
Proof. intros. by apply adi_read_write_other. Qed.

Lemma set_bit_other addr bit r b :
  addr <> b ->
  sci_adi_read (headset_reg_set_bit addr bit r) b = sci_adi_read r b.
Proof. intros. by apply adi_read_write_other. Qed.

Lemma clr_bit_other addr bit r b :
  addr <> b ->
  sci_adi_read (headset_reg_clr_bit addr bit r) b = sci_adi_read r b.
Proof. intros. by apply adi_read_write_other. Qed.

Lemma set_bit_field addr bit f r :
  in_u32 f ->
  Z.land (sci_adi_read (headset_reg_set_bit addr bit r) addr) f
  = Z.lor (Z.land (sci_adi_read r addr) f) (Z.land bit f).
Proof.
  intros Hf. unfold headset_reg_set_bit. rewrite adi_read_write_same.
  by rewrite !land_u32_field, Z.land_lor_distr_l, ?land_u32_field.
Qed.

Lemma clr_bit_field addr bit f r :
  in_u32 f ->
  Z.land (sci_adi_read (headset_reg_clr_bit addr bit r) addr) f
  = Z.land (sci_adi_read r addr) (Z.land (Z.lnot bit) f).
Proof.
  intros Hf. unfold headset_reg_clr_bit. rewrite adi_read_write_same.
  by rewrite !land_u32_field, <- Z.land_assoc, land_u32_field.
Qed.

(** Bit [i] after each macro. *)
Lemma msk_or_testbit val addr msk r i :
  0 <= i < 32 ->
  Z.testbit (sci_adi_read (headset_reg_msk_or val addr msk r) addr) i
  = (Z.testbit (sci_adi_read r addr) i && negb (Z.testbit msk i)
     || Z.testbit val i)%bool.
Proof. intros Hi. unfold headset_reg_msk_or. by bits_at. Qed.

Lemma set_bit_testbit addr bit r i :
  0 <= i < 32 ->
  Z.testbit (sci_adi_read (headset_reg_set_bit addr bit r) addr) i
  = (Z.testbit (sci_adi_read r addr) i || Z.testbit bit i)%bool.
Proof. intros Hi. unfold headset_reg_set_bit. by bits_at. Qed.

Lemma clr_bit_testbit addr bit r i :
  0 <= i < 32 ->
  Z.testbit (sci_adi_read (headset_reg_clr_bit addr bit r) addr) i
  = (Z.testbit (sci_adi_read r addr) i && negb (Z.testbit bit i))%bool.
Proof. intros Hi. unfold headset_reg_clr_bit. by bits_at. Qed.

#[export] Hint Rewrite msk_or_testbit set_bit_testbit clr_bit_testbit
  using lia : hs_bits.
#[export] Hint Rewrite msk_or_other set_bit_other clr_bit_other
  using (vm_compute; congruence) : hs_bits.

(** The register file is well formed when every register holds a
    [uint32_t]. *)
Definition regs_wf (r : adi_regs) : Prop := map_Forall (fun _ v => in_u32 v) r.

Lemma raw_write_wf r a v : regs_wf r -> regs_wf (sci_adi_raw_write r a v).
Proof. intros Hr. apply map_Forall_insert_2; [apply u32_range | done]. Qed.

#[export] Hint Resolve raw_write_wf : hs.

Lemma msk_or_wf val addr msk r : regs_wf r -> regs_wf (headset_reg_msk_or val addr msk r).
Proof. apply raw_write_wf. Qed.
Lemma set_bit_wf addr bit r : regs_wf r -> regs_wf (headset_reg_set_bit addr bit r).
Proof. apply raw_write_wf. Qed.
Lemma clr_bit_wf addr bit r : regs_wf r -> regs_wf (headset_reg_clr_bit addr bit r).
Proof. apply raw_write_wf. Qed.

#[export] Hint Resolve msk_or_wf set_bit_wf clr_bit_wf : hs.

(** ** Properties of the register routines *)

Lemma BIT_testbit n i : 0 <= n -> Z.testbit (BIT n) i = (n =? i).
Proof. intros Hn. unfold BIT. rewrite Z.shiftl_1_l. by apply Z.pow2_bits_eqb. Qed.

#[export] Hint Rewrite BIT_testbit using lia : hs_bits.

(** Distinct addresses of the driver's registers. *)
Ltac adi_addr_neq := vm_compute; congruence.

(** (C18) [headset_detect_init] programs the detect-voltage field (bits 5-6
    of DETECT_REG(0xA0)) with 0, the 2.7 V setting, while its comment and
    the constant it passes name 2.1 V: the value 3 is given to
    [headset_reg_msk_or] unshifted, so it lands in bits 0-1, outside the
    mask. *)
Theorem detect_init_voltage_field r :
  Z.land (sci_adi_read (headset_detect_init r) (HEADMIC_DETECT_REG 0xA0))
         HEADMIC_DETECT_INSRT_VOL_MSK
  = Z.shiftl HEADMIC_DETECT_INSRT_2P7V HEADMIC_DETECT_INSRT_VOL_SHIFT
  /\ Z.land (sci_adi_read (headset_detect_init r) (HEADMIC_DETECT_REG 0xA0)) 3
     = 3.
Proof.
  unfold headset_detect_init.
  split; rewrite msk_or_field by (vm_compute; split; congruence).
  - change (Z.land (Z.lnot HEADMIC_DETECT_INSRT_VOL_MSK) HEADMIC_DETECT_INSRT_VOL_MSK)
      with 0.
    by rewrite Z.land_0_r.
  - change (Z.land (Z.lnot HEADMIC_DETECT_INSRT_VOL_MSK) 3) with 3.
    apply lor_land_absorb.
Qed.

(** The gain field (bits 1-4 of DETECT_REG(0xA0)) after
    [headset_mic_level]: 0x02 for a non-zero level, 0x16 for level 0. *)
Lemma headset_mic_level_field level r :
  Z.land (sci_adi_read (headset_mic_level level r) (HEADMIC_DETECT_REG 0xA0)) 0x1e
  = if c_true level then 0x02 else 0x16.
Proof.
  unfold headset_mic_level.
  destruct (c_true level); rewrite msk_or_field by (vm_compute; split; congruence);
    change (Z.land (Z.lnot 0x1e) 0x1e) with 0; by rewrite Z.land_0_r.
Qed.

(** Bit [i] of DETECT_REG(0xA0) after a set or a clear of [BIT n]: bit [n]
    takes the new value, every other bit keeps its value. *)
Lemma set_clr_BIT_testbit (set : bool) n r i :
  0 <= n < 32 -> 0 <= i < 32 ->
  Z.testbit (sci_adi_read
               ((if set then headset_reg_set_bit else headset_reg_clr_bit)
                  (HEADMIC_DETECT_REG 0xA0) (BIT n) r) (HEADMIC_DETECT_REG 0xA0)) i
  = if n =? i then set else Z.testbit (sci_adi_read r (HEADMIC_DETECT_REG 0xA0)) i.
Proof.
  intros Hn Hi. destruct set; bits_at;
    destruct (Z.eqb_spec n i); by rewrite ?orb_true_r, ?orb_false_r,
      ?andb_false_r, ?andb_true_r.
Qed.

(** [set_adc_to_headmic] routes the AUXADC input with bit 13 alone. *)
Lemma set_adc_to_headmic_testbit is_set r i :
  0 <= i < 32 ->
  Z.testbit (sci_adi_read (set_adc_to_headmic is_set r) (HEADMIC_DETECT_REG 0xA0)) i
  = if 13 =? i then c_true is_set
    else Z.testbit (sci_adi_read r (HEADMIC_DETECT_REG 0xA0)) i.
Proof.
  intros Hi. unfold set_adc_to_headmic.
  destruct (c_true is_set);
    [apply (set_clr_BIT_testbit true) | apply (set_clr_BIT_testbit false)]; lia.
Qed.

(** [headset_detect_circuit on] clears bit 11 (circuit closed) for a
    non-zero [on] and sets it for 0. *)
Lemma headset_detect_circuit_testbit on r i :
  0 <= i < 32 ->
  Z.testbit (sci_adi_read (headset_detect_circuit on r) (HEADMIC_DETECT_REG 0xA0)) i
  = if 11 =? i then negb (c_true on)
    else Z.testbit (sci_adi_read r (HEADMIC_DETECT_REG 0xA0)) i.
Proof.
  intros Hi. unfold headset_detect_circuit.
  destruct (c_true on);
    [apply (set_clr_BIT_testbit false) | apply (set_clr_BIT_testbit true)]; lia.
Qed.

(** (C19) [headset_resume] does not undo [headset_suspend] on
    BUTTON_REG(0x3c): suspend writes 0x32 under the mask 0x0f, so bits 4
    and 5 are set outside the field, and resume clears only the field;
    after the round trip the low six bits read 0x30 whatever they held. *)
Theorem resume_after_suspend_button_3c r :
  Z.land (sci_adi_read (headset_resume_regs (headset_suspend_regs r))
            (HEADMIC_BUTTON_REG 0x3c)) 0x3f = 0x30.
Proof.
  unfold headset_resume_regs, headset_suspend_regs.
  do 2 rewrite clr_bit_other by adi_addr_neq.
  rewrite clr_bit_field by (vm_compute; split; congruence).
  change (Z.land (Z.lnot 0x0f) 0x3f) with 0x30.
  rewrite clr_bit_other, set_bit_other, clr_bit_other by adi_addr_neq.
  do 2 rewrite msk_or_other by adi_addr_neq.
  rewrite msk_or_field by (vm_compute; split; congruence).
  change (Z.land (Z.lnot 0x0f) 0x30) with 0x30.
  change (Z.land 0x32 0x30) with 0x30.
  apply lor_land_absorb.
Qed.

(** The register routines are unfolded only on purpose: the driver-level
    proofs treat them as functions of the register file. *)
#[global] Arguments headset_detect_init : simpl never.
#[global] Arguments headset_detect_circuit : simpl never.
#[global] Arguments set_adc_to_headmic : simpl never.
#[global] Arguments headset_mic_level : simpl never.
