(* ===== verification/Kernel.v ===== *)
(** * The driver state and the kernel services it calls

    [St] is the state of one driver instance together with the part of
    the machine it touches: the ADI register file, the hardware inputs
    (ADC conversions, the status register DETECT_REG(0xC0), the detect
    GPIO level) read through counters, the kernel objects (interrupt
    lines, GPIO outputs, the debounce timer, the work queue, the notifier
    chain, the switch device) and the trace [Ev] of what the driver makes
    observable.  The driver's integer globals, statics and struct fields
    are one store [st_g] indexed by [gvar].

    The kernel services are the monadic primitives of this file, written
    from their documented behaviour (they are not in the repository):
    [switch_set_state] raises a uevent only on a change of state,
    [mod_timer] re-arms the one timer, [queue_work] does not queue a work
    that is already pending, [disable_irq]/[enable_irq] nest.  Jiffies are
    milliseconds (HZ = 1000), so [msecs_to_jiffies] is the identity.

    The file ends with the reasoning tools the components share: [frame]
    (an operation leaves an observation of the state alone), proved for a
    whole routine by [frame_solve] from the hint database [frame], and
    [keeps] (an operation preserves an invariant), with their composition
    lemmas over binds, conditionals and loops. *)

From S2P Require Import Prelude Adi.
From stdpp Require Import base gmap list.
From Stdlib Require Import ZArith Lia.

Local Open Scope Z_scope.

(** ** Constants of the kernel headers and linux/headset_sprd.h *)

Definition KEY_RESERVED : Z := 0.
Definition EV_KEY : Z := 1.
Definition IRQF_TRIGGER_HIGH : Z := 0x4.
Definition IRQF_TRIGGER_LOW : Z := 0x8.
Definition BIT_HEADSET_OUT : Z := 0.
Definition BIT_HEADSET_MIC : Z := 1.
Definition BIT_HEADSET_NO_MIC : Z := 2.

(** ** Data *)

(** The hardware inputs: the n-th ADC conversion, the n-th read of the
    status register DETECT_REG(0xC0), the n-th level of the detect GPIO. *)
Record HwInputs := mkHw {
  adc_sample : nat -> Z;
  status_c0 : nat -> Z;
  detect_level : nat -> Z;
}.

Inductive button_state := HEADSET_BUTTON_STATE_RELASED | HEADSET_BUTTON_STATE_PRESSED.

#[export] Instance button_state_eq_dec : EqDecision button_state.
Proof. solve_decision. Defined.

(** [struct headset_button] of the platform data. *)
Record headset_button := mkButton {
  adc_min : Z;
  adc_max : Z;
  code : Z;
  btype : Z;
  bstate : button_state;
}.

(** A [struct notifier_block] of the plug chain: its identity, its
    priority, and whether its callback answers with NOTIFY_STOP. *)
Record notifier_block := mkNb {
  nb_id : Z;
  nb_priority : Z;
  nb_stop : bool;
}.

#[export] Instance notifier_block_eq_dec : EqDecision notifier_block.
Proof. solve_decision. Defined.

Inductive work := DetectWork | ButtonWork.

#[export] Instance work_eq_dec : EqDecision work.
Proof. solve_decision. Defined.

(** The integer variables of the driver: platform-data fields, fields of
    [struct sprd_headset], function statics and module parameters; a
    pointer ([button_platform_data], [headset_wq]) is 0 for NULL. *)
Inductive gvar :=
| detect_gpio | switch_gpio | button_gpio
| detect_active_low | button_active_low
| detect_irq | button_irq
| headphone | ht_type | sdev_state
| button_irq_enable | pwr_down_flags | key_code
| s_headset_event_flags | headset_discard_button_irq
| headset_timer_period | headset_read_adc_delay | headset_switch_gpio_delay
| button_platform_data | headset_wq.

#[export] Instance gvar_eq_dec : EqDecision gvar.
Proof. solve_decision. Defined.

(** What the driver makes observable, in order. *)
Inductive Ev :=
| EvInput (type code value : Z)
| EvSync
| EvSwitch (state : Z)
| EvNotify (nb : Z) (val : Z)
| EvBias (on : Z)
| EvIrqDisable (irq : Z)
| EvIrqEnable (irq : Z)
| EvIrqType (irq flags : Z)
| EvGpioOut (gpio val : Z).

#[export] Instance Ev_eq_dec : EqDecision Ev.
Proof. solve_decision. Defined.

Record St := mkSt {
  st_hw : HwInputs;
  st_regs : adi_regs;
  st_nadc : nat;
  st_nc0 : nat;
  st_ngpio : nat;
  st_now : Z;
  st_trace : list Ev;
  st_g : gvar -> Z;
  st_buttons : list headset_button;
  st_irq_type : gmap Z Z;
  st_irq_depth : gmap Z Z;
  st_gpio : gmap Z Z;
  st_timer : option Z;
  st_wq : list work;
  st_chain : list notifier_block;
}.

Abbreviation M := (StM St).

(** ** Field updates *)

Definition upd_g (g : gvar -> Z) (x : gvar) (v : Z) : gvar -> Z :=
  fun y => if decide (y = x) then v else g y.

Definition set_regs r s := mkSt (st_hw s) r (st_nadc s) (st_nc0 s) (st_ngpio s)
  (st_now s) (st_trace s) (st_g s) (st_buttons s) (st_irq_type s)
  (st_irq_depth s) (st_gpio s) (st_timer s) (st_wq s) (st_chain s).
Definition set_counts na nc ng s := mkSt (st_hw s) (st_regs s) na nc ng
  (st_now s) (st_trace s) (st_g s) (st_buttons s) (st_irq_type s)
  (st_irq_depth s) (st_gpio s) (st_timer s) (st_wq s) (st_chain s).
Definition set_now t s := mkSt (st_hw s) (st_regs s) (st_nadc s) (st_nc0 s)
  (st_ngpio s) t (st_trace s) (st_g s) (st_buttons s) (st_irq_type s)
  (st_irq_depth s) (st_gpio s) (st_timer s) (st_wq s) (st_chain s).
Definition set_trace tr s := mkSt (st_hw s) (st_regs s) (st_nadc s) (st_nc0 s)
  (st_ngpio s) (st_now s) tr (st_g s) (st_buttons s) (st_irq_type s)
  (st_irq_depth s) (st_gpio s) (st_timer s) (st_wq s) (st_chain s).
Definition set_g x v s := mkSt (st_hw s) (st_regs s) (st_nadc s) (st_nc0 s)
  (st_ngpio s) (st_now s) (st_trace s) (upd_g (st_g s) x v) (st_buttons s)
  (st_irq_type s) (st_irq_depth s) (st_gpio s) (st_timer s) (st_wq s) (st_chain s).
Definition set_buttons b s := mkSt (st_hw s) (st_regs s) (st_nadc s) (st_nc0 s)
  (st_ngpio s) (st_now s) (st_trace s) (st_g s) b (st_irq_type s)
  (st_irq_depth s) (st_gpio s) (st_timer s) (st_wq s) (st_chain s).
Definition set_irq s it idp := mkSt (st_hw s) (st_regs s) (st_nadc s) (st_nc0 s)
  (st_ngpio s) (st_now s) (st_trace s) (st_g s) (st_buttons s) it idp
  (st_gpio s) (st_timer s) (st_wq s) (st_chain s).
Definition set_gpio gp s := mkSt (st_hw s) (st_regs s) (st_nadc s) (st_nc0 s)
  (st_ngpio s) (st_now s) (st_trace s) (st_g s) (st_buttons s) (st_irq_type s)
  (st_irq_depth s) gp (st_timer s) (st_wq s) (st_chain s).
Definition set_timer t s := mkSt (st_hw s) (st_regs s) (st_nadc s) (st_nc0 s)
  (st_ngpio s) (st_now s) (st_trace s) (st_g s) (st_buttons s) (st_irq_type s)
  (st_irq_depth s) (st_gpio s) t (st_wq s) (st_chain s).
Definition set_wq q s := mkSt (st_hw s) (st_regs s) (st_nadc s) (st_nc0 s)
  (st_ngpio s) (st_now s) (st_trace s) (st_g s) (st_buttons s) (st_irq_type s)
  (st_irq_depth s) (st_gpio s) (st_timer s) q (st_chain s).
Definition set_chain c s := mkSt (st_hw s) (st_regs s) (st_nadc s) (st_nc0 s)
  (st_ngpio s) (st_now s) (st_trace s) (st_g s) (st_buttons s) (st_irq_type s)
  (st_irq_depth s) (st_gpio s) (st_timer s) (st_wq s) c.

(** The initial values of the driver's variables: the static
    initialisers [button_irq_enable = 1], [pwr_down_flags = 1],
    [key_code = KEY_RESERVED] and the module parameters' defaults; the
    rest of [struct sprd_headset] is zero. *)
Definition init_g (x : gvar) : Z :=
  match x with
  | button_irq_enable => 1
  | pwr_down_flags => 1
  | key_code => KEY_RESERVED
  | headset_timer_period => 500
  | headset_read_adc_delay => 10
  | headset_switch_gpio_delay => 30
  | _ => 0
  end.

(** The machine at module load: the given hardware and register file,
    no reads yet, an empty trace, no timer, no work, no notifier. *)
Definition boot_state (hw : HwInputs) (r : adi_regs) : St :=
  mkSt hw r 0 0 0 0 [] init_g [] ∅ ∅ ∅ None [] [].

(** ** Primitives *)

Definition get_g (x : gvar) : M Z := gets (fun s => st_g s x).
Definition put_g (x : gvar) (v : Z) : M unit := modify (set_g x v).

Definition emit (e : Ev) : M unit :=
  modify (fun s => set_trace (st_trace s ++ [e]) s).

(** A register routine of [Adi] run on the register file. *)
Definition adi (f : adi_regs -> adi_regs) : M unit :=
  modify (fun s => set_regs (f (st_regs s)) s).

(** [sci_adi_read]: DETECT_REG(0xC0) is the status register of the
    comparators, a hardware input; every other register is read from the
    register file. *)
Definition adi_read (addr : Z) : M Z :=
  fun s =>
    if decide (addr = HEADMIC_DETECT_REG 0xC0)
    then (u32 (status_c0 (st_hw s) (st_nc0 s)),
          set_counts (st_nadc s) (S (st_nc0 s)) (st_ngpio s) s)
    else (sci_adi_read (st_regs s) addr, s).

(** [sci_adc_get_value(ADC_CHANNEL_HEADMIC, 0)]: the next conversion. *)
Definition sci_adc_get_value : M Z :=
  fun s => (adc_sample (st_hw s) (st_nadc s),
            set_counts (S (st_nadc s)) (st_nc0 s) (st_ngpio s) s).

(** [gpio_get_value(pdata->detect_gpio)]: the next level of the line. *)
Definition gpio_get_value (gpio : Z) : M Z :=
  fun s => (detect_level (st_hw s) (st_ngpio s),
            set_counts (st_nadc s) (st_nc0 s) (S (st_ngpio s)) s).

Definition gpio_direction_output (gpio v : Z) : M unit :=
  modify (fun s => set_gpio (<[gpio := v]> (st_gpio s)) s) ;;
  emit (EvGpioOut gpio v).

Definition irq_set_irq_type (irq flags : Z) : M unit :=
  modify (fun s => set_irq s (<[irq := flags]> (st_irq_type s)) (st_irq_depth s)) ;;
  emit (EvIrqType irq flags).

Definition irq_depth (s : St) (irq : Z) : Z := default 0 (st_irq_depth s !! irq).

Definition disable_irq (irq : Z) : M unit :=
  modify (fun s => set_irq s (st_irq_type s)
                     (<[irq := irq_depth s irq + 1]> (st_irq_depth s))) ;;
  emit (EvIrqDisable irq).

Definition enable_irq (irq : Z) : M unit :=
  modify (fun s => set_irq s (st_irq_type s)
                     (<[irq := irq_depth s irq - 1]> (st_irq_depth s))) ;;
  emit (EvIrqEnable irq).

(** [mdelay] and [msleep] advance the clock. *)
Definition mdelay (ms : Z) : M unit := modify (fun s => set_now (st_now s + ms) s).
Definition msleep (ms : Z) : M unit := mdelay ms.

Definition jiffies : M Z := gets st_now.
Definition msecs_to_jiffies (ms : Z) : Z := ms.

Definition input_event (type code value : Z) : M unit := emit (EvInput type code value).
Definition input_sync : M unit := emit EvSync.

(** [switch_set_state] of the switch class. *)
Definition switch_set_state (state : Z) : M unit :=
  old ← get_g sdev_state;
  if decide (old = state) then mret tt
  else put_g sdev_state state ;; emit (EvSwitch state).

Definition sprd_codec_headmic_bias_control (on sync : Z) : M unit := emit (EvBias on).

(** [mod_timer]: (re)arm the detect timer; returns whether it was
    pending. *)
Definition mod_timer (expires : Z) : M bool :=
  fun s => (bool_decide (is_Some (st_timer s)), set_timer (Some expires) s).

(** [queue_work] on [headset_wq]: a pending work is not queued twice. *)
Definition queue_work (w : work) : M bool :=
  fun s => if decide (w ∈ st_wq s) then (false, s)
           else (true, set_wq (st_wq s ++ [w]) s).

(** ** Lemmas on the primitives *)

Lemma upd_g_same g x v : upd_g g x v x = v.
Proof. unfold upd_g. by rewrite decide_True. Qed.

Lemma upd_g_other g x y v : y <> x -> upd_g g x v y = g y.
Proof. intros. unfold upd_g. by rewrite decide_False. Qed.

#[export] Hint Rewrite upd_g_same : hs_bits.
#[export] Hint Rewrite upd_g_other using congruence : hs_bits.

(** The input events of a trace: what user space sees of the keys. *)
Fixpoint key_events (tr : list Ev) : list Ev :=
  match tr with
  | [] => []
  | EvInput t c v :: tr' => EvInput t c v :: key_events tr'
  | _ :: tr' => key_events tr'
  end.

Lemma key_events_app tr1 tr2 : key_events (tr1 ++ tr2) = key_events tr1 ++ key_events tr2.
Proof. induction tr1 as [|[] tr1 IH]; cbn; rewrite ?IH; done. Qed.

#[export] Hint Rewrite key_events_app : hs_bits.

(** The state after [switch_set_state v]. *)
Definition switch_apply (v : Z) (s : St) : St :=
  if decide (st_g s sdev_state = v) then s
  else set_trace (st_trace s ++ [EvSwitch v]) (set_g sdev_state v s).

Lemma switch_set_state_spec v s : switch_set_state v s = (tt, switch_apply v s).
Proof.
  unfold switch_set_state, switch_apply, get_g, put_g, emit. hs_step.
  by case_decide.
Qed.

(** [switch_set_state] publishes [v] and changes nothing but the switch
    state and the trace, where it sends no input event. *)
Lemma switch_apply_frame v s :
  st_g (switch_apply v s) sdev_state = v
  /\ (forall x, x <> sdev_state -> st_g (switch_apply v s) x = st_g s x)
  /\ st_irq_type (switch_apply v s) = st_irq_type s
  /\ st_irq_depth (switch_apply v s) = st_irq_depth s
  /\ st_buttons (switch_apply v s) = st_buttons s
  /\ key_events (st_trace (switch_apply v s)) = key_events (st_trace s).
Proof.
  unfold switch_apply. case_decide as E; cbn; [by repeat split|].
  rewrite upd_g_same, key_events_app, app_nil_r. repeat split.
  intros x Hx. by rewrite upd_g_other.
Qed.

(** [st_simpl] computes the projections of the state updates and the
    variable lookups of [upd_g], in the goal and the hypotheses. *)
Ltac st_simpl := cbn in *; autorewrite with hs_bits in *.

(** [zcmp_lia] decides the comparisons, [decide]s and C truth tests of
    the goal whose outcome follows from the hypotheses by [lia]. *)
Ltac zcmp_lia :=
  repeat match goal with
  | |- context [?a <? ?b] =>
      first [rewrite (proj2 (Z.ltb_ge a b)) by lia | rewrite (proj2 (Z.ltb_lt a b)) by lia]
  | |- context [decide ?P] => destruct (decide P); [try (exfalso; lia)..]
  | |- context [c_true ?a] =>
      first [rewrite (c_true_nz a) by lia | replace a with 0 by lia; rewrite c_true_0]
  end.

(** ** Frames: what an operation leaves alone *)

(** [frame obs m]: running [m] never changes the observation [obs] of the
    state. *)
Definition frame {S A B} (obs : S -> B) (m : StM S A) : Prop :=
  forall s, obs (m @@ s)%hs = obs s.

(** [g_frame x m]: running [m] never changes the variable [x]. *)
Abbreviation g_frame x := (frame (fun s : St => st_g s x)).

Section Frame.
Context {S B : Type} (obs : S -> B).

Lemma frame_ret {A} (a : A) : frame obs (mret a : StM S A).
Proof. done. Qed.

Lemma frame_bind {A C} (m : StM S A) (k : A -> StM S C) :
  frame obs m -> (forall a, frame obs (k a)) -> frame obs (m ≫= k).
Proof.
  intros Hm Hk s. unfold mbind, StM_bind.
  specialize (Hm s). destruct (m s) as [a s'] eqn:E. cbn in *.
  by rewrite Hk.
Qed.

Lemma frame_if {A} (b : bool) (m1 m2 : StM S A) :
  frame obs m1 -> frame obs m2 -> frame obs (if b then m1 else m2).
Proof. by destruct b. Qed.

Lemma frame_modify (f : S -> S) : (forall s, obs (f s) = obs s) -> frame obs (modify f).
Proof. done. Qed.

Lemma frame_gets {A} (f : S -> A) : frame obs (gets f).
Proof. done. Qed.

Lemma frame_for_each {A} (l : list A) (body : A -> StM S unit) :
  (forall a, frame obs (body a)) -> frame obs (for_each l body).
Proof.
  intros Hb. induction l as [|a l IH]; [apply frame_ret|].
  apply frame_bind; [apply Hb|]. intros []. apply IH.
Qed.

End Frame.

(** The primitives that only touch the read counters, the timer or the
    work queue. *)
Section FramePrim.
Context {B : Type} (obs : St -> B).
Context (Hcounts : forall na nc ng s, obs (set_counts na nc ng s) = obs s)
        (Htimer : forall t s, obs (set_timer t s) = obs s)
        (Hwq : forall q s, obs (set_wq q s) = obs s).

Lemma frame_adi_read addr : frame obs (adi_read addr).
Proof. intros s. unfold adi_read. case_decide; [apply Hcounts|done]. Qed.

Lemma frame_mod_timer t : frame obs (mod_timer t).
Proof. intros s. apply Htimer. Qed.

Lemma frame_queue_work w : frame obs (queue_work w).
Proof. intros s. unfold queue_work. case_decide; [done|apply Hwq]. Qed.

Lemma frame_sci_adc : frame obs sci_adc_get_value.
Proof. intros s. apply Hcounts. Qed.

Lemma frame_gpio_get gpio : frame obs (gpio_get_value gpio).
Proof. intros s. apply Hcounts. Qed.
End FramePrim.

Create HintDb frame discriminated.
#[export] Hint Resolve frame_ret frame_gets : frame.
#[export] Hint Extern 1 (frame _ (modify _)) =>
  apply frame_modify; intros; cbn; autorewrite with hs_bits; reflexivity : frame.
#[export] Hint Extern 1 (frame _ (adi_read _)) =>
  apply frame_adi_read; intros; reflexivity : frame.
#[export] Hint Extern 1 (frame _ (mod_timer _)) =>
  apply frame_mod_timer; intros; reflexivity : frame.
#[export] Hint Extern 1 (frame _ (queue_work _)) =>
  apply frame_queue_work; intros; reflexivity : frame.
#[export] Hint Extern 1 (frame _ sci_adc_get_value) =>
  apply frame_sci_adc; intros; reflexivity : frame.
#[export] Hint Extern 1 (frame _ (gpio_get_value _)) =>
  apply frame_gpio_get; intros; reflexivity : frame.

(** [frame_solve] proves a frame goal by following the structure of the
    computation: binds, conditionals, loops and matches, down to the
    primitives of the hint database [frame]. *)
Ltac frame_solve :=
  repeat first
    [ solve [eauto with frame]
    | apply frame_bind; intros
    | apply frame_if
    | apply frame_for_each; intros
    | progress unfold get_g, put_g, emit, adi, gpio_direction_output, irq_set_irq_type,
        disable_irq, enable_irq, mdelay, msleep, jiffies, input_event, input_sync,
        sprd_codec_headmic_bias_control
    | match goal with |- frame _ (match ?t with _ => _ end) => destruct t end ].

(** ** Invariants kept by an operation *)

(** [keeps P m]: running [m] from a state where [P] holds ends in one
    where [P] holds. *)
Definition keeps {A} (P : St -> Prop) (m : M A) : Prop :=
  forall s, P s -> P (m @@ s)%hs.

Section Keeps.
Context (P : St -> Prop).

Lemma keeps_ret {A} (a : A) : keeps P (mret a).
Proof. intros s Hs. exact Hs. Qed.

Lemma keeps_bind {A C} (m : M A) (k : A -> M C) :
  keeps P m -> (forall a, keeps P (k a)) -> keeps P (m ≫= k).
Proof.
  intros Hm Hk s Hs. unfold mbind, StM_bind.
  specialize (Hm s Hs). destruct (m s) as [a s']. by apply Hk.
Qed.

Lemma keeps_if {A} (b : bool) (m1 m2 : M A) :
  keeps P m1 -> keeps P m2 -> keeps P (if b then m1 else m2).
Proof. by destruct b. Qed.

(** An invariant that only reads [obs] is kept by an operation that
    leaves [obs] alone. *)
Lemma keeps_frame {A B} (obs : St -> B) (m : M A) :
  (forall s s', obs s = obs s' -> P s -> P s') -> frame obs m -> keeps P m.
Proof. intros HP Hm s Hs. apply (HP s); [by rewrite Hm|done]. Qed.
End Keeps.
