(* ===== verification/Notifier.v ===== *)
(** * The plug notifier chain

    [headset_plug_notify_list] is a blocking notifier chain (lines 119,
    129-139).  The chain operations are the kernel's
    (kernel/notifier.c, not in the repository), written from their
    documented behaviour: [notifier_chain_register] inserts a block before
    the first block of strictly lower priority, so the chain stays sorted
    by non-increasing priority and blocks of equal priority are called in
    registration order; [notifier_chain_unregister] removes the block or
    answers -ENOENT; [notifier_call_chain] calls the blocks in order and
    stops after a callback that answers with NOTIFY_STOP_MASK.  The
    callbacks themselves are outside the driver: a call is the event
    [EvNotify id val] in the trace. *)

From S2P Require Import Prelude Adi Kernel.
From stdpp Require Import base gmap list sorting.
From Stdlib Require Import ZArith Lia.

Local Open Scope Z_scope.

Definition ENOENT : Z := 2.

Fixpoint notifier_chain_register (n : notifier_block) (l : list notifier_block)
  : list notifier_block :=
  match l with
  | [] => [n]
  | x :: l' => if nb_priority n >? nb_priority x then n :: l
               else x :: notifier_chain_register n l'
  end.

Fixpoint notifier_chain_unregister (n : notifier_block) (l : list notifier_block)
  : option (list notifier_block) :=
  match l with
  | [] => None
  | x :: l' => if decide (x = n) then Some l'
               else (x ::.) <$> notifier_chain_unregister n l'
  end.

(** The callbacks called for [val], in order, up to the first that
    stops the chain. *)
Fixpoint notifier_call_chain (l : list notifier_block) (val : Z) : list Ev :=
  match l with
  | [] => []
  | x :: l' => EvNotify (nb_id x) val ::
               (if nb_stop x then [] else notifier_call_chain l' val)
  end.

Definition register_headset_plug_notifier (nb : notifier_block) : M Z :=
  modify (fun s => set_chain (notifier_chain_register nb (st_chain s)) s) ;;
  mret 0.

Definition unregister_headset_plug_notifier (nb : notifier_block) : M Z :=
  c ← gets st_chain;
  match notifier_chain_unregister nb c with
  | Some c' => modify (set_chain c') ;; mret 0
  | None => mret (- ENOENT)
  end.

Definition blocking_notifier_call_chain (val : Z) : M unit :=
  modify (fun s => set_trace (st_trace s ++ notifier_call_chain (st_chain s) val) s).

(** ** The chain stays sorted *)

Definition prio_ge (a b : notifier_block) : Prop := nb_priority b <= nb_priority a.

#[export] Instance prio_ge_dec a b : Decision (prio_ge a b).
Proof. unfold prio_ge. apply _. Defined.

(** The chain is sorted by non-increasing priority. *)
Definition chain_sorted (l : list notifier_block) : Prop := Sorted prio_ge l.

Lemma register_hd_rel n x l :
  prio_ge x n -> HdRel prio_ge x l -> HdRel prio_ge x (notifier_chain_register n l).
Proof.
  intros Hxn Hl. destruct l as [|y l]; cbn; [by constructor|].
  destruct (Z.gtb_spec (nb_priority n) (nb_priority y)); constructor;
    [done | by inversion Hl].
Qed.

Lemma register_sorted n l :
  chain_sorted l -> chain_sorted (notifier_chain_register n l).
Proof.
  unfold chain_sorted. induction 1 as [|x l Hl IH Hx]; cbn; [by repeat constructor|].
  destruct (Z.gtb_spec (nb_priority n) (nb_priority x)) as [Hgt|Hle].
  - constructor; [by constructor|]. constructor. unfold prio_ge. lia.
  - constructor; [done|]. apply register_hd_rel; [unfold prio_ge; lia|done].
Qed.

Lemma unregister_register n l :
  n ∉ l -> notifier_chain_unregister n (notifier_chain_register n l) = Some l.
Proof.
  induction l as [|x l IH]; intros Hn; cbn; [by rewrite decide_True|].
  destruct (nb_priority n >? nb_priority x); cbn.
  - by rewrite decide_True.
  - rewrite decide_False by (intros ->; apply Hn; constructor).
    rewrite IH; [done|]. intros Hin. apply Hn. by constructor.
Qed.

(** Unregistering a block just registered with
    [register_headset_plug_notifier], that was not on the chain before,
    answers 0 and gives back the chain. *)
Theorem unregister_after_register nb s :
  nb ∉ st_chain s ->
  let s1 := (register_headset_plug_notifier nb @@ s)%hs in
  unregister_headset_plug_notifier nb s1 = (0, set_chain (st_chain s) s1).
Proof.
  intros Hn. unfold unregister_headset_plug_notifier,
    register_headset_plug_notifier. hs_step. cbn [snd st_chain set_chain].
  by rewrite unregister_register.
Qed.

Lemma unregister_after_register_witness :
  let s := set_chain [mkNb 1 10 false]
             (boot_state (mkHw (fun _ => 0) (fun _ => 0) (fun _ => 0)) ∅) in
  (mkNb 3 5 false ∉ st_chain s)
  /\ st_chain (unregister_headset_plug_notifier (mkNb 3 5 false)
                 (register_headset_plug_notifier (mkNb 3 5 false) @@ s)%hs).2
     = [mkNb 1 10 false].
Proof.
  intros s. assert (H : mkNb 3 5 false ∉ st_chain s)
    by (cbn; rewrite list_elem_of_singleton; discriminate).
  split; [exact H|]. by rewrite (unregister_after_register _ s H).
Defined.

(** When no callback stops the chain, every registered block
    is called once, in chain order, with the value given. *)
Theorem notifier_call_chain_all l val :
  Forall (fun x => nb_stop x = false) l ->
  notifier_call_chain l val = map (fun x => EvNotify (nb_id x) val) l.
Proof. induction 1 as [|x l Hx _ IH]; cbn; [done|]. by rewrite Hx, IH. Qed.

Lemma notifier_call_chain_all_witness :
  Forall (fun x => nb_stop x = false) [mkNb 1 10 false; mkNb 2 0 false]
  /\ notifier_call_chain [mkNb 1 10 false; mkNb 2 0 false] 1
     = [EvNotify 1 1; EvNotify 2 1].
Proof.
  assert (H : Forall (fun x => nb_stop x = false) [mkNb 1 10 false; mkNb 2 0 false])
    by (repeat constructor).
  split; [exact H|]. by rewrite (notifier_call_chain_all _ 1 H).
Defined.
