(* ===== verification/Classifier.v ===== *)
(** * The analog classifier: ADC sampling and headset typing

    [headset_read_adc] (headset_sprd.c lines 177-196) prepares the detect
    circuit, routes the ADC, waits, takes [ADC_FIFO_CNT] = 5 conversions
    into a zeroed array and returns the element at index 2: not a sorted
    median.  [ignore_wrong_button] and [detect_headset_type] compare two
    such readings through the macro [ABS], which the preprocessor expands
    without parentheses around the operand of the negation:
    [ABS(a - b)] is [((a - b) < 0) ? (-a - b) : (a - b)].  [ABS] below is
    that expansion.  [headset_button_down] and [headset_plug_in] decode the
    comparator status register DETECT_REG(0xC0). *)

From S2P Require Import Prelude Adi Kernel.
From stdpp Require Import base gmap list.
From Stdlib Require Import ZArith Lia.

Local Open Scope Z_scope.

Definition ADC_FIFO_CNT : nat := 5.
Definition HEADSET_TYPE_ADC_DISPART_VALUE : Z := 100 * 4.
Definition HEADSET_TYPE_GND_VALUE : Z := 200.

Inductive SPRD_HEADSET_TYPE :=
| HEADSET_NORMAL
| HEADSET_NO_MIC
| HEADSET_NORTH_AMERICA
| HEADSET_APPLE
| HEADSET_TYPE_MAX.

#[export] Instance SPRD_HEADSET_TYPE_eq_dec : EqDecision SPRD_HEADSET_TYPE.
Proof. solve_decision. Defined.

(** [ABS(a - b)] as expanded: [(((a - b) < (0)) ? (-a - b) : (a - b))]. *)
Definition ABS (a b : Z) : Z := if a - b <? 0 then - a - b else a - b.

(** The loop [for (count = 0; count < ADC_FIFO_CNT; count++)
    adc_val[count] = sci_adc_get_value(...)], from index [count] with [n]
    iterations left. *)
Fixpoint adc_fill (count n : nat) (adc_val : list Z) : M (list Z) :=
  match n with
  | O => mret adc_val
  | S n' => v ← sci_adc_get_value; adc_fill (S count) n' (<[count := v]> adc_val)
  end.

(** [headset_read_adc(&adc_v, headmic)]: the value stored in [*adc_v]. *)
Definition headset_read_adc (headmic : Z) : M Z :=
  adi headset_detect_init ;;
  adi (headset_detect_circuit 1) ;;
  adi (set_adc_to_headmic headmic) ;;
  d ← get_g headset_read_adc_delay;
  mdelay d ;;
  adc_val ← adc_fill 0 ADC_FIFO_CNT (replicate ADC_FIFO_CNT 0);
  mret (default 0 (adc_val !! (ADC_FIFO_CNT / 2)%nat)).

(** The decision of [ignore_wrong_button] on its two readings. *)
Definition ignore_decision (adc_mic adc_l : Z) : Z :=
  if ABS adc_mic adc_l <? HEADSET_TYPE_ADC_DISPART_VALUE then
    if ABS adc_mic 0 <? 500 then 0 else 1
  else 0.

Definition ignore_wrong_button : M Z :=
  adc_mic ← headset_read_adc 1;
  adc_l ← headset_read_adc 0;
  mret (ignore_decision adc_mic adc_l).

(** The decision of [detect_headset_type] on its two readings. *)
Definition headset_type_decision (adc_mic adc_l : Z) : SPRD_HEADSET_TYPE :=
  if ABS adc_mic adc_l <? HEADSET_TYPE_ADC_DISPART_VALUE then
    if ABS adc_mic 0 <? HEADSET_TYPE_GND_VALUE then HEADSET_NO_MIC
    else HEADSET_NORTH_AMERICA
  else HEADSET_NORMAL.

Definition detect_headset_type : M SPRD_HEADSET_TYPE :=
  adc_mic ← headset_read_adc 1;
  adc_l ← headset_read_adc 0;
  mret (headset_type_decision adc_mic adc_l).

Definition headset_button_down : M Z :=
  st ← adi_read (HEADMIC_DETECT_REG 0xC0);
  let button_status := Z.land st (Z.lor (BIT 5) (Z.lor (BIT 6) (BIT 7))) in
  mret (if button_status =? 0xe0 then 1 else 0).

(** [(plug_status == 0x60) && gpio_get_value(pdata->detect_gpio)]: the
    GPIO is read only when the comparators report a plug. *)
Definition headset_plug_in : M Z :=
  st ← adi_read (HEADMIC_DETECT_REG 0xC0);
  let plug_status := Z.land st (Z.lor (BIT 5) (BIT 6)) in
  if plug_status =? 0x60 then
    gpio ← get_g detect_gpio;
    lvl ← gpio_get_value gpio;
    mret (if c_true lvl then 1 else 0)
  else mret 0.

(** ** The abstract classifier of the spec, with a true absolute value *)

Definition classify_spec (adc_mic adc_l : Z) : SPRD_HEADSET_TYPE :=
  if Z.abs (adc_mic - adc_l) <? HEADSET_TYPE_ADC_DISPART_VALUE then
    if Z.abs adc_mic <? HEADSET_TYPE_GND_VALUE then HEADSET_NO_MIC
    else HEADSET_NORTH_AMERICA
  else HEADSET_NORMAL.

(** ** The sampling loop and [headset_read_adc] *)

(** The loop stores conversion [k] of this call at index [count + k], for
    the [n] indices inside the array, and consumes [n] conversions. *)
Lemma adc_fill_spec count n adc_val s :
  let '(r, s') := adc_fill count n adc_val s in
  s' = set_counts (st_nadc s + n) (st_nc0 s) (st_ngpio s) s
  /\ forall i, r !! i =
       if decide (count <= i < count + n /\ i < length adc_val)%nat
       then Some (adc_sample (st_hw s) (st_nadc s + (i - count)))
       else adc_val !! i.
Proof.
  revert count adc_val s. induction n as [|n IH]; intros count adc_val s; cbn.
  - split; [rewrite Nat.add_0_r; by destruct s|]. intros i. case_decide; [lia|done].
  - specialize (IH (S count) (<[count:=adc_sample (st_hw s) (st_nadc s)]> adc_val)
                  (set_counts (S (st_nadc s)) (st_nc0 s) (st_ngpio s) s)).
    unfold mbind, StM_bind, sci_adc_get_value.
    destruct (adc_fill _ _ _ _) as [r s']. destruct IH as [-> Hr]. split.
    + by rewrite Nat.add_succ_r.
    + intros i. rewrite Hr, length_insert, list_lookup_insert. cbn.
      repeat case_decide; try (f_equal; f_equal; lia); (lia || done).
Qed.

(** [headset_read_adc headmic] returns the third of five consecutive
    conversions, after programming the detect block and routing the ADC;
    it leaves the rest of the state alone but for the clock, advanced by
    [headset_read_adc_delay]. *)
Lemma headset_read_adc_spec headmic s :
  headset_read_adc headmic s =
  (adc_sample (st_hw s) (st_nadc s + 2),
   set_counts (st_nadc s + 5) (st_nc0 s) (st_ngpio s)
     (set_now (st_now s + st_g s headset_read_adc_delay)
        (set_regs (set_adc_to_headmic headmic
                     (headset_detect_circuit 1 (headset_detect_init (st_regs s)))) s))).
Proof.
  unfold headset_read_adc, adi, get_g, mdelay. hs_step.
  match goal with |- context [adc_fill 0 ADC_FIFO_CNT ?l ?s0] =>
    pose proof (adc_fill_spec 0 ADC_FIFO_CNT l s0) as H;
    destruct (adc_fill 0 ADC_FIFO_CNT l s0) as [r s'] end.
  destruct H as [-> Hr]. cbn. rewrite Hr. reflexivity.
Qed.

(** Two readings in a row, mic then ground, as [ignore_wrong_button] and
    [detect_headset_type] take them: conversions [n+2] and [n+7]. *)
Definition two_reads_state (s : St) : St :=
  let r1 := set_adc_to_headmic 1 (headset_detect_circuit 1 (headset_detect_init (st_regs s))) in
  let r2 := set_adc_to_headmic 0 (headset_detect_circuit 1 (headset_detect_init r1)) in
  set_counts (st_nadc s + 10) (st_nc0 s) (st_ngpio s)
    (set_now (st_now s + st_g s headset_read_adc_delay + st_g s headset_read_adc_delay)
       (set_regs r2 s)).

Lemma two_reads_spec {A} (k : Z -> Z -> A) s :
  (adc_mic ← headset_read_adc 1; adc_l ← headset_read_adc 0; mret (k adc_mic adc_l)) s
  = (k (adc_sample (st_hw s) (st_nadc s + 2)) (adc_sample (st_hw s) (st_nadc s + 7)),
     two_reads_state s).
Proof.
  hs_step. rewrite headset_read_adc_spec. cbn beta iota.
  rewrite headset_read_adc_spec. cbn. by rewrite <- !Nat.add_assoc.
Qed.

(** [detect_headset_type] decides on conversions [n+2] (mic routed) and
    [n+7] (ground routed). *)
Lemma detect_headset_type_spec s :
  detect_headset_type s =
  (headset_type_decision (adc_sample (st_hw s) (st_nadc s + 2))
                         (adc_sample (st_hw s) (st_nadc s + 7)),
   two_reads_state s).
Proof. apply two_reads_spec. Qed.

Lemma ignore_wrong_button_spec s :
  ignore_wrong_button s =
  (ignore_decision (adc_sample (st_hw s) (st_nadc s + 2))
                   (adc_sample (st_hw s) (st_nadc s + 7)),
   two_reads_state s).
Proof. apply two_reads_spec. Qed.

Lemma ABS_nonneg_diff a b : b <= a -> ABS a b = Z.abs (a - b).
Proof. intros H. unfold ABS. destruct (Z.ltb_spec (a - b) 0); lia. Qed.

Lemma ABS_below a b : a < b -> ABS a b = - a - b.
Proof. intros H. unfold ABS. destruct (Z.ltb_spec (a - b) 0); lia. Qed.

(** (C4) Where the mic reading is at least the ground reading, the
    driver's classification is the spec's: mic and ground within 400 of
    each other give NO_MIC below 200 and NORTH_AMERICA above, and readings
    further apart give NORMAL. *)
Theorem headset_type_decision_spec adc_mic adc_l :
  0 <= adc_l <= adc_mic ->
  headset_type_decision adc_mic adc_l = classify_spec adc_mic adc_l.
Proof.
  intros H. unfold headset_type_decision, classify_spec.
  rewrite !ABS_nonneg_diff by lia. by rewrite Z.sub_0_r.
Qed.

Lemma headset_type_decision_spec_witness :
  headset_type_decision 3000 500 = HEADSET_NORMAL
  /\ headset_type_decision 3000 500 = classify_spec 3000 500.
Proof.
  split; [reflexivity|]. apply headset_type_decision_spec. lia.
Defined.

(** (C5) Where the mic reading is below the ground reading, [ABS]
    computes [-adc_mic - adc_l], which is negative for readings that are
    not both 0, so the pair always counts as "close": the driver never
    answers NORMAL there, however far apart the readings are.  The spec's
    example [(80, 5000)] is NORMAL for the spec and NO_MIC for the
    driver. *)
Theorem headset_type_decision_mic_below adc_mic adc_l :
  0 <= adc_mic < adc_l ->
  headset_type_decision adc_mic adc_l
  = (if adc_mic <? HEADSET_TYPE_GND_VALUE then HEADSET_NO_MIC
     else HEADSET_NORTH_AMERICA)
  /\ (HEADSET_TYPE_ADC_DISPART_VALUE <= adc_l - adc_mic ->
      classify_spec adc_mic adc_l = HEADSET_NORMAL).
Proof.
  intros H. unfold headset_type_decision, classify_spec.
  rewrite ABS_below by lia. rewrite (ABS_nonneg_diff adc_mic 0) by lia.
  unfold HEADSET_TYPE_ADC_DISPART_VALUE. split.
  - rewrite (proj2 (Z.ltb_lt _ _)) by lia. by rewrite Z.sub_0_r, Z.abs_eq by lia.
  - intros Hfar. rewrite (proj2 (Z.ltb_ge _ _)); [done|]. rewrite Z.abs_neq; lia.
Qed.

Lemma headset_type_decision_mic_below_witness :
  headset_type_decision 80 5000 = HEADSET_NO_MIC
  /\ classify_spec 80 5000 = HEADSET_NORMAL.
Proof.
  destruct (headset_type_decision_mic_below 80 5000 ltac:(lia)) as [H1 H2].
  split; [exact H1 | apply H2; vm_compute; discriminate].
Defined.

(** (C9) When the two readings of [ignore_wrong_button] are equal, it
    answers "ignore" (1) exactly when they are at least 500: two equal
    readings near 0, which the spec's P5 says must be rejected, are let
    through as a genuine button event. *)
Theorem ignore_wrong_button_equal s v :
  adc_sample (st_hw s) (st_nadc s + 2) = v ->
  adc_sample (st_hw s) (st_nadc s + 7) = v -> 0 <= v ->
  (ignore_wrong_button s).1 = if v <? 500 then 0 else 1.
Proof.
  intros H1 H2 Hv. rewrite ignore_wrong_button_spec, H1, H2. cbn [fst].
  unfold ignore_decision. rewrite (ABS_nonneg_diff v v), (ABS_nonneg_diff v 0) by lia.
  rewrite Z.sub_diag, Z.sub_0_r, Z.abs_eq by lia. rewrite (Z.abs_eq v) by lia. reflexivity.
Qed.

Lemma ignore_wrong_button_equal_witness :
  let s := boot_state (mkHw (fun _ => 80) (fun _ => 0) (fun _ => 1)) ∅ in
  adc_sample (st_hw s) (st_nadc s + 2) = 80
  /\ adc_sample (st_hw s) (st_nadc s + 7) = 80
  /\ (ignore_wrong_button s).1 = 0.
Proof.
  intros s. assert (H1 : adc_sample (st_hw s) (st_nadc s + 2) = 80) by reflexivity.
  assert (H2 : adc_sample (st_hw s) (st_nadc s + 7) = 80) by reflexivity.
  split; [exact H1|]. split; [exact H2|].
  rewrite (ignore_wrong_button_equal s 80 H1 H2 ltac:(lia)). reflexivity.
Defined.

(** ** The status-register decoders *)

Lemma headset_button_down_spec s :
  headset_button_down s =
  (if Z.land (u32 (status_c0 (st_hw s) (st_nc0 s))) 0xe0 =? 0xe0 then 1 else 0,
   set_counts (st_nadc s) (S (st_nc0 s)) (st_ngpio s) s).
Proof.
  unfold headset_button_down. hs_step. unfold adi_read.
  rewrite decide_True by done. reflexivity.
Qed.

Lemma headset_plug_in_spec s :
  headset_plug_in s =
  if Z.land (u32 (status_c0 (st_hw s) (st_nc0 s))) 0x60 =? 0x60
  then (if c_true (detect_level (st_hw s) (st_ngpio s)) then 1 else 0,
        set_counts (st_nadc s) (S (st_nc0 s)) (S (st_ngpio s)) s)
  else (0, set_counts (st_nadc s) (S (st_nc0 s)) (st_ngpio s) s).
Proof.
  unfold headset_plug_in. hs_step. unfold adi_read.
  rewrite decide_True by done. cbn. by destruct (_ =? 0x60).
Qed.
