(* ===== verification/Gates.v ===== *)
(** * The guarded toggles: [headset_button_irq_enable] and [headset_pwr_on]

    Both keep a function-static flag and call the kernel only on a change:
    [headset_button_irq_enable] (lines 269-288) calls [disable_irq] /
    [enable_irq] on the button line under [headmic_button_irq_lock], and
    [headset_pwr_on] (lines 290-307) calls the codec's mic-bias control.
    Here a call runs as one step; the lock, and the worker preempted
    inside the body, are modelled in Preempt.v.

    The theorems show that the flags keep the kernel calls balanced: the
    nesting depth of the button interrupt is [1 - button_irq_enable], so
    [enable_irq] is never called on an enabled line, and the bias calls
    alternate on, off, on, ... *)

From S2P Require Import Prelude Adi Kernel.
From stdpp Require Import base gmap list.
From Stdlib Require Import ZArith Lia.

Local Open Scope Z_scope.

Definition headset_button_irq_enable (enable irq : Z) : M unit :=
  e ← get_g button_irq_enable;
  if negb (c_true enable) then
    if c_true e then disable_irq irq ;; put_g button_irq_enable 0
    else mret tt
  else
    if negb (c_true e) then enable_irq irq ;; put_g button_irq_enable 1
    else mret tt.

Definition headset_pwr_on (pwr_on : Z) : M unit :=
  f ← get_g pwr_down_flags;
  if c_true pwr_on then
    if c_true f then sprd_codec_headmic_bias_control 1 1 ;; put_g pwr_down_flags 0
    else mret tt
  else
    if negb (c_true f) then sprd_codec_headmic_bias_control 0 1 ;; put_g pwr_down_flags 1
    else mret tt.

(** ** The button interrupt gate *)

Section IrqGate.
Context (irq : Z).

(** The static flag is 0 or 1 and the line's nesting depth is its
    complement. *)
Definition gate_ok (s : St) : Prop :=
  (st_g s button_irq_enable = 0 \/ st_g s button_irq_enable = 1)
  /\ irq_depth s irq = 1 - st_g s button_irq_enable.

Lemma button_irq_enable_run enable s :
  gate_ok s ->
  headset_button_irq_enable enable irq s
  = let want := if c_true enable then 1 else 0 in
    if decide (st_g s button_irq_enable = want) then (tt, s)
    else (tt, set_g button_irq_enable want
                (set_trace (st_trace s ++
                   [if c_true enable then EvIrqEnable irq else EvIrqDisable irq])
                   (set_irq s (st_irq_type s)
                      (<[irq := irq_depth s irq + (if c_true enable then -1 else 1)]>
                         (st_irq_depth s))))).
Proof.
  intros [[E|E] _]; unfold headset_button_irq_enable, get_g, put_g,
    disable_irq, enable_irq, emit; hs_step; rewrite E;
    destruct (c_true enable); cbn; try reflexivity; do 2 f_equal; lia.
Qed.

(** One call keeps the gate invariant and sets the flag as asked. *)
Lemma button_irq_enable_gate enable s :
  gate_ok s ->
  gate_ok (headset_button_irq_enable enable irq @@ s)%hs
  /\ st_g (headset_button_irq_enable enable irq @@ s)%hs button_irq_enable
     = (if c_true enable then 1 else 0).
Proof.
  intros Hok. rewrite button_irq_enable_run by done.
  destruct Hok as [Hf Hd]. cbn.
  case_decide as Heq; cbn; [split; [split|]; done|].
  unfold gate_ok, irq_depth in *. cbn. rewrite upd_g_same, lookup_insert_eq.
  cbn. destruct (c_true enable); lia.
Qed.

(** (C12) Whatever the sequence of calls of
    [headset_button_irq_enable] on the button line, the gate invariant
    holds after it: the line is disabled exactly once when the flag is 0
    and not at all when it is 1, so the kernel never sees an unbalanced
    [enable_irq] nor a nested [disable_irq]. *)
Theorem button_irq_enable_gate_ok (es : list Z) s :
  gate_ok s ->
  gate_ok (for_each es (fun e => headset_button_irq_enable e irq) @@ s)%hs
  /\ 0 <= irq_depth (for_each es (fun e => headset_button_irq_enable e irq) @@ s)%hs irq <= 1.
Proof.
  revert s. induction es as [|e es IH]; intros s Hok.
  - destruct Hok as [[E|E] Hd]; cbn; (split; [split; [by eauto|done]|lia]).
  - rewrite for_each_cons. apply IH. apply button_irq_enable_gate. done.
Qed.
End IrqGate.

Lemma button_irq_enable_gate_ok_witness :
  let s0 := mkSt (mkHw (fun _ => 0) (fun _ => 0) (fun _ => 0)) ∅ 0 0 0 0 []
              (fun v => if decide (v = button_irq_enable) then 1 else 0)
              [] ∅ ∅ ∅ None [] [] in
  gate_ok 7 s0 /\
  gate_ok 7 (for_each [0; 0; 1; 1; 0] (fun e => headset_button_irq_enable e 7) @@ s0)%hs.
Proof.
  intros s0. assert (H : gate_ok 7 s0) by (split; [right|]; reflexivity).
  split; [exact H|]. apply (button_irq_enable_gate_ok 7 [0; 0; 1; 1; 0] s0 H).
Defined.

(** ** The mic bias supply *)

(** The bias calls of a trace, in order. *)
Fixpoint bias_calls (tr : list Ev) : list Z :=
  match tr with
  | [] => []
  | EvBias on :: tr' => on :: bias_calls tr'
  | _ :: tr' => bias_calls tr'
  end.

Lemma bias_calls_app tr1 tr2 : bias_calls (tr1 ++ tr2) = bias_calls tr1 ++ bias_calls tr2.
Proof. induction tr1 as [|[] tr1 IH]; cbn; rewrite ?IH; done. Qed.

(** on, off, on, off, ... of length [k]. *)
Definition bias_pattern (k : nat) : list Z :=
  map (fun i => if Nat.even i then 1 else 0) (seq 0 k).

Lemma bias_pattern_S k :
  bias_pattern (S k) = bias_pattern k ++ [if Nat.even k then 1 else 0].
Proof. unfold bias_pattern. by rewrite seq_S, map_app. Qed.

(** After [k] bias calls the flag says "powered down" exactly when [k]
    is even. *)
Definition pwr_ok (s : St) : Prop :=
  exists k, bias_calls (st_trace s) = bias_pattern k
            /\ st_g s pwr_down_flags = if Nat.even k then 1 else 0.

(** One call keeps the bias calls alternating and leaves the supply in
    the requested state. *)
Lemma headset_pwr_on_ok pwr_on s :
  pwr_ok s ->
  pwr_ok (headset_pwr_on pwr_on @@ s)%hs
  /\ st_g (headset_pwr_on pwr_on @@ s)%hs pwr_down_flags
     = (if c_true pwr_on then 0 else 1).
Proof.
  intros (k & Hk & Hf). unfold headset_pwr_on, get_g, put_g,
    sprd_codec_headmic_bias_control, emit. hs_step. rewrite Hf.
  destruct (c_true pwr_on), (Nat.even k) eqn:Ek; cbn;
    (split; [|rewrite ?upd_g_same; done]);
    [exists (S k) | exists k | exists k | exists (S k)]; cbn [st_trace st_g set_g set_trace];
    rewrite ?bias_calls_app, ?Hk, ?bias_pattern_S, ?upd_g_same, ?Nat.even_succ,
      <- ?Nat.negb_even, ?Ek; by split.
Qed.

(** Whatever the sequence of [headset_pwr_on] calls, the codec
    sees the bias switched on, off, on, off, ... starting with "on": never
    twice in a row the same request, and [pwr_down_flags] tells the state
    of the supply. *)
Theorem headset_pwr_on_alternates (ps : list Z) s :
  pwr_ok s -> pwr_ok (for_each ps headset_pwr_on @@ s)%hs.
Proof.
  revert s. induction ps as [|p ps IH]; intros s Hok; [done|].
  rewrite for_each_cons. apply IH. apply headset_pwr_on_ok. done.
Qed.

Lemma headset_pwr_on_alternates_witness :
  let s0 := boot_state (mkHw (fun _ => 0) (fun _ => 0) (fun _ => 0)) ∅ in
  pwr_ok s0 /\ pwr_ok (for_each [1; 1; 0; 1; 0; 0] headset_pwr_on @@ s0)%hs
  /\ bias_calls (st_trace (for_each [1; 1; 0; 1; 0; 0] headset_pwr_on @@ s0)%hs)
     = [1; 0; 1; 0].
Proof.
  intros s0. assert (H : pwr_ok s0) by (exists 0%nat; split; reflexivity).
  split; [exact H|]. split; [apply (headset_pwr_on_alternates _ s0 H)|].
  reflexivity.
Defined.
