(* ===== verification/Button.v ===== *)
(** * The button state machine

    The button table is [pdata->headset_button[0 .. nbuttons)], the list
    [st_buttons]; each entry has an ADC range, a key code and a
    pressed/released state.  [headset_button_release] (lines 310-328)
    releases every pressed entry with a key-up, and
    [headset_button_workqueue_func] (lines 331-390) is the button work: it
    may re-arm the detect timer and stop, stop when the headset is gone,
    or confirm the press by two reads of the status register 80 ms apart
    and emit one key event.  The key of a press is found by [scan_key],
    the loop of lines 361-368 (first matching range, [KEY_RESERVED] when a
    non-empty table has no match, the previous code for an empty table);
    the entry updates are [mark_first], the loops of lines 372-377 and
    382-387 (first entry whose code is the key). *)

From S2P Require Import Prelude Adi Kernel Classifier.
From stdpp Require Import base gmap list.
From Stdlib Require Import ZArith Lia.

Local Open Scope Z_scope.

Definition set_bstate (st : button_state) (b : headset_button) : headset_button :=
  mkButton (adc_min b) (adc_max b) (code b) (btype b) st.

Definition is_pressed (b : headset_button) : bool :=
  bool_decide (bstate b = HEADSET_BUTTON_STATE_PRESSED).

(** ** [headset_button_release] *)

(** The body of the loop for entry [i]. *)
Definition release_one (i : nat) : M unit :=
  bs ← gets st_buttons;
  match bs !! i with
  | Some b =>
      if is_pressed b then
        input_event EV_KEY (code b) 0 ;;
        input_sync ;;
        modify (set_buttons (<[i := set_bstate HEADSET_BUTTON_STATE_RELASED b]> bs))
      else mret tt
  | None => mret tt
  end.

Definition headset_button_release : M unit :=
  n ← gets (fun s => length (st_buttons s));
  for_each (seq 0 n) release_one.

(** ** The key lookup and the entry updates of the button work *)

(** [for (i = 0; i < nbuttons; i++) { if (in range) { key_code = code;
    break; } key_code = KEY_RESERVED; }] from the current [key_code]. *)
Fixpoint scan_key (bs : list headset_button) (adc_mic key : Z) : Z :=
  match bs with
  | [] => key
  | b :: bs' =>
      if (adc_min b <=? adc_mic) && (adc_mic <? adc_max b) then code b
      else scan_key bs' adc_mic KEY_RESERVED
  end.

(** [for (...) if (key_code == code) { state = st; break; }] *)
Fixpoint mark_first (key : Z) (st : button_state) (bs : list headset_button)
  : list headset_button :=
  match bs with
  | [] => []
  | b :: bs' => if code b =? key then set_bstate st b :: bs'
                else b :: mark_first key st bs'
  end.

(** ** [headset_button_workqueue_func] *)

(** Lines 355-389: the confirmation of the press and the key event. *)
Definition button_confirm_and_report : M unit :=
  state ← headset_button_down;
  adc_mic ← headset_read_adc 1;
  msleep 80 ;;
  state ← (if c_true state then
             d ← headset_button_down; mret (if c_true d then 1 else 0)
           else mret 0);
  bs ← gets st_buttons;
  kc ← get_g key_code;
  if c_true state then
    let kc' := scan_key bs adc_mic kc in
    put_g key_code kc' ;;
    input_event EV_KEY kc' 1 ;;
    modify (set_buttons (mark_first kc' HEADSET_BUTTON_STATE_PRESSED bs)) ;;
    input_sync
  else
    input_event EV_KEY kc 0 ;;
    modify (set_buttons (mark_first kc HEADSET_BUTTON_STATE_RELASED bs)) ;;
    input_sync.

Definition headset_button_workqueue_func : M unit :=
  ignore_button ← ignore_wrong_button;
  if c_true ignore_button then
    p ← get_g headset_timer_period;
    j ← jiffies;
    _ ← mod_timer (j + msecs_to_jiffies p);
    mret tt
  else
    plug ← headset_plug_in;
    if negb (c_true plug) then mret tt
    else button_confirm_and_report.

(** ** The release loop *)

(** The events of a release: a key-up and a sync per pressed entry. *)
Definition release_events (bs : list headset_button) : list Ev :=
  concat (map (fun b => if is_pressed b then [EvInput EV_KEY (code b) 0; EvSync] else []) bs).

Lemma set_bstate_released_id b :
  is_pressed b = false -> set_bstate HEADSET_BUTTON_STATE_RELASED b = b.
Proof.
  unfold is_pressed. destruct b as [? ? ? ? []]; cbn; [done|].
  by rewrite bool_decide_eq_true_2.
Qed.

Lemma release_one_spec pre b rest s :
  st_buttons s = pre ++ b :: rest ->
  release_one (length pre) s
  = (tt, set_buttons (pre ++ set_bstate HEADSET_BUTTON_STATE_RELASED b :: rest)
           (set_trace (st_trace s ++ release_events [b]) s)).
Proof.
  intros Hs. unfold release_one. hs_step.
  rewrite Hs, lookup_app_r, Nat.sub_diag by lia.
  change ((b :: rest) !! 0%nat) with (Some b). cbn beta iota.
  unfold release_events. cbn [map concat]. destruct (is_pressed b) eqn:Hb.
  - unfold input_event, input_sync, emit. hs_step.
    rewrite insert_app_r_alt, Nat.sub_diag by lia. cbn. by rewrite <- app_assoc.
  - rewrite set_bstate_released_id, <- Hs by done. cbn. rewrite app_nil_r. by destruct s.
Qed.

Lemma release_loop_spec pre rest s :
  st_buttons s = pre ++ rest ->
  for_each (seq (length pre) (length rest)) release_one s
  = (tt, set_buttons (pre ++ map (set_bstate HEADSET_BUTTON_STATE_RELASED) rest)
           (set_trace (st_trace s ++ release_events rest) s)).
Proof.
  revert pre s. induction rest as [|b rest IH]; intros pre s Hs.
  - cbn. rewrite ?app_nil_r in *. rewrite <- Hs. by destruct s.
  - cbn [seq length]. rewrite for_each_cons, (release_one_spec pre b rest s Hs).
    cbn [snd]. replace (S (length pre)) with
      (length (pre ++ [set_bstate HEADSET_BUTTON_STATE_RELASED b]))
      by (rewrite length_app; cbn; lia).
    rewrite IH by (cbn; by rewrite <- app_assoc). cbn.
    rewrite <- !app_assoc. reflexivity.
Qed.

(** [headset_button_release] releases every entry and emits the key-ups
    of the pressed ones, in table order. *)
Lemma headset_button_release_spec s :
  headset_button_release s
  = (tt, set_buttons (map (set_bstate HEADSET_BUTTON_STATE_RELASED) (st_buttons s))
           (set_trace (st_trace s ++ release_events (st_buttons s)) s)).
Proof.
  unfold headset_button_release. hs_step.
  apply (release_loop_spec [] (st_buttons s) s). done.
Qed.

(** ** The button work *)

Lemma button_confirm_trace s : exists c v,
  st_trace (button_confirm_and_report @@ s)%hs = st_trace s ++ [EvInput EV_KEY c v; EvSync].
Proof.
  unfold button_confirm_and_report, get_g, put_g, msleep, mdelay, input_event,
    input_sync, emit.
  hs_step. rewrite headset_button_down_spec. cbn beta iota.
  rewrite headset_read_adc_spec. cbn beta iota.
  destruct (c_true (if _ =? _ then 1 else 0)); hs_step;
    [rewrite headset_button_down_spec; cbn beta iota;
     destruct (c_true (if _ =? _ then 1 else 0))|];
    cbn; do 2 eexists; by rewrite <- app_assoc.
Qed.

(** A press confirmed by both status reads: key-down of the first entry
    whose range holds the fresh mic reading (conversion [n+2]), the entry
    marked pressed and the code remembered. *)
Lemma button_confirm_press s :
  Z.land (u32 (status_c0 (st_hw s) (st_nc0 s))) 0xe0 = 0xe0 ->
  Z.land (u32 (status_c0 (st_hw s) (S (st_nc0 s)))) 0xe0 = 0xe0 ->
  let s' := (button_confirm_and_report @@ s)%hs in
  let k := scan_key (st_buttons s) (adc_sample (st_hw s) (st_nadc s + 2)) (st_g s key_code) in
  st_trace s' = st_trace s ++ [EvInput EV_KEY k 1; EvSync]
  /\ st_buttons s' = mark_first k HEADSET_BUTTON_STATE_PRESSED (st_buttons s)
  /\ st_g s' key_code = k.
Proof.
  intros H1 H2. unfold button_confirm_and_report, get_g, put_g, msleep, mdelay,
    input_event, input_sync, emit.
  hs_step. rewrite headset_button_down_spec, H1, Z.eqb_refl, c_true_1. cbn beta iota.
  rewrite headset_read_adc_spec. hs_step. rewrite headset_button_down_spec.
  cbn [st_hw st_nc0 set_counts set_now set_regs]. rewrite H2, Z.eqb_refl, c_true_1.
  cbn. rewrite <- app_assoc, upd_g_same. by split.
Qed.

(** No press confirmed: key-up of the remembered code. *)
Lemma button_confirm_release s :
  (Z.land (u32 (status_c0 (st_hw s) (st_nc0 s))) 0xe0 <> 0xe0
   \/ Z.land (u32 (status_c0 (st_hw s) (S (st_nc0 s)))) 0xe0 <> 0xe0) ->
  let s' := (button_confirm_and_report @@ s)%hs in
  st_trace s' = st_trace s ++ [EvInput EV_KEY (st_g s key_code) 0; EvSync]
  /\ st_buttons s' = mark_first (st_g s key_code) HEADSET_BUTTON_STATE_RELASED (st_buttons s).
Proof.
  intros Hn. unfold button_confirm_and_report, get_g, put_g, msleep, mdelay,
    input_event, input_sync, emit.
  hs_step. rewrite headset_button_down_spec. cbn beta iota.
  rewrite headset_read_adc_spec. cbn beta iota.
  destruct (Z.eqb_spec (Z.land (u32 (status_c0 (st_hw s) (st_nc0 s))) 0xe0) 0xe0) as [E1|E1];
    rewrite ?c_true_1, ?c_true_0; cbn beta iota; hs_step.
  - rewrite headset_button_down_spec. cbn [st_hw st_nc0 set_counts set_now set_regs].
    destruct (Z.eqb_spec (Z.land (u32 (status_c0 (st_hw s) (S (st_nc0 s)))) 0xe0) 0xe0);
      [lia|]. rewrite c_true_0. cbn. by rewrite <- app_assoc.
  - cbn. by rewrite <- app_assoc.
Qed.

(** The first part of the work, up to the plug check: the ignore test on
    conversions [n+2] and [n+7], then the status and GPIO reads. *)
Lemma button_work_prefix s :
  headset_button_workqueue_func s =
  let s1 := two_reads_state s in
  if c_true (ignore_decision (adc_sample (st_hw s) (st_nadc s + 2))
                             (adc_sample (st_hw s) (st_nadc s + 7)))
  then (tt, set_timer (Some (st_now s1 + st_g s1 headset_timer_period)) s1)
  else if (Z.land (u32 (status_c0 (st_hw s) (st_nc0 s))) 0x60 =? 0x60)
          && c_true (detect_level (st_hw s) (st_ngpio s))
  then button_confirm_and_report
         (set_counts (st_nadc s1) (S (st_nc0 s)) (S (st_ngpio s)) s1)
  else (tt, set_counts (st_nadc s1) (S (st_nc0 s))
              (if Z.land (u32 (status_c0 (st_hw s) (st_nc0 s))) 0x60 =? 0x60
               then S (st_ngpio s) else st_ngpio s) s1).
Proof.
  unfold headset_button_workqueue_func, get_g, jiffies, mod_timer.
  hs_step. rewrite ignore_wrong_button_spec. cbn beta iota zeta.
  assert (Hw : st_hw (two_reads_state s) = st_hw s) by reflexivity.
  assert (Hc : st_nc0 (two_reads_state s) = st_nc0 s) by reflexivity.
  assert (Hg : st_ngpio (two_reads_state s) = st_ngpio s) by reflexivity.
  generalize dependent (two_reads_state s). intros s1 Hw Hc Hg.
  destruct (c_true _); [reflexivity|].
  rewrite headset_plug_in_spec, Hw, Hc, Hg.
  destruct (_ =? 0x60); cbn beta iota; [|reflexivity].
  destruct (c_true (detect_level _ _)); reflexivity.
Qed.

Lemma two_reads_state_frame s :
  st_hw (two_reads_state s) = st_hw s /\ st_nc0 (two_reads_state s) = st_nc0 s
  /\ st_ngpio (two_reads_state s) = st_ngpio s /\ st_nadc (two_reads_state s) = (st_nadc s + 10)%nat
  /\ st_trace (two_reads_state s) = st_trace s /\ st_buttons (two_reads_state s) = st_buttons s
  /\ st_g (two_reads_state s) = st_g s.
Proof. done. Qed.

(** (C7) The button work emits key events only after it has read
    the headset as present: nothing at all, or one key event and a sync
    when the ignore test passed, the comparators reported a plug and the
    detect GPIO was high. *)
Theorem button_work_emits_only_when_plugged s :
  let s' := (headset_button_workqueue_func @@ s)%hs in
  st_trace s' = st_trace s
  \/ exists c v, st_trace s' = st_trace s ++ [EvInput EV_KEY c v; EvSync]
     /\ ignore_decision (adc_sample (st_hw s) (st_nadc s + 2))
                        (adc_sample (st_hw s) (st_nadc s + 7)) = 0
     /\ Z.land (u32 (status_c0 (st_hw s) (st_nc0 s))) 0x60 = 0x60
     /\ detect_level (st_hw s) (st_ngpio s) <> 0.
Proof.
  cbn zeta. rewrite button_work_prefix. cbn zeta.
  destruct (c_true (ignore_decision _ _)) eqn:Ei; [by left|].
  destruct (Z.eqb_spec (Z.land (u32 (status_c0 (st_hw s) (st_nc0 s))) 0x60) 0x60) as [Ep|Ep];
    cbn [andb]; [|by left].
  destruct (c_true (detect_level _ _)) eqn:Eg; [|by left].
  right. destruct (button_confirm_trace
    (set_counts (st_nadc (two_reads_state s)) (S (st_nc0 s)) (S (st_ngpio s))
       (two_reads_state s))) as (c & v & Ht).
  exists c, v. rewrite Ht. split; [done|].
  split; [by apply c_true_false|]. split; [done|]. by apply c_true_true.
Qed.

(** (C8) When [ignore_wrong_button] says "ignore", the button work
    emits nothing, leaves the table alone and re-arms the detect timer one
    [headset_timer_period] after the two readings. *)
Theorem button_work_ignored s :
  ignore_decision (adc_sample (st_hw s) (st_nadc s + 2))
                  (adc_sample (st_hw s) (st_nadc s + 7)) <> 0 ->
  let s' := (headset_button_workqueue_func @@ s)%hs in
  st_trace s' = st_trace s /\ st_buttons s' = st_buttons s
  /\ st_timer s' = Some (st_now s + 2 * st_g s headset_read_adc_delay
                         + st_g s headset_timer_period).
Proof.
  intros Hi. cbn zeta. rewrite button_work_prefix. cbn zeta.
  rewrite (c_true_nz _ Hi). cbn.
  split; [done|]. split; [done|]. f_equal. lia.
Qed.

(** (C6) A press confirmed by both status reads (after the ignore
    test, the plug check and the 80 ms sleep) sends a key-down for the
    first table entry whose range holds the fresh mic reading, conversion
    [n+12], marks that entry pressed and remembers its code. *)
Theorem button_work_press s :
  ignore_decision (adc_sample (st_hw s) (st_nadc s + 2))
                  (adc_sample (st_hw s) (st_nadc s + 7)) = 0 ->
  Z.land (u32 (status_c0 (st_hw s) (st_nc0 s))) 0x60 = 0x60 ->
  detect_level (st_hw s) (st_ngpio s) <> 0 ->
  Z.land (u32 (status_c0 (st_hw s) (S (st_nc0 s)))) 0xe0 = 0xe0 ->
  Z.land (u32 (status_c0 (st_hw s) (S (S (st_nc0 s))))) 0xe0 = 0xe0 ->
  let s' := (headset_button_workqueue_func @@ s)%hs in
  let k := scan_key (st_buttons s) (adc_sample (st_hw s) (st_nadc s + 12)) (st_g s key_code) in
  st_trace s' = st_trace s ++ [EvInput EV_KEY k 1; EvSync]
  /\ st_buttons s' = mark_first k HEADSET_BUTTON_STATE_PRESSED (st_buttons s)
  /\ st_g s' key_code = k.
Proof.
  intros Hi Hp Hg H1 H2. cbn zeta. rewrite button_work_prefix. cbn zeta.
  rewrite Hi, c_true_0, Hp, Z.eqb_refl.
  rewrite (c_true_nz _ Hg). cbn [negb andb].
  replace (st_nadc s + 12)%nat with (st_nadc s + 10 + 2)%nat by lia.
  exact (button_confirm_press
    (set_counts (st_nadc (two_reads_state s)) (S (st_nc0 s)) (S (st_ngpio s))
       (two_reads_state s)) H1 H2).
Qed.

(** The hardware of the spec's scenario C: conversion 12 (the fresh mic
    reading of a first button work) is 250, every other conversion 100,
    the comparators report plug and button, the detect GPIO is high. *)
Definition scenario_c_hw : HwInputs :=
  mkHw (fun n => if (n =? 12)%nat then 250 else 100) (fun _ => 0xe0) (fun _ => 1).

Definition KEY_VOLUMEUP : Z := 115.

Lemma button_work_press_witness :
  let s := set_buttons [mkButton 0 500 KEY_VOLUMEUP EV_KEY HEADSET_BUTTON_STATE_RELASED]
             (boot_state scenario_c_hw ∅) in
  scan_key (st_buttons s) (adc_sample (st_hw s) (st_nadc s + 12)) (st_g s key_code)
    = KEY_VOLUMEUP
  /\ st_trace (headset_button_workqueue_func @@ s)%hs
     = [EvInput EV_KEY KEY_VOLUMEUP 1; EvSync].
Proof.
  intros s. split; [reflexivity|].
  destruct (button_work_press s) as [-> _]; try reflexivity; cbn; lia.
Defined.

Lemma button_work_ignored_witness :
  let s := boot_state (mkHw (fun _ => 1000) (fun _ => 0xe0) (fun _ => 1)) ∅ in
  st_timer (headset_button_workqueue_func @@ s)%hs = Some 520.
Proof.
  intros s. destruct (button_work_ignored s) as (_ & _ & ->); [|reflexivity].
  vm_compute. discriminate.
Defined.

Lemma release_map_released bs :
  Forall (fun b => bstate b = HEADSET_BUTTON_STATE_RELASED)
         (map (set_bstate HEADSET_BUTTON_STATE_RELASED) bs).
Proof. apply List.Forall_map, Forall_forall. done. Qed.

Lemma release_map_codes bs :
  map code (map (set_bstate HEADSET_BUTTON_STATE_RELASED) bs) = map code bs.
Proof. by rewrite map_map. Qed.

(** (C17) [headset_button_release] leaves every entry released,
    keeps the table's keys, and emits exactly one key-up and sync per
    entry that was pressed, in table order. *)
Theorem headset_button_release_all s :
  let s' := (headset_button_release @@ s)%hs in
  Forall (fun b => bstate b = HEADSET_BUTTON_STATE_RELASED) (st_buttons s')
  /\ map code (st_buttons s') = map code (st_buttons s)
  /\ st_trace s' = st_trace s ++ release_events (st_buttons s).
Proof.
  cbn zeta. rewrite headset_button_release_spec. cbn.
  split; [apply release_map_released|split; [apply release_map_codes|done]].
Qed.
