(* ===== verification/Detect.v ===== *)
(** * The detection work and the detect interrupt

    [headset_detect_workqueue_func] (headset_sprd.c lines 392-460) is the
    debounced plug handler: it powers the mic bias, reads the detect GPIO,
    tells the plug notifier chain, and on a plug classifies the headset,
    programs the switch GPIO and the button line's trigger for the type,
    publishes the switch state and enables the button interrupt for a
    headset with a mic; on an unplug it powers the bias down, publishes
    [BIT_HEADSET_OUT] and releases every pressed button.  The switch
    statement of lines 413-429 is [detect_type_config], the publication
    of lines 431-445 is [detect_report], and [detect_plug_in_report] is the
    two in sequence.

    [headset_detect_irq_handler] (lines 542-562) flips the detect line's
    trigger polarity, disables the button interrupt and re-arms the
    debounce timer. *)

From S2P Require Import Prelude Adi Kernel Notifier Classifier Gates Button.
From stdpp Require Import base gmap list.
From Stdlib Require Import ZArith Lia.

Local Open Scope Z_scope.

Definition IRQ_HANDLED : Z := 1.

(** [switch (headset_type)] of lines 413-429. *)
Definition detect_type_config (headset_type : SPRD_HEADSET_TYPE) (sw bi : Z) : M unit :=
  match headset_type with
  | HEADSET_NORTH_AMERICA =>
      gpio_direction_output sw 1 ;;
      irq_set_irq_type bi IRQF_TRIGGER_HIGH ;;
      d ← get_g headset_switch_gpio_delay;
      mdelay d
  | HEADSET_NORMAL => irq_set_irq_type bi IRQF_TRIGGER_HIGH
  | HEADSET_NO_MIC =>
      irq_set_irq_type bi IRQF_TRIGGER_LOW ;;
      adi (headset_mic_level 0) ;;
      headset_pwr_on 0
  | _ => mret tt
  end.

(** Lines 431-445: the plug-in publication. *)
Definition detect_report (headset_type : SPRD_HEADSET_TYPE) (bi : Z) : M unit :=
  if decide (headset_type = HEADSET_NO_MIC) then
    put_g headphone 1 ;;
    put_g ht_type BIT_HEADSET_NO_MIC ;;
    t ← get_g ht_type;
    switch_set_state t
  else
    put_g headphone 0 ;;
    put_g ht_type BIT_HEADSET_MIC ;;
    t ← get_g ht_type;
    switch_set_state t ;;
    headset_button_irq_enable 1 bi.

(** Lines 413-445: configure the accessory for its type and publish it. *)
Definition detect_plug_in_report (headset_type : SPRD_HEADSET_TYPE) (sw bi : Z) : M unit :=
  detect_type_config headset_type sw bi ;;
  detect_report headset_type bi.

Definition headset_detect_workqueue_func : M unit :=
  headset_pwr_on 1 ;;
  dg ← get_g detect_gpio;
  state ← gpio_get_value dg;
  blocking_notifier_call_chain state ;;
  if c_true state then
    adi (headset_mic_level 1) ;;
    sw ← get_g switch_gpio;
    gpio_direction_output sw 0 ;;
    d ← get_g headset_switch_gpio_delay;
    mdelay d ;;
    headset_type ← detect_headset_type;
    bi ← get_g button_irq;
    detect_plug_in_report headset_type sw bi
  else
    headset_pwr_on 0 ;;
    put_g ht_type BIT_HEADSET_OUT ;;
    t ← get_g ht_type;
    switch_set_state t ;;
    headset_button_release.

Definition headset_detect_irq_handler : M Z :=
  al ← get_g detect_active_low;
  di ← get_g detect_irq;
  (if decide (al = 1) then
     irq_set_irq_type di IRQF_TRIGGER_LOW ;; put_g detect_active_low 0
   else
     irq_set_irq_type di IRQF_TRIGGER_HIGH ;; put_g detect_active_low 1) ;;
  bi ← get_g button_irq;
  headset_button_irq_enable 0 bi ;;
  p ← get_g headset_timer_period;
  j ← jiffies;
  _ ← mod_timer (j + msecs_to_jiffies p);
  mret IRQ_HANDLED.

(** ** The detection work *)

#[local] Arguments headset_pwr_on : simpl never.
#[local] Arguments headset_button_irq_enable : simpl never.

Lemma headset_pwr_on_1 s :
  headset_pwr_on 1 s =
  (tt, if c_true (st_g s pwr_down_flags)
       then set_g pwr_down_flags 0 (set_trace (st_trace s ++ [EvBias 1]) s) else s).
Proof.
  unfold headset_pwr_on, get_g, put_g, sprd_codec_headmic_bias_control, emit.
  hs_step. rewrite c_true_1. by destruct (c_true _).
Qed.
Lemma headset_pwr_on_0 s :
  st_g s pwr_down_flags = 0 ->
  headset_pwr_on 0 s =
  (tt, set_g pwr_down_flags 1 (set_trace (st_trace s ++ [EvBias 0]) s)).
Proof.
  intros E. unfold headset_pwr_on, get_g, put_g, sprd_codec_headmic_bias_control, emit.
  hs_step. by rewrite c_true_0, E, c_true_0.
Qed.

(** A plug-in of a headset with a mic: the switch says MIC, the button
    line is enabled through the gate, the bias stays on, and the button
    line triggers on a high level for the types that use it. *)
Lemma detect_plug_in_report_mic t sw bi s1 u s2 :
  detect_plug_in_report t sw bi s1 = (u, s2) ->
  t <> HEADSET_NO_MIC -> gate_ok bi s1 ->
  st_g s2 sdev_state = BIT_HEADSET_MIC /\ st_g s2 headphone = 0
  /\ st_g s2 button_irq_enable = 1 /\ gate_ok bi s2
  /\ st_g s2 pwr_down_flags = st_g s1 pwr_down_flags
  /\ (t = HEADSET_NORMAL \/ t = HEADSET_NORTH_AMERICA ->
      st_irq_type s2 !! bi = Some IRQF_TRIGGER_HIGH).
Proof.
  intros Hrun Ht [[E|E] Hd]; destruct u; revert Hrun;
  destruct t; try congruence;
  unfold detect_plug_in_report, detect_type_config, detect_report, irq_set_irq_type, gpio_direction_output,
    get_g, put_g, mdelay, emit; hs_step; rewrite decide_False by done; hs_step;
  rewrite switch_set_state_spec; hs_step; unfold switch_apply;
  case_decide; rewrite button_irq_enable_run
    by (unfold gate_ok, irq_depth in *; st_simpl; rewrite E in *; split; [auto|lia]);
  unfold gate_ok, irq_depth in *; st_simpl;
  rewrite ?E, ?c_true_1 in *;
  repeat case_decide; try lia; intros [= <-]; st_simpl;
  rewrite ?lookup_insert_eq; cbn; (repeat split); (try done); (try lia).
  all: intros [?|?]; discriminate.
Qed.


(** A plug-in of a headset without a mic: the switch says NO_MIC, the
    button line is left as it was, set to trigger on a low level, and the
    bias is switched off. *)
Lemma detect_plug_in_report_nomic sw bi s1 u s2 :
  detect_plug_in_report HEADSET_NO_MIC sw bi s1 = (u, s2) ->
  st_g s1 pwr_down_flags = 0 ->
  st_g s2 sdev_state = BIT_HEADSET_NO_MIC /\ st_g s2 headphone = 1
  /\ st_g s2 button_irq_enable = st_g s1 button_irq_enable
  /\ st_irq_depth s2 = st_irq_depth s1
  /\ st_irq_type s2 !! bi = Some IRQF_TRIGGER_LOW
  /\ st_g s2 pwr_down_flags = 1
  /\ bias_calls (st_trace s2) = bias_calls (st_trace s1) ++ [0].
Proof.
  intros Hrun Ef. destruct u. revert Hrun.
  unfold detect_plug_in_report, detect_type_config, detect_report, irq_set_irq_type,
    adi, get_g, put_g, emit; hs_step. rewrite headset_pwr_on_0 by (st_simpl; done).
  hs_step. rewrite decide_True by done. hs_step.
  rewrite switch_set_state_spec. unfold switch_apply. case_decide; intros [= <-]; st_simpl;
    rewrite ?lookup_insert_eq, ?bias_calls_app; cbn [bias_calls];
    rewrite ?app_nil_r, <- ?app_assoc; (repeat split); (try done).
Qed.

Lemma bias_calls_notify l v : bias_calls (notifier_call_chain l v) = [].
Proof. induction l as [|x l IH]; cbn; [done|]. by destruct (nb_stop x). Qed.
Lemma key_events_notify l v : key_events (notifier_call_chain l v) = [].
Proof. induction l as [|x l IH]; cbn; [done|]. by destruct (nb_stop x). Qed.

(** The key-ups of a release, as user space sees them. *)
Lemma key_events_release bs :
  key_events (release_events bs)
  = map (fun b => EvInput EV_KEY (code b) 0) (filter (fun b => is_pressed b = true) bs).
Proof.
  induction bs as [|b bs IH]; [done|]. unfold release_events in *.
  rewrite map_cons, concat_cons, key_events_app, IH, filter_cons.
  unfold is_pressed. case_bool_decide; rewrite ?decide_True, ?decide_False by done; done.
Qed.

(** The state after lines 396-405: bias on, one read of the detect
    GPIO, and the notifier chain told the level. *)
Definition detect_notified (s : St) : St :=
  let s0 := if c_true (st_g s pwr_down_flags)
            then set_g pwr_down_flags 0 (set_trace (st_trace s ++ [EvBias 1]) s) else s in
  set_trace (st_trace s0 ++ notifier_call_chain (st_chain s0) (detect_level (st_hw s) (st_ngpio s)))
    (set_counts (st_nadc s0) (st_nc0 s0) (S (st_ngpio s0)) s0).

(** The state after lines 406-411: mic gain, switch GPIO low, the settle
    delay, and the two ADC readings of [detect_headset_type]. *)
Definition detect_configured (s : St) : St :=
  two_reads_state (set_now (st_now s + st_g s headset_switch_gpio_delay)
    (set_trace (st_trace s ++ [EvGpioOut (st_g s switch_gpio) 0])
      (set_gpio (<[st_g s switch_gpio := 0]> (st_gpio s))
         (set_regs (headset_mic_level 1 (st_regs s)) s)))).

(** The detection work up to its branch: a plug-in runs the publication
    on the configured state, an unplug runs the else branch on the
    notified state. *)
Lemma detect_work_run s :
  headset_detect_workqueue_func s =
  let s0 := detect_notified s in
  if c_true (detect_level (st_hw s) (st_ngpio s)) then
    detect_plug_in_report
      (headset_type_decision (adc_sample (st_hw s) (st_nadc s + 2))
                             (adc_sample (st_hw s) (st_nadc s + 7)))
      (st_g s switch_gpio) (st_g s button_irq) (detect_configured s0)
  else (headset_pwr_on 0 ;; put_g ht_type BIT_HEADSET_OUT ;; t ← get_g ht_type;
        switch_set_state t ;; headset_button_release) s0.
Proof.
  unfold headset_detect_workqueue_func, get_g, put_g, gpio_get_value,
    blocking_notifier_call_chain, adi, gpio_direction_output, emit, mdelay.
  hs_step. rewrite headset_pwr_on_1. unfold detect_notified.
  destruct (c_true (st_g s pwr_down_flags)); cbn;
    (destruct (c_true (detect_level _ _)); [|reflexivity]);
    rewrite detect_headset_type_spec; reflexivity.
Qed.

(** What the prefix of a plug-in changes: the bias is on (one "on" call
    if it was off), the depths and the other variables are as before. *)
Lemma detect_configured_notified s :
  let s1 := detect_configured (detect_notified s) in
  st_irq_depth s1 = st_irq_depth s
  /\ (forall x, x <> pwr_down_flags -> st_g s1 x = st_g s x)
  /\ st_g s1 pwr_down_flags = 0
  /\ bias_calls (st_trace s1)
     = bias_calls (st_trace s) ++ (if c_true (st_g s pwr_down_flags) then [1] else []).
Proof.
  unfold detect_configured, detect_notified, two_reads_state.
  destruct (c_true (st_g s pwr_down_flags)) eqn:Ef; st_simpl;
    rewrite ?bias_calls_app, ?bias_calls_notify; cbn [bias_calls];
    rewrite ?app_nil_r; (repeat split); intros; rewrite ?upd_g_other by done;
    try reflexivity; by apply c_true_false.
Qed.

(** The state an unplug leaves: bias off, [BIT_HEADSET_OUT] in
    [ht_type] and published, every button released with its key-up. *)
Definition detect_unplugged (s : St) : St :=
  let s0 := detect_notified s in
  let s1 := switch_apply BIT_HEADSET_OUT (set_g ht_type BIT_HEADSET_OUT
              (set_g pwr_down_flags 1 (set_trace (st_trace s0 ++ [EvBias 0]) s0))) in
  set_buttons (map (set_bstate HEADSET_BUTTON_STATE_RELASED) (st_buttons s1))
    (set_trace (st_trace s1 ++ release_events (st_buttons s1)) s1).

Lemma detect_work_unplug_run s :
  c_true (detect_level (st_hw s) (st_ngpio s)) = false ->
  headset_detect_workqueue_func s = (tt, detect_unplugged s).
Proof.
  intros Hl. rewrite detect_work_run, Hl. cbv zeta. unfold get_g, put_g. hs_step.
  rewrite headset_pwr_on_0
    by (unfold detect_notified; destruct (c_true (st_g s pwr_down_flags)) eqn:E;
        st_simpl; [done|by apply c_true_false]).
  hs_step. rewrite switch_set_state_spec. hs_step. rewrite headset_button_release_spec.
  reflexivity.
Qed.

#[local] Arguments detect_headset_type : simpl never.
#[local] Arguments detect_plug_in_report : simpl never.

(** (C1) Spec scenario A, for every input: when the detect GPIO
    reads high and the two readings classify the headset as one with a
    mic, the detection work publishes [BIT_HEADSET_MIC], enables the
    button interrupt through the gate (which it keeps balanced), leaves
    the mic bias on, and for a normal or North-American headset sets the
    button line to trigger on a high level. *)
Theorem detect_work_plug_mic s :
  let bi := st_g s button_irq in
  let t := headset_type_decision (adc_sample (st_hw s) (st_nadc s + 2))
                                 (adc_sample (st_hw s) (st_nadc s + 7)) in
  c_true (detect_level (st_hw s) (st_ngpio s)) = true ->
  t <> HEADSET_NO_MIC -> gate_ok bi s ->
  let s' := (headset_detect_workqueue_func @@ s)%hs in
  st_g s' sdev_state = BIT_HEADSET_MIC /\ st_g s' headphone = 0
  /\ st_g s' button_irq_enable = 1 /\ gate_ok bi s'
  /\ st_g s' pwr_down_flags = 0
  /\ (t = HEADSET_NORMAL \/ t = HEADSET_NORTH_AMERICA ->
      st_irq_type s' !! bi = Some IRQF_TRIGGER_HIGH).
Proof.
  intros bi t Hl Ht Hok. rewrite detect_work_run, Hl. cbv zeta.
  destruct (detect_configured_notified s) as (Hd & Hg & Hp & _).
  assert (Hok1 : gate_ok bi (detect_configured (detect_notified s)))
    by (unfold gate_ok, irq_depth in *; rewrite Hd, !Hg by done; exact Hok).
  destruct (detect_plug_in_report _ _ _ _) as [u s2] eqn:E2.
  destruct (detect_plug_in_report_mic _ _ _ _ _ _ E2 Ht Hok1) as (H1 & H2 & H3 & H4 & H5 & H6).
  cbn [snd]. by rewrite H5, Hp.
Qed.

Definition scenario_hw (adc_mic adc_l level : Z) : HwInputs :=
  mkHw (fun n => if (n <? 5)%nat then adc_mic else adc_l) (fun _ => 0) (fun _ => level).

(** A driver that has probed its button line as interrupt 7 and whose
    button interrupt is enabled (the boot value of the gate). *)
Definition probed_state (hw : HwInputs) : St :=
  set_g button_irq 7 (set_irq (boot_state hw ∅) ∅ (<[7:=0]> ∅)).

Lemma detect_work_plug_mic_witness :
  let s := probed_state (scenario_hw 3000 500 1) in
  c_true (detect_level (st_hw s) (st_ngpio s)) = true
  /\ headset_type_decision (adc_sample (st_hw s) (st_nadc s + 2))
                           (adc_sample (st_hw s) (st_nadc s + 7)) = HEADSET_NORMAL
  /\ gate_ok 7 s
  /\ st_g (headset_detect_workqueue_func @@ s)%hs sdev_state = BIT_HEADSET_MIC
  /\ st_irq_type (headset_detect_workqueue_func @@ s)%hs !! 7 = Some IRQF_TRIGGER_HIGH.
Proof.
  intros s.
  assert (H1 : c_true (detect_level (st_hw s) (st_ngpio s)) = true) by reflexivity.
  assert (H2 : headset_type_decision (adc_sample (st_hw s) (st_nadc s + 2))
                 (adc_sample (st_hw s) (st_nadc s + 7)) = HEADSET_NORMAL) by reflexivity.
  assert (H3 : gate_ok 7 s) by (split; [right|]; reflexivity).
  destruct (detect_work_plug_mic s H1 ltac:(by rewrite H2) H3)
    as (Hs & _ & _ & _ & _ & Hi).
  do 4 (split; [assumption|]). apply Hi. by left.
Defined.

(** (C2) Spec scenario B, for every input: when the detect GPIO
    reads high and the readings classify the accessory as a headphone
    without a mic, the work publishes [BIT_HEADSET_NO_MIC], leaves the
    button interrupt as it was (disabled after the detect interrupt), sets
    the button line to trigger on a low level, and leaves the mic bias
    off, its last call being "off". *)
Theorem detect_work_plug_nomic s :
  let t := headset_type_decision (adc_sample (st_hw s) (st_nadc s + 2))
                                 (adc_sample (st_hw s) (st_nadc s + 7)) in
  c_true (detect_level (st_hw s) (st_ngpio s)) = true ->
  t = HEADSET_NO_MIC ->
  let s' := (headset_detect_workqueue_func @@ s)%hs in
  st_g s' sdev_state = BIT_HEADSET_NO_MIC /\ st_g s' headphone = 1
  /\ st_g s' button_irq_enable = st_g s button_irq_enable
  /\ irq_depth s' (st_g s button_irq) = irq_depth s (st_g s button_irq)
  /\ st_irq_type s' !! st_g s button_irq = Some IRQF_TRIGGER_LOW
  /\ st_g s' pwr_down_flags = 1
  /\ exists l, bias_calls (st_trace s') = bias_calls (st_trace s) ++ l ++ [0].
Proof.
  intros t Hl Ht. rewrite detect_work_run, Hl. cbv zeta. subst t. rewrite Ht.
  destruct (detect_configured_notified s) as (Hd & Hg & Hp & Hb).
  destruct (detect_plug_in_report _ _ _ _) as [u s2] eqn:E2.
  destruct (detect_plug_in_report_nomic _ _ _ _ _ E2 Hp) as (H1 & H2 & H3 & H4 & H5 & H6 & H7).
  cbn [snd]. unfold irq_depth. rewrite H3, H4, Hd, !Hg in * by done.
  do 6 (split; [done|]). rewrite H7, Hb, <- app_assoc. by eexists.
Qed.

Lemma detect_work_plug_nomic_witness :
  let s := set_g button_irq_enable 0
             (set_g button_irq 7 (set_irq (boot_state (scenario_hw 50 60 1) ∅) ∅ (<[7:=1]> ∅))) in
  c_true (detect_level (st_hw s) (st_ngpio s)) = true
  /\ headset_type_decision (adc_sample (st_hw s) (st_nadc s + 2))
                           (adc_sample (st_hw s) (st_nadc s + 7)) = HEADSET_NO_MIC
  /\ st_g (headset_detect_workqueue_func @@ s)%hs sdev_state = BIT_HEADSET_NO_MIC
  /\ st_g (headset_detect_workqueue_func @@ s)%hs button_irq_enable = 0.
Proof.
  intros s.
  assert (H1 : c_true (detect_level (st_hw s) (st_ngpio s)) = true) by reflexivity.
  assert (H2 : headset_type_decision (adc_sample (st_hw s) (st_nadc s + 2))
                 (adc_sample (st_hw s) (st_nadc s + 7)) = HEADSET_NO_MIC) by reflexivity.
  destruct (detect_work_plug_nomic s H1 H2) as (Hs & _ & He & _).
  do 3 (split; [assumption|]). by rewrite He.
Defined.

#[local] Arguments release_events : simpl never.

(** (C3) Spec P3: on an unplug (the detect GPIO reads low) the work
    publishes [BIT_HEADSET_OUT], switches the bias off, releases every
    button of the table, and user space sees exactly one key-up for each
    button that was pressed, in table order, and no key-down. *)
Theorem detect_work_unplug s :
  c_true (detect_level (st_hw s) (st_ngpio s)) = false ->
  let s' := (headset_detect_workqueue_func @@ s)%hs in
  st_g s' sdev_state = BIT_HEADSET_OUT /\ st_g s' ht_type = BIT_HEADSET_OUT
  /\ st_g s' pwr_down_flags = 1
  /\ Forall (fun b => bstate b = HEADSET_BUTTON_STATE_RELASED) (st_buttons s')
  /\ map code (st_buttons s') = map code (st_buttons s)
  /\ key_events (st_trace s') = key_events (st_trace s)
       ++ map (fun b => EvInput EV_KEY (code b) 0)
              (filter (fun b => is_pressed b = true) (st_buttons s)).
Proof.
  intros Hl. rewrite detect_work_unplug_run by done. unfold detect_unplugged, switch_apply.
  case_decide; cbn [snd]; st_simpl;
    rewrite ?key_events_release; unfold detect_notified;
    destruct (c_true (st_g s pwr_down_flags)); st_simpl;
    rewrite ?key_events_notify; cbn [key_events]; rewrite ?app_nil_r; (repeat split);
    auto using release_map_released, release_map_codes.
Qed.

Definition KEY_A : Z := 30.

Lemma detect_work_unplug_witness :
  let s := set_buttons [mkButton 100 200 KEY_A EV_KEY HEADSET_BUTTON_STATE_PRESSED]
             (probed_state (scenario_hw 0 0 0)) in
  c_true (detect_level (st_hw s) (st_ngpio s)) = false
  /\ key_events (st_trace (headset_detect_workqueue_func @@ s)%hs) = [EvInput EV_KEY KEY_A 0].
Proof.
  intros s.
  assert (H1 : c_true (detect_level (st_hw s) (st_ngpio s)) = false) by reflexivity.
  destruct (detect_work_unplug s H1) as (_ & _ & _ & _ & _ & Hk).
  split; [done|]. rewrite Hk. reflexivity.
Defined.

(** ** The detect interrupt *)

(** The detect interrupt handler flips the stored polarity of the detect
    line and re-arms the line on the opposite level, disables the button
    interrupt through the gate, and (re)arms the debounce timer
    [headset_timer_period] ms ahead; it answers [IRQ_HANDLED]. *)
Lemma detect_irq_handler_spec s :
  let al := st_g s detect_active_low in
  let di := st_g s detect_irq in
  let bi := st_g s button_irq in
  gate_ok bi s ->
  let '(r, s') := headset_detect_irq_handler s in
  r = IRQ_HANDLED
  /\ st_g s' detect_active_low = (if decide (al = 1) then 0 else 1)
  /\ st_irq_type s' !! di = Some (if decide (al = 1) then IRQF_TRIGGER_LOW else IRQF_TRIGGER_HIGH)
  /\ st_g s' button_irq_enable = 0 /\ gate_ok bi s'
  /\ st_timer s' = Some (st_now s + st_g s headset_timer_period).
Proof.
  intros al di bi; subst al di bi; intros [[E|E] Hd];
  unfold headset_detect_irq_handler, irq_set_irq_type, get_g, put_g, emit, jiffies,
    mod_timer, msecs_to_jiffies; hs_step;
  (case_decide; hs_step;
   rewrite button_irq_enable_run
     by (unfold gate_ok, irq_depth in *; st_simpl; rewrite E in *; split; [auto|lia]));
  rewrite c_true_0; unfold gate_ok, irq_depth in *; st_simpl; rewrite E in *;
  repeat case_decide; try lia; st_simpl; rewrite ?lookup_insert_eq; cbn; (repeat split); (try done); (try lia).
Qed.

(** What the detect interrupt leaves alone. *)
Lemma detect_irq_handler_frame :
  frame (fun s => (st_now s, st_g s button_irq, st_g s headset_timer_period))
        headset_detect_irq_handler.
Proof. unfold headset_detect_irq_handler, headset_button_irq_enable. frame_solve. Qed.

(** A delay of [d] ms, then a detect interrupt. *)
Definition detect_edge (d : Z) : M unit :=
  mdelay d ;; _ ← headset_detect_irq_handler; mret tt.

Lemma detect_edge_spec d s :
  gate_ok (st_g s button_irq) s ->
  let s' := (detect_edge d @@ s)%hs in
  st_timer s' = Some (st_now s + d + st_g s headset_timer_period)
  /\ st_g s' detect_active_low
     = (if decide (st_g s detect_active_low = 1) then 0 else 1)
  /\ st_g s' button_irq_enable = 0 /\ gate_ok (st_g s button_irq) s'
  /\ (st_now s', st_g s' button_irq, st_g s' headset_timer_period)
     = (st_now s + d, st_g s button_irq, st_g s headset_timer_period).
Proof.
  intros Hok. unfold detect_edge, mdelay. hs_step.
  set (s1 := set_now (st_now s + d) s).
  assert (Hok1 : gate_ok (st_g s1 button_irq) s1) by exact Hok.
  pose proof (detect_irq_handler_spec s1 Hok1) as Hs.
  pose proof (detect_irq_handler_frame s1) as Hf.
  destruct (headset_detect_irq_handler s1) as [r s']. cbn in *.
  destruct Hs as (_ & Ha & _ & Hb & Hg & Ht). inversion Hf as [[Hn Hbi Hp]].
  rewrite Ht, Ha, Hn, Hbi, Hp. auto.
Qed.

(** (C11) Spec P1 and the polarity invariant: however many detect
    edges arrive, at whatever spacing, the debounce timer is left armed
    once, [headset_timer_period] ms after the last edge (so a single
    detection work follows a burst), the stored polarity has been flipped
    once per edge, and the button interrupt is left disabled through the
    gate. *)
Theorem detect_irqs_coalesce (ds : list Z) s :
  let al := st_g s detect_active_low in
  gate_ok (st_g s button_irq) s -> (al = 0 \/ al = 1) -> ds <> [] ->
  let s' := (for_each ds detect_edge @@ s)%hs in
  st_timer s' = Some (st_now s + foldr Z.add 0 ds + st_g s headset_timer_period)
  /\ st_g s' detect_active_low = (if Nat.even (length ds) then al else 1 - al)
  /\ st_g s' button_irq_enable = 0 /\ gate_ok (st_g s button_irq) s'.
Proof.
  intros al. subst al. revert s. induction ds as [|d ds IH]; intros s Hok Hal Hne; [done|].
  rewrite for_each_cons.
  destruct (detect_edge_spec d s Hok) as (Ht & Ha & Hb & Hg & Hf).
  injection Hf as Hn Hbi Hp.
  destruct ds as [|d' ds'].
  - cbn [for_each foldr length Nat.even]. unfold mret, StM_ret; cbn [snd]. rewrite Ht, Ha, Hb. split; [f_equal; lia|]. split; [|split; [done|exact Hg]].
    destruct Hal as [-> | ->]; reflexivity.
  - rewrite <- Hbi in Hg |- *.
    assert (Hal' : st_g (detect_edge d @@ s)%hs detect_active_low = 0
                   \/ st_g (detect_edge d @@ s)%hs detect_active_low = 1)
      by (rewrite Ha; case_decide; auto).
    destruct (IH _ Hg Hal' ltac:(done)) as (Ht' & Ha' & Hb' & Hg').
    cbv zeta.
    rewrite Ht', Ha', Hn, Hp, Ha.
    split; [cbn; f_equal; lia|]. split; [|by split].
    destruct Hal as [E|E]; rewrite E; rewrite !length_cons, !Nat.even_succ, Nat.odd_succ, <- Nat.negb_even;
      by destruct (Nat.even (length ds')).
Qed.

Lemma detect_irqs_coalesce_witness :
  let s := set_g detect_irq 5 (probed_state (scenario_hw 0 0 1)) in
  gate_ok (st_g s button_irq) s
  /\ (st_g s detect_active_low = 0 \/ st_g s detect_active_low = 1)
  /\ st_timer (for_each [0; 100; 200] detect_edge @@ s)%hs = Some 800
  /\ st_g (for_each [0; 100; 200] detect_edge @@ s)%hs detect_active_low = 1.
Proof.
  intros s.
  assert (H1 : gate_ok (st_g s button_irq) s) by (split; [right|]; reflexivity).
  assert (H2 : st_g s detect_active_low = 0 \/ st_g s detect_active_low = 1) by (left; reflexivity).
  destruct (detect_irqs_coalesce [0; 100; 200] s H1 H2 ltac:(discriminate))
    as (Ht & Ha & _ & _).
  split; [exact H1|]. split; [exact H2|]. by rewrite Ht, Ha.
Defined.
