(* ===== verification/Sched.v ===== *)
(** * Serialisation: the event-flag thread, the work queue, the timer

    The interrupt handlers and the debounce timer never run the blocking
    work themselves: they post it to one serialised context, chosen at
    build time by CONFIG_INPUT_SPRD_HEADSET_USING_THREAD.

    - The thread back end (lines 102-106, 463-511): one word
      [s_headset_event_flags]; [headset_wake_up_headset_thread] overwrites
      it with the event, except that a button event arriving while a
      detect event is pending is dropped and counted in
      [headset_discard_button_irq]; one iteration of [headset_thread]
      takes the word, clears it and runs the work it names.
    - The work-queue back end (lines 108, 535-537, 571-572): the
      single-thread [headset_wq]; [queue_work] does not queue a pending
      work twice, and the worker runs the works in order.

    The class [Backend] is the interface the handlers are written against
    ([post_detect], [post_button], [worker_step]); [thread_backend] and
    [wq_backend] are its two instances.  [headset_button_irq_handler]
    (lines 514-540) and [headset_detect_timer] (lines 564-574) are defined
    once, for any back end. *)

From S2P Require Import Prelude Adi Kernel Notifier Classifier Gates Button Detect.
From stdpp Require Import base gmap list.
From Stdlib Require Import ZArith Lia.

Local Open Scope Z_scope.

Definition HEADSET_DETECT : Z := 1.
Definition HEADSET_BUTTON : Z := 2.

(** ** The thread back end *)

Definition headset_wake_up_headset_thread (even_flag : Z) : M Z :=
  f ← get_g s_headset_event_flags;
  if decide (HEADSET_BUTTON = even_flag /\ HEADSET_DETECT = f) then
    d ← get_g headset_discard_button_irq;
    put_g headset_discard_button_irq (s32 (d + 1)) ;;
    mret 0
  else
    put_g s_headset_event_flags even_flag ;;
    get_g s_headset_event_flags.

(** One iteration of the loop of [headset_thread]: [wait_event] blocks
    while the flags are 0 (the iteration does not run: [false]); otherwise
    the flags are taken and cleared and the work they name is run. *)
Definition headset_thread_iter : M bool :=
  f ← get_g s_headset_event_flags;
  if decide (f = 0) then mret false
  else
    put_g s_headset_event_flags 0 ;;
    (if decide (f = HEADSET_DETECT) then headset_detect_workqueue_func
     else if decide (f = HEADSET_BUTTON) then headset_button_workqueue_func
     else mret tt) ;;
    mret true.

(** ** The work-queue back end *)

Definition run_work (w : work) : M unit :=
  match w with
  | DetectWork => headset_detect_workqueue_func
  | ButtonWork => headset_button_workqueue_func
  end.

(** The worker of [headset_wq] takes the oldest pending work and runs it;
    an idle worker does nothing ([false]). *)
Definition wq_worker_step : M bool :=
  q ← gets st_wq;
  match q with
  | [] => mret false
  | w :: q' => modify (set_wq q') ;; run_work w ;; mret true
  end.

(** ** The interface of the back ends *)

Class Backend := {
  post_detect : M unit;
  post_button : M unit;
  worker_step : M bool;
}.

(** A wake-up whose answer is ignored, as the callers do. *)
Definition wake (ev : Z) : M unit := _ ← headset_wake_up_headset_thread ev; mret tt.

#[export] Instance thread_backend : Backend := {|
  post_detect := wake HEADSET_DETECT;
  post_button := wake HEADSET_BUTTON;
  worker_step := headset_thread_iter;
|}.

(** [if (headset_wq != NULL) queue_work(headset_wq, ...)] *)
Definition wq_post (w : work) : M unit :=
  q ← get_g headset_wq;
  if c_true q then _ ← queue_work w; mret tt else mret tt.

#[export] Instance wq_backend : Backend := {|
  post_detect := wq_post DetectWork;
  post_button := wq_post ButtonWork;
  worker_step := wq_worker_step;
|}.

(** ** The handlers written against the interface *)

Section Handlers.
Context `{Backend}.

Definition headset_button_irq_handler : M Z :=
  plug ← headset_plug_in;
  if negb (c_true plug) then mret IRQ_HANDLED
  else
    pd ← get_g button_platform_data;
    if negb (c_true pd) then mret IRQ_HANDLED
    else
      al ← get_g button_active_low;
      bi ← get_g button_irq;
      (if decide (al = 1) then
         irq_set_irq_type bi IRQF_TRIGGER_LOW ;; put_g button_active_low 0
       else
         irq_set_irq_type bi IRQF_TRIGGER_HIGH ;; put_g button_active_low 1) ;;
      post_button ;;
      mret IRQ_HANDLED.

Definition headset_detect_timer : M unit := post_detect.

(** The kernel's timer: when the debounce timer is pending and its
    expiry has come, it is cleared and its function runs. *)
Definition timer_tick : M bool :=
  t ← gets st_timer;
  now ← gets st_now;
  match t with
  | Some e => if decide (e <= now) then modify (set_timer None) ;; headset_detect_timer ;; mret true
              else mret false
  | None => mret false
  end.
End Handlers.

(** ** The works leave the scheduling variables alone *)

(** The variables the two works write are [pwr_down_flags], [headphone],
    [ht_type], [sdev_state], [button_irq_enable] and [key_code]; every
    other variable, the event flags and the discard counter among them,
    is left alone. *)
Section WorkFrame.
Context (x : gvar).
Hypotheses (Hpwr : x <> pwr_down_flags) (Hhp : x <> headphone) (Hty : x <> ht_type)
  (Hsd : x <> sdev_state) (Hbe : x <> button_irq_enable) (Hkc : x <> key_code).

Lemma adc_fill_frame count n l : g_frame x (adc_fill count n l).
Proof. revert count l. induction n; intros; cbn; frame_solve. Qed.
#[local] Hint Resolve adc_fill_frame : frame.

Lemma read_adc_frame h : g_frame x (headset_read_adc h).
Proof. unfold headset_read_adc. frame_solve. Qed.
#[local] Hint Resolve read_adc_frame : frame.

Lemma pwr_on_frame p : g_frame x (headset_pwr_on p).
Proof. unfold headset_pwr_on. frame_solve. Qed.
Lemma irq_enable_frame e i : g_frame x (headset_button_irq_enable e i).
Proof. unfold headset_button_irq_enable. frame_solve. Qed.
Lemma switch_frame v : g_frame x (switch_set_state v).
Proof. unfold switch_set_state. frame_solve. Qed.
#[local] Hint Resolve pwr_on_frame irq_enable_frame switch_frame : frame.

Lemma detect_work_frame : g_frame x headset_detect_workqueue_func.
Proof.
  unfold headset_detect_workqueue_func, detect_plug_in_report, detect_type_config,
    detect_report, blocking_notifier_call_chain, detect_headset_type,
    headset_button_release, release_one.
  frame_solve.
Qed.

Lemma button_work_frame : g_frame x headset_button_workqueue_func.
Proof.
  unfold headset_button_workqueue_func, button_confirm_and_report, ignore_wrong_button,
    headset_plug_in, headset_button_down.
  frame_solve.
Qed.
End WorkFrame.

(** ** The thread back end *)

Lemma wake_button_pending_detect s :
  st_g s s_headset_event_flags = HEADSET_DETECT ->
  headset_wake_up_headset_thread HEADSET_BUTTON s
  = (0, set_g headset_discard_button_irq (s32 (st_g s headset_discard_button_irq + 1)) s).
Proof.
  intros E. unfold headset_wake_up_headset_thread, get_g, put_g. hs_step.
  rewrite E, decide_True by done. reflexivity.
Qed.

Lemma wake_set s ev :
  ~ (HEADSET_BUTTON = ev /\ HEADSET_DETECT = st_g s s_headset_event_flags) ->
  headset_wake_up_headset_thread ev s = (ev, set_g s_headset_event_flags ev s).
Proof.
  intros Hn. unfold headset_wake_up_headset_thread, get_g, put_g. hs_step.
  rewrite decide_False by done. cbn. by rewrite upd_g_same.
Qed.

Lemma wake_button_pending s :
  st_g s s_headset_event_flags = HEADSET_DETECT ->
  (wake HEADSET_BUTTON @@ s)%hs
  = set_g headset_discard_button_irq (s32 (st_g s headset_discard_button_irq + 1)) s.
Proof. intros E. unfold wake. hs_step. by rewrite wake_button_pending_detect. Qed.

Lemma wake_sets s ev :
  ~ (HEADSET_BUTTON = ev /\ HEADSET_DETECT = st_g s s_headset_event_flags) ->
  (wake ev @@ s)%hs = set_g s_headset_event_flags ev s.
Proof. intros Hn. unfold wake. hs_step. by rewrite wake_set. Qed.

Lemma buttons_discarded (n : nat) s :
  st_g s s_headset_event_flags = HEADSET_DETECT ->
  in_s32 (st_g s headset_discard_button_irq) ->
  let s' := (for_each (replicate n HEADSET_BUTTON) wake @@ s)%hs in
  st_g s' s_headset_event_flags = HEADSET_DETECT
  /\ st_g s' headset_discard_button_irq
     = s32 (st_g s headset_discard_button_irq + Z.of_nat n).
Proof.
  revert s. induction n as [|n IH]; intros s E Hr.
  { cbn. rewrite Z.add_0_r, s32_id by done. done. }
  cbn zeta. rewrite replicate_S, for_each_cons, wake_button_pending by done.
  destruct (IH (set_g headset_discard_button_irq (s32 (st_g s headset_discard_button_irq + 1)) s))
    as [H1 H2]; [by st_simpl|st_simpl; apply s32_range|].
  split; [done|]. rewrite H2. st_simpl. rewrite s32_add. f_equal. lia.
Qed.

(** (C14) The thread back end never loses a pending detection to
    button events: after a detect wake-up, any number of button wake-ups
    before the thread runs leave the detect event pending and are counted,
    one each, in the [int] [headset_discard_button_irq]: the counter ends
    at its old value plus [n], wrapped to an [int] (past [INT_MAX] it goes
    on from [INT_MIN], two's complement). *)
Theorem wake_detect_not_lost (n : nat) s :
  in_s32 (st_g s headset_discard_button_irq) ->
  let s' := ((wake HEADSET_DETECT ;; for_each (replicate n HEADSET_BUTTON) wake) @@ s)%hs in
  st_g s' s_headset_event_flags = HEADSET_DETECT
  /\ st_g s' headset_discard_button_irq
     = s32 (st_g s headset_discard_button_irq + Z.of_nat n).
Proof.
  intros Hr. cbv zeta. change ((wake HEADSET_DETECT ;; for_each (replicate n HEADSET_BUTTON) wake) s)
    with (for_each (HEADSET_DETECT :: replicate n HEADSET_BUTTON) wake s).
  rewrite for_each_cons, wake_sets by (intros [H _]; discriminate).
  destruct (buttons_discarded n (set_g s_headset_event_flags HEADSET_DETECT s))
    as [H1 H2]; [by st_simpl|by st_simpl|]. split; [done|]. rewrite H2. by st_simpl.
Qed.

Lemma wake_detect_not_lost_witness :
  let s := set_g headset_discard_button_irq (2 ^ 31 - 1) (boot_state (scenario_hw 0 0 1) ∅) in
  in_s32 (st_g s headset_discard_button_irq)
  /\ st_g ((wake HEADSET_DETECT ;; for_each (replicate 1 HEADSET_BUTTON) wake) @@ s)%hs
       headset_discard_button_irq = - 2 ^ 31.
Proof.
  intros s. assert (H : in_s32 (st_g s headset_discard_button_irq))
    by (unfold in_s32, s; st_simpl; lia).
  split; [exact H|]. destruct (wake_detect_not_lost 1 s H) as [_ ->].
  unfold s. st_simpl. reflexivity.
Defined.

(** (C15) The converse is not protected: a pending button event is
    overwritten by a detect wake-up, and the loss is not counted in
    [headset_discard_button_irq]. *)
Theorem wake_button_then_detect s :
  st_g s s_headset_event_flags <> HEADSET_DETECT ->
  let s1 := (wake HEADSET_BUTTON @@ s)%hs in
  let s2 := (wake HEADSET_DETECT @@ s1)%hs in
  st_g s1 s_headset_event_flags = HEADSET_BUTTON
  /\ st_g s2 s_headset_event_flags = HEADSET_DETECT
  /\ st_g s2 headset_discard_button_irq = st_g s headset_discard_button_irq.
Proof.
  intros E. cbv zeta.
  rewrite (wake_sets s) by (intros [_ H]; congruence).
  rewrite wake_sets by (intros [H _]; discriminate). by st_simpl.
Qed.

Lemma wake_button_then_detect_witness :
  let s := boot_state (scenario_hw 0 0 1) ∅ in
  st_g s s_headset_event_flags <> HEADSET_DETECT
  /\ st_g (wake HEADSET_DETECT @@ (wake HEADSET_BUTTON @@ s))%hs s_headset_event_flags
     = HEADSET_DETECT.
Proof.
  intros s. assert (H : st_g s s_headset_event_flags <> HEADSET_DETECT) by discriminate.
  split; [exact H|]. apply (wake_button_then_detect s H).
Defined.

(** (C16) One iteration of [headset_thread] blocks (does nothing)
    while no event is pending; otherwise it clears the event word and runs
    exactly the work the event names, once, and leaves no event pending. *)
Theorem thread_iter_dispatch s :
  let f := st_g s s_headset_event_flags in
  let '(ran, s') := headset_thread_iter s in
  (f = 0 -> ran = false /\ s' = s)
  /\ (f <> 0 -> ran = true /\ st_g s' s_headset_event_flags = 0
      /\ (f = HEADSET_DETECT ->
          s' = (headset_detect_workqueue_func @@ (set_g s_headset_event_flags 0 s))%hs)
      /\ (f = HEADSET_BUTTON ->
          s' = (headset_button_workqueue_func @@ (set_g s_headset_event_flags 0 s))%hs)).
Proof.
  cbv zeta. unfold headset_thread_iter, get_g, put_g. hs_step.
  case_decide as E0; cbn; [split; [done|intros []; done]|].
  case_decide as E1; [|case_decide as E2].
  - assert (Hf : g_frame s_headset_event_flags headset_detect_workqueue_func)
      by (apply detect_work_frame; discriminate).
    specialize (Hf (set_g s_headset_event_flags 0 s)).
    destruct (headset_detect_workqueue_func _) as [[] s'] eqn:Ew. cbn in *.
    split; [intros; contradiction|]. intros _.
    rewrite Hf. st_simpl. split; [done|]. split; [done|]. split; [done|].
    intros E2. rewrite E1 in E2. discriminate.
  - assert (Hf : g_frame s_headset_event_flags headset_button_workqueue_func)
      by (apply button_work_frame; discriminate).
    specialize (Hf (set_g s_headset_event_flags 0 s)).
    destruct (headset_button_workqueue_func _) as [[] s'] eqn:Ew. cbn in *.
    split; [intros; contradiction|]. intros _.
    rewrite Hf. st_simpl. split; [done|]. split; [done|]. split; [|done].
    intros E3. contradiction.
  - cbn. split; [intros; contradiction|]. intros _.
    st_simpl. split; [done|]. split; [done|]. split; intros; congruence.
Qed.
