(* ===== verification/Probe.v ===== *)
(** * Probing, module init and module exit

    [headset_detect_probe] (headset_sprd.c lines 576-670) registers the
    switch device, sets up the debounce timer, requests the three GPIOs,
    sets the detect GPIO as input, requests the button interrupt, disables
    it through the gate, and requests the detect interrupt, each with the
    trigger opposite to the line's active level.  [headset_buttons_probe]
    (lines 672-715) allocates the input device, declares a capability per
    button, releases every button (Bug 185497 step 1) and registers the
    device.  [headset_init] (lines 767-785) creates the serialisation
    context and registers both platform drivers; [headset_exit] (lines
    787-804) tears the context down and unregisters the drivers.

    The probe state is the driver state [St] together with the resources
    the driver holds, [Res]; the kernel's answers (success or an error
    code) come from the environment [PEnv], fixed for the whole run, and
    the choice CONFIG_INPUT_SPRD_HEADSET_USING_THREAD is the section
    variable [using_thread].  Error codes are negative [Z] as in C. *)

From S2P Require Import Prelude Adi Kernel Notifier Classifier Gates Button Detect Sched.
From stdpp Require Import base gmap list.
From Stdlib Require Import ZArith Lia.

Local Open Scope Z_scope.

Definition ENOMEM : Z := 12.

(** The resources held by the driver. *)
Record Res := mkRes {
  r_switch : bool;            (** the switch device "h2w" is registered *)
  r_timer : bool;             (** the debounce timer is set up *)
  r_gpio : list Z;            (** requested GPIOs, in request order *)
  r_irq : list Z;             (** requested interrupt lines, in order *)
  r_input : option bool;      (** input device: allocated, and registered *)
  r_caps : list (Z * Z);      (** declared input capabilities (type, code) *)
  r_context : bool;           (** the thread or the work queue exists *)
  r_drivers : list Z;         (** registered platform drivers *)
}.

Definition no_res : Res := mkRes false false [] [] None [] false [].

(** The kernel's answers. *)
Record PEnv := mkPEnv {
  e_switch_dev_register : Z;
  e_gpio_request : Z -> Z;
  e_gpio_direction_input : Z -> Z;
  e_gpio_to_irq : Z -> Z;
  e_request_irq : Z -> Z;
  e_buttons_pdata : bool;
  e_input_allocate_device : bool;
  e_input_register_device : Z;
  e_context_create : bool;
  e_platform_driver_register : Z -> Z;
}.

(** The two platform drivers. *)
Definition headset_detect_driver : Z := 1.
Definition headset_buttons_driver : Z := 2.

Abbreviation PM := (StM (St * Res)).

(** A routine of the driver state run inside the probe state. *)
Definition lift {A} (m : M A) : PM A :=
  fun '(s, r) => let '(a, s') := m s in (a, (s', r)).

Definition get_res : PM Res := gets snd.
Definition upd_res (f : Res -> Res) : PM unit := modify (fun '(s, r) => (s, f r)).

Section Probe.
Context (env : PEnv) (using_thread : bool).

(** ** Kernel services used at probe time *)

Definition switch_dev_register : PM Z :=
  let e := e_switch_dev_register env in
  (if e <? 0 then mret tt
   else upd_res (fun r => mkRes true (r_timer r) (r_gpio r) (r_irq r) (r_input r)
                            (r_caps r) (r_context r) (r_drivers r))) ;;
  mret e.

Definition setup_timer : PM unit :=
  upd_res (fun r => mkRes (r_switch r) true (r_gpio r) (r_irq r) (r_input r)
                      (r_caps r) (r_context r) (r_drivers r)).

Definition gpio_request (gpio : Z) : PM Z :=
  let e := e_gpio_request env gpio in
  (if e <? 0 then mret tt
   else upd_res (fun r => mkRes (r_switch r) (r_timer r) (r_gpio r ++ [gpio]) (r_irq r)
                            (r_input r) (r_caps r) (r_context r) (r_drivers r))) ;;
  mret e.

Definition gpio_free (gpio : Z) : PM unit :=
  upd_res (fun r => mkRes (r_switch r) (r_timer r) (filter (fun g => g <> gpio) (r_gpio r))
                      (r_irq r) (r_input r) (r_caps r) (r_context r) (r_drivers r)).

Definition gpio_direction_input (gpio : Z) : PM Z := mret (e_gpio_direction_input env gpio).

Definition gpio_to_irq (gpio : Z) : PM Z := mret (e_gpio_to_irq env gpio).

(** [request_irq] installs the handler with the trigger [flags]: the
    line is requested and its trigger type set. *)
Definition request_irq (irq flags : Z) : PM Z :=
  let e := e_request_irq env irq in
  (if decide (e = 0) then
     upd_res (fun r => mkRes (r_switch r) (r_timer r) (r_gpio r) (r_irq r ++ [irq])
                         (r_input r) (r_caps r) (r_context r) (r_drivers r)) ;;
     lift (irq_set_irq_type irq flags)
   else mret tt) ;;
  mret e.

Definition input_allocate_device : PM bool :=
  let ok := e_input_allocate_device env in
  (if ok then upd_res (fun r => mkRes (r_switch r) (r_timer r) (r_gpio r) (r_irq r)
                                  (Some false) (r_caps r) (r_context r) (r_drivers r))
   else mret tt) ;;
  mret ok.

Definition input_free_device : PM unit :=
  upd_res (fun r => mkRes (r_switch r) (r_timer r) (r_gpio r) (r_irq r)
                      None [] (r_context r) (r_drivers r)).

Definition input_set_capability (type code : Z) : PM unit :=
  upd_res (fun r => mkRes (r_switch r) (r_timer r) (r_gpio r) (r_irq r)
                      (r_input r) (r_caps r ++ [(type, code)]) (r_context r) (r_drivers r)).

Definition input_register_device : PM Z :=
  let e := e_input_register_device env in
  (if decide (e = 0) then
     upd_res (fun r => mkRes (r_switch r) (r_timer r) (r_gpio r) (r_irq r)
                         (Some true) (r_caps r) (r_context r) (r_drivers r))
   else mret tt) ;;
  mret e.

(** ** [headset_detect_probe] *)

Definition headset_detect_probe : PM Z :=
  error ← switch_dev_register;
  if error <? 0 then mret error else
  setup_timer ;;
  sw ← lift (get_g switch_gpio);
  dg ← lift (get_g detect_gpio);
  bg ← lift (get_g button_gpio);
  error ← gpio_request sw;
  if error <? 0 then mret error else
  error ← gpio_request dg;
  if error <? 0 then mret error else
  error ← gpio_request bg;
  if error <? 0 then mret error else
  error ← gpio_direction_input dg;
  if error <? 0 then gpio_free dg ;; mret error else
  birq ← gpio_to_irq bg;
  lift (put_g button_irq birq) ;;
  if birq <? 0 then mret birq else
  bal ← lift (get_g button_active_low);
  error ← request_irq birq (if c_true bal then IRQF_TRIGGER_HIGH else IRQF_TRIGGER_LOW);
  if c_true error then mret error else
  lift (headset_button_irq_enable 0 birq) ;;
  dirq ← gpio_to_irq dg;
  lift (put_g detect_irq dirq) ;;
  if dirq <? 0 then gpio_free dg ;; mret dirq else
  dal ← lift (get_g detect_active_low);
  error ← request_irq dirq (if c_true dal then IRQF_TRIGGER_HIGH else IRQF_TRIGGER_LOW);
  if error <? 0 then mret error else
  mret 0.

(** ** [headset_buttons_probe] *)

(** The capability calls of the loop of lines 693-699, over the table. *)
Fixpoint buttons_caps (bs : list headset_button) : PM unit :=
  match bs with
  | [] => mret tt
  | b :: bs' =>
      input_set_capability (if c_true (btype b) then btype b else EV_KEY) (code b) ;;
      buttons_caps bs'
  end.

Definition headset_buttons_probe : PM Z :=
  ok ← input_allocate_device;
  if negb (e_buttons_pdata env) || negb ok then input_free_device ;; mret (- ENOMEM) else
  lift (put_g button_platform_data 1) ;;
  bs ← lift (gets st_buttons);
  buttons_caps bs ;;
  lift (modify (set_buttons (map (set_bstate HEADSET_BUTTON_STATE_RELASED) bs))) ;;
  error ← input_register_device;
  if c_true error then input_free_device ;; mret error else
  mret 0.

(** ** [headset_init] and [headset_exit] *)

Definition platform_driver_register (drv : Z) : PM Z :=
  let e := e_platform_driver_register env drv in
  (if decide (e = 0) then
     upd_res (fun r => mkRes (r_switch r) (r_timer r) (r_gpio r) (r_irq r) (r_input r)
                         (r_caps r) (r_context r) (r_drivers r ++ [drv]))
   else mret tt) ;;
  mret e.

Definition platform_driver_unregister (drv : Z) : PM unit :=
  upd_res (fun r => mkRes (r_switch r) (r_timer r) (r_gpio r) (r_irq r) (r_input r)
                      (r_caps r) (r_context r) (filter (fun d => d <> drv) (r_drivers r))).

Definition set_context (b : bool) : PM unit :=
  upd_res (fun r => mkRes (r_switch r) (r_timer r) (r_gpio r) (r_irq r) (r_input r)
                      (r_caps r) b (r_drivers r)).

Definition headset_init : PM Z :=
  (if using_thread then
     if e_context_create env then set_context true ;; mret true
     else mret false
   else
     (if e_context_create env then set_context true ;; lift (put_g headset_wq 1)
      else lift (put_g headset_wq 0)) ;;
     mret true) ≫= fun created =>
  if negb created then mret (-1) else
  ret ← platform_driver_register headset_detect_driver;
  ret2 ← platform_driver_register headset_buttons_driver;
  mret (Z.lor ret ret2).

(** [flush_workqueue]: the pending works run, oldest first. *)
Definition flush_workqueue : M unit :=
  q ← gets st_wq;
  modify (set_wq []) ;;
  for_each q run_work.

Definition headset_exit : PM unit :=
  (if using_thread then
     r ← get_res; if r_context r then set_context false else mret tt
   else
     q ← lift (get_g headset_wq);
     if c_true q then
       lift flush_workqueue ;; set_context false ;; lift (put_g headset_wq 0)
     else mret tt) ;;
  platform_driver_unregister headset_buttons_driver ;;
  platform_driver_unregister headset_detect_driver.
End Probe.

(** ** Probing *)

#[local] Arguments headset_button_irq_enable : simpl never.

Lemma lift_spec {A} (m : M A) s r : lift m (s, r) = ((m s).1, ((m s).2, r)).
Proof. unfold lift. by destruct (m s). Qed.

Section ProbeProofs.
Context (env : PEnv).

(** (C22) The error paths of [headset_detect_probe] release nothing:
    with the switch device registered, the three GPIOs requested, the
    detect GPIO set as input and the button line mapped, a refused
    [request_irq] for the button line is returned as the probe's error
    while the switch device and all three GPIOs stay held (the code jumps
    to [fail1], which only returns). *)
Theorem detect_probe_button_irq_fails s r :
  let sw := st_g s switch_gpio in
  let dg := st_g s detect_gpio in
  let bg := st_g s button_gpio in
  let birq := e_gpio_to_irq env bg in
  0 <= e_switch_dev_register env ->
  0 <= e_gpio_request env sw -> 0 <= e_gpio_request env dg -> 0 <= e_gpio_request env bg ->
  0 <= e_gpio_direction_input env dg -> 0 <= birq ->
  e_request_irq env birq <> 0 ->
  let '(e, (s', r')) := headset_detect_probe env (s, r) in
  e = e_request_irq env birq
  /\ r_switch r' = true
  /\ r_gpio r' = r_gpio r ++ [sw; dg; bg]
  /\ r_irq r' = r_irq r.
Proof.
  intros sw dg bg birq H0 H1 H2 H3 H4 H5 H6. subst sw dg bg birq.
  unfold headset_detect_probe, switch_dev_register, setup_timer, gpio_request,
    gpio_direction_input, gpio_to_irq, request_irq, upd_res, lift, get_g, put_g.
  hs_step. repeat (zcmp_lia; cbn).
  all: by rewrite <- ?app_assoc.
Qed.

(** (C21) When every kernel call succeeds, [headset_detect_probe]
    answers 0, holds the switch device, the timer, the three GPIOs and the
    two interrupt lines, records both line numbers, leaves the button
    interrupt disabled through the gate (the gate invariant holds for the
    button line), and arms the detect line on the level opposite to its
    active one. *)
Theorem detect_probe_success s r :
  let sw := st_g s switch_gpio in
  let dg := st_g s detect_gpio in
  let bg := st_g s button_gpio in
  let birq := e_gpio_to_irq env bg in
  let dirq := e_gpio_to_irq env dg in
  0 <= e_switch_dev_register env ->
  0 <= e_gpio_request env sw -> 0 <= e_gpio_request env dg -> 0 <= e_gpio_request env bg ->
  0 <= e_gpio_direction_input env dg -> 0 <= birq -> 0 <= dirq ->
  e_request_irq env birq = 0 -> e_request_irq env dirq = 0 ->
  gate_ok birq s ->
  let '(e, (s', r')) := headset_detect_probe env (s, r) in
  e = 0 /\ r_switch r' = true /\ r_timer r' = true
  /\ r_gpio r' = r_gpio r ++ [sw; dg; bg]
  /\ r_irq r' = r_irq r ++ [birq; dirq]
  /\ st_g s' button_irq = birq /\ st_g s' detect_irq = dirq
  /\ st_g s' button_irq_enable = 0 /\ gate_ok birq s'
  /\ st_irq_type s' !! dirq
     = Some (if c_true (st_g s detect_active_low) then IRQF_TRIGGER_HIGH else IRQF_TRIGGER_LOW).
Proof.
  intros sw dg bg birq dirq H0 H1 H2 H3 H4 H5 H6 H7 H8 [[E|E] Hd].
  all: subst sw dg bg birq dirq.
  all: unfold headset_detect_probe, switch_dev_register, setup_timer, gpio_request,
    gpio_direction_input, gpio_to_irq, request_irq, upd_res, lift, get_g, put_g,
    irq_set_irq_type, emit.
  all: hs_step; repeat (zcmp_lia; cbn); autorewrite with hs_bits.
  all: rewrite button_irq_enable_run
    by (unfold gate_ok, irq_depth in *; st_simpl; rewrite E in *; split; [auto|done]).
  all: rewrite c_true_0; cbn; autorewrite with hs_bits; rewrite E;
    repeat (zcmp_lia; cbn); autorewrite with hs_bits.
  all: unfold gate_ok, irq_depth in *; rewrite ?E in Hd; cbn;
    rewrite ?lookup_insert_eq, <- ?app_assoc; cbn; autorewrite with hs_bits;
    rewrite ?E; (repeat split); auto; lia.
Qed.
End ProbeProofs.

(** ** Buttons, init and exit *)

(** (C24) [headset_init] (work-queue build) answers the bitwise OR of
    the two driver registrations: 0 exactly when both succeed, negative
    when one fails, but for two failures a code that may be neither
    (-ENOMEM | -EINVAL is -2, -ENOENT). *)
Theorem headset_init_result env ps :
  let e1 := e_platform_driver_register env headset_detect_driver in
  let e2 := e_platform_driver_register env headset_buttons_driver in
  let e := (headset_init env false @! ps)%hs in
  e = Z.lor e1 e2
  /\ (e = 0 <-> e1 = 0 /\ e2 = 0)
  /\ (e1 < 0 \/ e2 < 0 -> e < 0).
Proof.
  cbv zeta. unfold headset_init, platform_driver_register, set_context, upd_res, lift, put_g.
  destruct ps as [s r]. hs_step.
  destruct (e_context_create env); hs_step;
  (repeat case_decide); cbn;
  (split; [done|]); rewrite Z.lor_eq_0_iff; (split; [done|]);
  intros [?|?]; apply Z.lor_neg; lia.
Qed.

(** (C25) [headset_exit] unregisters both platform drivers and stops the
    serialisation context, but gives back no interrupt line, GPIO or
    switch device and never deletes the debounce timer (in the thread
    build the timer is left exactly as it was), where the spec's shutdown
    disables both lines and cancels the timer. *)
Theorem headset_exit_keeps_resources using_thread s r :
  let '(_, (s', r')) := headset_exit using_thread (s, r) in
  r_irq r' = r_irq r /\ r_gpio r' = r_gpio r /\ r_switch r' = r_switch r
  /\ r_timer r' = r_timer r
  /\ r_drivers r' = filter (fun d => d <> headset_detect_driver)
                      (filter (fun d => d <> headset_buttons_driver) (r_drivers r))
  /\ (using_thread = true -> st_timer s' = st_timer s).
Proof.
  unfold headset_exit, platform_driver_unregister, set_context, upd_res, get_res, lift, get_g, put_g.
  hs_step. destruct using_thread; hs_step.
  - simpl. destruct (r_context r); simpl; (repeat split).
  - simpl. destruct (c_true (st_g s headset_wq)); simpl; [|(repeat split); done].
    destruct (flush_workqueue s) as [[] s1]. simpl. (repeat split); [done..|discriminate].
Qed.

(** The capability declared for a button: its type, [EV_KEY] when 0. *)
Definition cap_of (b : headset_button) : Z * Z :=
  (if c_true (btype b) then btype b else EV_KEY, code b).

Lemma buttons_caps_spec bs s r :
  buttons_caps bs (s, r)
  = (tt, (s, mkRes (r_switch r) (r_timer r) (r_gpio r) (r_irq r) (r_input r)
               (r_caps r ++ map cap_of bs) (r_context r) (r_drivers r))).
Proof.
  revert r. induction bs as [|b bs IH]; intros r; cbn.
  - rewrite app_nil_r. by destruct r.
  - unfold mbind, StM_bind, input_set_capability, upd_res, modify. cbn.
    rewrite IH. cbn. by rewrite <- app_assoc.
Qed.

(** (C23) A successful [headset_buttons_probe] registers the input
    device, declares one capability per button in table order, leaves
    every button released with its key unchanged (Bug 185497 step 1) and
    publishes the button platform data. *)
Theorem headset_buttons_probe_success env s r :
  e_buttons_pdata env = true -> e_input_allocate_device env = true ->
  e_input_register_device env = 0 ->
  let '(e, (s', r')) := headset_buttons_probe env (s, r) in
  e = 0 /\ r_input r' = Some true
  /\ Forall (fun b => bstate b = HEADSET_BUTTON_STATE_RELASED) (st_buttons s')
  /\ map code (st_buttons s') = map code (st_buttons s)
  /\ r_caps r' = r_caps r ++ map cap_of (st_buttons s)
  /\ st_g s' button_platform_data = 1.
Proof.
  intros Hp Ha Hr.
  unfold headset_buttons_probe, input_allocate_device, input_register_device,
    upd_res, lift, get_g, put_g.
  hs_step. rewrite Hp, Ha. hs_step. simpl. rewrite buttons_caps_spec. simpl.
  rewrite Hr, decide_True by done. simpl.
  split; [done|]. split; [done|].
  split; [apply release_map_released|]. split; [apply release_map_codes|].
  split; [done|]. by rewrite upd_g_same.
Qed.

(** Without button platform data [headset_buttons_probe] answers
    -ENOMEM, holds no input device and leaves the driver state alone. *)
Theorem headset_buttons_probe_no_pdata env s r :
  e_buttons_pdata env = false ->
  let '(e, (s', r')) := headset_buttons_probe env (s, r) in
  e = - ENOMEM /\ r_input r' = None /\ s' = s.
Proof.
  intros Hp. unfold headset_buttons_probe, input_allocate_device, input_free_device, upd_res.
  hs_step. rewrite Hp. destruct (e_input_allocate_device env); simpl; done.
Qed.

(** ** Witnesses *)

(** A board where every kernel call succeeds: GPIO [g] is interrupt
    [g + 100]. *)
Definition env_ok : PEnv :=
  mkPEnv 0 (fun _ => 0) (fun _ => 0) (fun g => g + 100) (fun _ => 0) true true 0 true (fun _ => 0).

(** The same board where the button line (interrupt 103) is busy. *)
Definition env_busy : PEnv :=
  mkPEnv 0 (fun _ => 0) (fun _ => 0) (fun g => g + 100)
    (fun i => if i =? 103 then -16 else 0) true true 0 true (fun _ => 0).

Definition board : St :=
  set_g button_gpio 3 (set_g detect_gpio 2 (set_g switch_gpio 1
    (boot_state (mkHw (fun _ => 0) (fun _ => 0) (fun _ => 0)) ∅))).

Lemma detect_probe_success_witness :
  gate_ok 103 board
  /\ (headset_detect_probe env_ok (board, no_res)).1 = 0
  /\ r_irq (headset_detect_probe env_ok (board, no_res)).2.2 = [103; 102].
Proof.
  assert (Hg : gate_ok 103 board) by (split; [right|]; reflexivity).
  pose proof (detect_probe_success env_ok board no_res ltac:(vm_compute; discriminate)
    ltac:(vm_compute; discriminate) ltac:(vm_compute; discriminate)
    ltac:(vm_compute; discriminate) ltac:(vm_compute; discriminate)
    ltac:(vm_compute; discriminate) ltac:(vm_compute; discriminate)
    ltac:(reflexivity) ltac:(reflexivity) Hg) as H.
  destruct (headset_detect_probe env_ok (board, no_res)) as [e [s' r']].
  destruct H as (He & _ & _ & _ & Hi & _). split; [exact Hg|]. cbn. by rewrite He, Hi.
Defined.

Lemma detect_probe_button_irq_fails_witness :
  e_request_irq env_busy 103 <> 0
  /\ (headset_detect_probe env_busy (board, no_res)).1 = -16
  /\ r_gpio (headset_detect_probe env_busy (board, no_res)).2.2 = [1; 2; 3]
  /\ r_switch (headset_detect_probe env_busy (board, no_res)).2.2 = true.
Proof.
  assert (Hb : e_request_irq env_busy 103 <> 0) by discriminate.
  pose proof (detect_probe_button_irq_fails env_busy board no_res ltac:(vm_compute; discriminate)
    ltac:(vm_compute; discriminate) ltac:(vm_compute; discriminate)
    ltac:(vm_compute; discriminate) ltac:(vm_compute; discriminate)
    ltac:(vm_compute; discriminate) Hb) as H.
  destruct (headset_detect_probe env_busy (board, no_res)) as [e [s' r']].
  destruct H as (He & Hs & Hg & _). split; [exact Hb|]. cbn. by rewrite He, Hs, Hg.
Defined.

Lemma headset_buttons_probe_success_witness :
  let s := set_buttons [mkButton 0 500 115 0 HEADSET_BUTTON_STATE_PRESSED] board in
  e_buttons_pdata env_ok = true
  /\ r_caps (headset_buttons_probe env_ok (s, no_res)).2.2 = [(EV_KEY, 115)]
  /\ Forall (fun b => bstate b = HEADSET_BUTTON_STATE_RELASED)
       (st_buttons (headset_buttons_probe env_ok (s, no_res)).2.1).
Proof.
  intros s.
  pose proof (headset_buttons_probe_success env_ok s no_res eq_refl eq_refl eq_refl) as H.
  destruct (headset_buttons_probe env_ok (s, no_res)) as [e [s' r']].
  destruct H as (_ & _ & Hf & _ & Hc & _). split; [done|]. cbn.
  split; [by rewrite Hc|exact Hf].
Defined.

Lemma headset_buttons_probe_no_pdata_witness :
  let env := mkPEnv 0 (fun _ => 0) (fun _ => 0) (fun g => g + 100) (fun _ => 0)
               false true 0 true (fun _ => 0) in
  e_buttons_pdata env = false
  /\ (headset_buttons_probe env (board, no_res)).1 = - ENOMEM.
Proof.
  intros env. pose proof (headset_buttons_probe_no_pdata env board no_res eq_refl) as H.
  destruct (headset_buttons_probe env (board, no_res)) as [e [s' r']].
  destruct H as (He & _). split; [done|]. cbn. exact He.
Defined.
