(* ===== verification/System.v ===== *)
(** * The driver as a system: interrupts, timer and worker interleaved

    The kernel runs the driver's entry points in any order: the detect
    interrupt, the button interrupt (only while its line is enabled), the
    debounce timer once it has expired, one step of the serialised worker
    (the thread's loop or the work queue), and the passing of time.
    [sys_step] is that relation, for any back end of the class [Backend]
    of Sched.v; the invariants are proved by induction on its reflexive
    transitive closure.

    The back ends are used through the interface [BackendLaws]: what the
    handlers post leaves the button gate alone, and one worker step keeps
    the gate invariant.  The two instances discharge it from the frame and
    invariant lemmas of the works. *)

From S2P Require Import Prelude Adi Kernel Notifier Classifier Gates Button Detect Sched.
From stdpp Require Import base gmap list relations.
From Stdlib Require Import ZArith Lia.

Local Open Scope Z_scope.

(** ** The gate invariant of the button line *)

(** What the gate invariant reads: the button line's number, the static
    flag of [headset_button_irq_enable] and the interrupt depths. *)
Definition gate_obs (s : St) : Z * Z * gmap Z Z :=
  (st_g s button_irq, st_g s button_irq_enable, st_irq_depth s).

Definition gate_inv (s : St) : Prop := gate_ok (st_g s button_irq) s.

Lemma gate_inv_obs s s' : gate_obs s = gate_obs s' -> gate_inv s -> gate_inv s'.
Proof.
  unfold gate_obs, gate_inv, gate_ok, irq_depth. intros [= <- <- <-]. done.
Qed.

Lemma gate_inv_at_obs (v : Z) s s' :
  gate_obs s = gate_obs s' ->
  gate_inv s /\ st_g s button_irq = v -> gate_inv s' /\ st_g s' button_irq = v.
Proof.
  intros Ho [Hs Hv]. split; [by apply (gate_inv_obs s)|].
  unfold gate_obs in Ho. congruence.
Qed.

(** Binding the value of a variable: the continuation may assume it. *)
Lemma keeps_get_g {A} (P : St -> Prop) x (k : Z -> M A) :
  (forall v, keeps (fun s => P s /\ st_g s x = v) (k v)) -> keeps P (v ← get_g x; k v).
Proof. intros Hk s Hs. apply (Hk (st_g s x) s). by split. Qed.

Lemma adc_fill_gate count n l : frame gate_obs (adc_fill count n l).
Proof. revert count l. induction n; intros; cbn; frame_solve. Qed.
#[local] Hint Resolve adc_fill_gate : frame.

Ltac gate_frame :=
  first [ apply (keeps_frame _ gate_obs); [exact gate_inv_obs|]
        | apply (keeps_frame _ gate_obs); [intros ???; apply gate_inv_at_obs|] ];
  unfold detect_type_config, headset_pwr_on, detect_headset_type, headset_read_adc,
    blocking_notifier_call_chain, switch_set_state, headset_button_release, release_one;
  frame_solve.

(** ** The works and the gate *)

(** The plug-in publication enables the button line through the gate for
    a headset with a mic and leaves the gate alone otherwise. *)
Lemma detect_report_gate t bi :
  keeps (fun s => gate_inv s /\ st_g s button_irq = bi) (detect_report t bi).
Proof.
  unfold detect_report. case_decide; [gate_frame|].
  do 4 (apply keeps_bind; [gate_frame|intros]).
  intros s [Hs Hb]. subst bi.
  assert (Hf : g_frame button_irq (headset_button_irq_enable 1 (st_g s button_irq)))
    by (unfold headset_button_irq_enable; frame_solve).
  unfold gate_inv. rewrite Hf. split; [apply button_irq_enable_gate, Hs|done].
Qed.

Lemma detect_work_gate : keeps gate_inv headset_detect_workqueue_func.
Proof.
  unfold headset_detect_workqueue_func.
  do 4 (apply keeps_bind; [gate_frame|intros]).
  apply keeps_if; [|gate_frame].
  do 6 (apply keeps_bind; [gate_frame|intros]).
  apply keeps_get_g; intros bi. unfold detect_plug_in_report.
  apply keeps_bind; [gate_frame|intros _]. apply detect_report_gate.
Qed.

Lemma button_work_gate : frame gate_obs headset_button_workqueue_func.
Proof.
  unfold headset_button_workqueue_func, button_confirm_and_report, ignore_wrong_button,
    headset_plug_in, headset_button_down, headset_read_adc.
  frame_solve.
Qed.

(** ** What the handlers need from a back end *)

(** Posting a work does not touch the gate, and one step of the worker
    keeps the gate invariant. *)
Class BackendLaws `{Backend} := {
  post_detect_gate : frame gate_obs post_detect;
  post_button_gate : frame gate_obs post_button;
  worker_step_gate : keeps gate_inv worker_step;
}.

Lemma wake_gate ev : frame gate_obs (wake ev).
Proof. unfold wake, headset_wake_up_headset_thread. frame_solve. Qed.

Lemma thread_iter_gate : keeps gate_inv headset_thread_iter.
Proof.
  unfold headset_thread_iter. apply keeps_bind; [gate_frame|intros f].
  case_decide; [apply keeps_ret|].
  apply keeps_bind; [gate_frame|intros _]. apply keeps_bind; [|intros; apply keeps_ret].
  case_decide; [apply detect_work_gate|]. case_decide; [|apply keeps_ret].
  apply (keeps_frame _ gate_obs); [exact gate_inv_obs|apply button_work_gate].
Qed.

#[export] Instance thread_laws : @BackendLaws thread_backend.
Proof. split; [apply wake_gate|apply wake_gate|apply thread_iter_gate]. Qed.

Lemma wq_post_gate w : frame gate_obs (wq_post w).
Proof. unfold wq_post. frame_solve. Qed.

Lemma wq_worker_gate : keeps gate_inv wq_worker_step.
Proof.
  unfold wq_worker_step. apply keeps_bind; [gate_frame|intros [|w q]]; [apply keeps_ret|].
  apply keeps_bind; [gate_frame|intros _]. apply keeps_bind; [|intros; apply keeps_ret].
  destruct w; [apply detect_work_gate|].
  apply (keeps_frame _ gate_obs); [exact gate_inv_obs|apply button_work_gate].
Qed.

#[export] Instance wq_laws : @BackendLaws wq_backend.
Proof. split; [apply wq_post_gate|apply wq_post_gate|apply wq_worker_gate]. Qed.

(** ** The kernel runs the entry points in any order *)

(** The module parameters of lines 806-809, writable at run time
    ([S_IWUSR]). *)
Definition module_params : list gvar :=
  [headset_timer_period; headset_read_adc_delay; headset_switch_gpio_delay;
   headset_discard_button_irq].

Lemma module_param_ne x :
  x ∈ module_params ->
  x <> button_irq /\ x <> button_irq_enable /\ x <> s_headset_event_flags /\ x <> sdev_state.
Proof.
  intros Hx. repeat (apply elem_of_cons in Hx as [->|Hx]; [repeat split; discriminate|]).
  by apply elem_of_nil in Hx.
Qed.

Section System.
Context `{Backend}.

(** One entry point runs to completion: the detect interrupt; the button
    interrupt, which the kernel delivers only while its line is enabled
    (depth 0); the timer's check; one step of the worker; time passes; or
    user space writes a module parameter through sysfs (a non-negative
    value of type [int], [param_set_int]). *)
Inductive sys_step : St -> St -> Prop :=
| sys_detect_irq s : sys_step s (headset_detect_irq_handler @@ s)%hs
| sys_button_irq s :
    irq_depth s (st_g s button_irq) = 0 -> sys_step s (headset_button_irq_handler @@ s)%hs
| sys_timer s : sys_step s (timer_tick @@ s)%hs
| sys_worker s : sys_step s (worker_step @@ s)%hs
| sys_clock s d : 0 <= d -> sys_step s (set_now (st_now s + d) s)
| sys_param s x v :
    x ∈ module_params -> 0 <= v < 2 ^ 31 -> sys_step s (set_g x v s).

(** An invariant kept by every entry point holds in every state reachable
    from one where it holds. *)
Lemma sys_reach_inv (P : St -> Prop) s0 s :
  (forall s s', sys_step s s' -> P s -> P s') -> rtc sys_step s0 s -> P s0 -> P s.
Proof. intros Hstep Hr. induction Hr; eauto. Qed.
End System.

(** ** The gate holds in every reachable state *)

Section GateSystem.
Context `{BackendLaws}.
#[local] Hint Resolve post_detect_gate post_button_gate : frame.

Lemma button_irq_handler_gate : frame gate_obs headset_button_irq_handler.
Proof. unfold headset_button_irq_handler, headset_plug_in. frame_solve. Qed.

Lemma timer_tick_gate : frame gate_obs timer_tick.
Proof. unfold timer_tick, headset_detect_timer. frame_solve. Qed.

Lemma detect_irq_gate : keeps gate_inv headset_detect_irq_handler.
Proof.
  intros s Hs. pose proof (detect_irq_handler_spec s Hs) as Hspec.
  pose proof (detect_irq_handler_frame s) as Hf.
  destruct (headset_detect_irq_handler s) as [r s']. cbn in *.
  destruct Hspec as (_ & _ & _ & _ & Hg & _). injection Hf as _ Hbi _.
  unfold gate_inv. by rewrite Hbi.
Qed.

Lemma sys_step_gate s s' : sys_step s s' -> gate_inv s -> gate_inv s'.
Proof.
  destruct 1 as [s|s Hd|s|s|s d Hd|s x v Hx Hv].
  - apply detect_irq_gate.
  - apply (keeps_frame _ gate_obs); [exact gate_inv_obs|apply button_irq_handler_gate].
  - apply (keeps_frame _ gate_obs); [exact gate_inv_obs|apply timer_tick_gate].
  - apply worker_step_gate.
  - apply gate_inv_obs. done.
  - apply gate_inv_obs. destruct (module_param_ne x Hx) as (H1 & H2 & _).
    unfold gate_obs. cbn. by rewrite !upd_g_other.
Qed.
End GateSystem.

(** [keeps_solve obs Hobs] proves [keeps P m] by following the structure
    of [m]: the parts that leave [obs] alone keep [P] by [Hobs], the
    others by the lemmas of the hint database [keeps]. *)
Create HintDb keeps discriminated.
Ltac keeps_solve obs Hobs :=
  repeat first
    [ apply keeps_ret
    | solve [eauto with keeps]
    | apply (keeps_frame _ obs); [exact Hobs|solve [frame_solve]]
    | apply keeps_bind; intros
    | apply keeps_if
    | case_decide
    | match goal with |- keeps _ (match ?t with _ => _ end) => destruct t end ].

Lemma keeps_at {A} (P : St -> Prop) (m : M A) s : keeps P m -> P s -> P (m @@ s)%hs.
Proof. intros Hm. apply Hm. Qed.

(** ** The thread build: the event word *)

(** The event word only ever holds 0 (nothing pending), [HEADSET_DETECT]
    or [HEADSET_BUTTON]. *)
Definition ev_ok (s : St) : Prop :=
  st_g s s_headset_event_flags = 0 \/ st_g s s_headset_event_flags = HEADSET_DETECT
  \/ st_g s s_headset_event_flags = HEADSET_BUTTON.

Lemma ev_ok_obs s s' :
  st_g s s_headset_event_flags = st_g s' s_headset_event_flags -> ev_ok s -> ev_ok s'.
Proof. unfold ev_ok. intros <-. done. Qed.

Lemma put_flags_ev v :
  v = 0 \/ v = HEADSET_DETECT \/ v = HEADSET_BUTTON ->
  keeps ev_ok (put_g s_headset_event_flags v).
Proof. intros Hv s _. unfold ev_ok. cbn. by rewrite upd_g_same. Qed.

Lemma wake_ev ev : ev = HEADSET_DETECT \/ ev = HEADSET_BUTTON -> keeps ev_ok (wake ev).
Proof.
  intros Hv s Hs. unfold wake, headset_wake_up_headset_thread, get_g, put_g. hs_step.
  case_decide; hs_step; unfold ev_ok; st_simpl; [exact Hs|tauto].
Qed.

Section EventWord.
#[local] Hint Extern 1 (keeps ev_ok (wake _)) => apply wake_ev; tauto : keeps.
#[local] Hint Extern 1 (keeps ev_ok (put_g s_headset_event_flags _)) =>
  apply put_flags_ev; tauto : keeps.
#[local] Hint Extern 1 (frame _ headset_detect_workqueue_func) =>
  apply detect_work_frame; discriminate : frame.
#[local] Hint Extern 1 (frame _ headset_button_workqueue_func) =>
  apply button_work_frame; discriminate : frame.

Lemma thread_step_ev s s' : @sys_step thread_backend s s' -> ev_ok s -> ev_ok s'.
Proof.
  destruct 1 as [s|s Hd|s|s|s d _|s x v Hx _];
    [| | | |apply ev_ok_obs; done|apply ev_ok_obs; cbn; rewrite upd_g_other; [done|];
      destruct (module_param_ne x Hx) as (_ & _ & Hf & _); congruence|..]; try clear Hd;
    apply keeps_at;
    unfold headset_detect_irq_handler, headset_button_irq_handler, headset_plug_in,
      timer_tick, headset_detect_timer, headset_button_irq_enable; cbn [post_detect post_button
      worker_step thread_backend]; try unfold headset_thread_iter;
    keeps_solve (fun s => st_g s s_headset_event_flags) ev_ok_obs.
Qed.
End EventWord.

(** ** The work-queue build: the queue *)

(** [queue_work] never queues a pending work twice: the queue has no
    duplicates, so at most the two works are pending. *)
Definition wq_ok (s : St) : Prop := NoDup (st_wq s).

Lemma wq_ok_obs s s' : st_wq s = st_wq s' -> wq_ok s -> wq_ok s'.
Proof. unfold wq_ok. by intros <-. Qed.

Lemma adc_fill_wq count n l : frame st_wq (adc_fill count n l).
Proof. revert count l. induction n; intros; cbn; frame_solve. Qed.
#[local] Hint Resolve adc_fill_wq : frame.

Lemma run_work_wq w : frame st_wq (run_work w).
Proof.
  destruct w; unfold run_work, headset_detect_workqueue_func, detect_plug_in_report,
    detect_type_config, detect_report, blocking_notifier_call_chain, detect_headset_type,
    headset_button_release, release_one, headset_read_adc, headset_pwr_on,
    headset_button_irq_enable, switch_set_state, headset_button_workqueue_func,
    button_confirm_and_report, ignore_wrong_button, headset_plug_in, headset_button_down;
    frame_solve.
Qed.

Lemma queue_work_ok w : keeps wq_ok (queue_work w).
Proof.
  intros s Hs. unfold queue_work, wq_ok in *. case_decide; [done|]. cbn.
  apply NoDup_app. split; [done|]. split; [set_solver|apply NoDup_singleton].
Qed.

Lemma wq_worker_ok : keeps wq_ok wq_worker_step.
Proof.
  intros s Hs. unfold wq_worker_step. hs_step.
  destruct (st_wq s) as [|w q] eqn:E; [done|]. hs_step.
  pose proof (run_work_wq w (set_wq q s)) as Hf.
  destruct (run_work w (set_wq q s)) as [u s'] eqn:Er. cbn in *.
  unfold wq_ok in *. rewrite Hf, E in *. by apply NoDup_cons in Hs as [_ ?].
Qed.

(** A queue without duplicates holds at most the two works. *)
Lemma wq_ok_length s : wq_ok s -> (length (st_wq s) <= 2)%nat.
Proof.
  intros Hs. change 2%nat with (length [DetectWork; ButtonWork]).
  apply submseteq_length, NoDup_submseteq; [exact Hs|]. intros [|] _; [left|right; left].
Qed.

(** One worker step pops the head of the queue and answers whether there
    was one. *)
Lemma wq_worker_pop s :
  wq_worker_step s = (bool_decide (st_wq s <> []), (wq_worker_step @@ s)%hs)
  /\ st_wq (wq_worker_step @@ s)%hs = tail (st_wq s).
Proof.
  unfold wq_worker_step. hs_step. destruct (st_wq s) as [|w q] eqn:E; hs_step.
  - split; [reflexivity|exact E].
  - pose proof (run_work_wq w (set_wq q s)) as Hf.
    destruct (run_work w (set_wq q s)) as [u s'] eqn:Er. cbn in *. by rewrite Hf.
Qed.

Section WorkQueue.
#[local] Hint Extern 1 (keeps wq_ok (queue_work _)) => apply queue_work_ok : keeps.
#[local] Hint Resolve wq_worker_ok : keeps.

Lemma wq_step_ok s s' : @sys_step wq_backend s s' -> wq_ok s -> wq_ok s'.
Proof.
  destruct 1 as [s|s Hd|s|s|s d _|s x v _ _]; [| | | |apply wq_ok_obs; done..]; try clear Hd;
    apply keeps_at;
    unfold headset_detect_irq_handler, headset_button_irq_handler, headset_plug_in,
      timer_tick, headset_detect_timer, headset_button_irq_enable; cbn [post_detect post_button
      worker_step wq_backend]; try unfold wq_post;
    keeps_solve st_wq wq_ok_obs.
Qed.
End WorkQueue.

(** ** The invariants of the running driver *)

(** (C27) For either back end, in every state the kernel can reach from
    one where the button gate holds (as after [headset_detect_probe]),
    whatever the order of interrupts, timer expiries, worker steps and
    delays, the gate still holds: the static flag of
    [headset_button_irq_enable] is 0 or 1 and the button line's disable
    depth is its complement, so the line is never disabled twice nor
    enabled while enabled. *)
Theorem reachable_gate_ok {B : Backend} {L : @BackendLaws B} s0 s :
  gate_inv s0 -> rtc sys_step s0 s ->
  gate_inv s /\ 0 <= irq_depth s (st_g s button_irq) <= 1.
Proof.
  intros H0 Hr. assert (Hs : gate_inv s) by (exact (sys_reach_inv gate_inv s0 s sys_step_gate Hr H0)).
  split; [done|]. destruct Hs as [[E|E] Hd]; rewrite Hd, E; lia.
Qed.

(** (C28) In the thread build the event word of every reachable state
    is 0, [HEADSET_DETECT] or [HEADSET_BUTTON]: the handlers and the
    timer only post these two events and an iteration of the thread
    clears the word, so the thread never meets an event it ignores. *)
Theorem thread_reachable_event_word s0 s :
  ev_ok s0 -> rtc (@sys_step thread_backend) s0 s -> ev_ok s.
Proof. intros H0 Hr. exact (sys_reach_inv ev_ok s0 s thread_step_ev Hr H0). Qed.

(** A plug-in as the kernel runs it: the detect interrupt, 500 ms, the
    timer, one worker step. *)
Definition plug_in_run {B : Backend} (s0 : St) : St :=
  let s1 := (headset_detect_irq_handler @@ s0)%hs in
  let s2 := set_now (st_now s1 + 500) s1 in
  let s3 := (timer_tick @@ s2)%hs in
  (worker_step @@ s3)%hs.

Lemma plug_in_run_reach {B : Backend} s0 : rtc sys_step s0 (plug_in_run s0).
Proof.
  unfold plug_in_run. eapply rtc_l; [apply sys_detect_irq|].
  eapply rtc_l; [apply (sys_clock _ 500); lia|]. eapply rtc_l; [apply sys_timer|].
  eapply rtc_l; [apply sys_worker|]. apply rtc_refl.
Qed.

Definition wq_board : St := set_g headset_wq 1 (probed_state (scenario_hw 3000 500 1)).

Lemma reachable_gate_ok_witness :
  let s := @plug_in_run thread_backend (probed_state (scenario_hw 3000 500 1)) in
  (gate_inv s /\ 0 <= irq_depth s (st_g s button_irq) <= 1) /\ st_g s button_irq_enable = 1.
Proof.
  split; [|vm_compute; reflexivity].
  apply (@reachable_gate_ok thread_backend thread_laws (probed_state (scenario_hw 3000 500 1))).
  - split; [right|]; reflexivity.
  - apply plug_in_run_reach.
Defined.

Lemma thread_reachable_event_word_witness :
  let s0 := probed_state (scenario_hw 3000 500 1) in
  let s1 := (headset_detect_irq_handler @@ s0)%hs in
  let s2 := (@timer_tick thread_backend @@ (set_now (st_now s1 + 500) s1))%hs in
  ev_ok s2 /\ st_g s2 s_headset_event_flags = HEADSET_DETECT.
Proof.
  split; [|vm_compute; reflexivity].
  apply (thread_reachable_event_word (probed_state (scenario_hw 3000 500 1))); [by left|].
  eapply rtc_l; [apply sys_detect_irq|]. eapply rtc_l; [apply (sys_clock _ 500); lia|].
  eapply rtc_l; [apply sys_timer|]. apply rtc_refl.
Defined.

(** ** The serialised context comes to rest *)

Lemma thread_iter_idle s :
  st_g s s_headset_event_flags = 0 -> headset_thread_iter s = (false, s).
Proof.
  intros E. unfold headset_thread_iter, get_g. hs_step. by rewrite E, decide_True.
Qed.

Lemma thread_iter_clears s : st_g (headset_thread_iter @@ s)%hs s_headset_event_flags = 0.
Proof.
  unfold headset_thread_iter, get_g, put_g. hs_step.
  case_decide as E0; hs_step; [exact E0|].
  assert (Hm : g_frame s_headset_event_flags
    (if decide (st_g s s_headset_event_flags = HEADSET_DETECT) then headset_detect_workqueue_func
     else if decide (st_g s s_headset_event_flags = HEADSET_BUTTON)
          then headset_button_workqueue_func else mret tt))
    by (repeat case_decide; [apply detect_work_frame|apply button_work_frame|frame_solve];
        discriminate).
  specialize (Hm (set_g s_headset_event_flags 0 s)).
  destruct (_ (set_g s_headset_event_flags 0 s)) as [u s']. cbn in *. rewrite Hm. by st_simpl.
Qed.

(** Termination of the thread's work: without a new event, one
    iteration of [headset_thread] leaves the event word at 0, so the next
    iteration blocks in [wait_event] and changes nothing; the works never
    post an event themselves. *)
Theorem thread_quiescent s :
  let s1 := (headset_thread_iter @@ s)%hs in
  headset_thread_iter s1 = (false, s1).
Proof. cbv zeta. apply thread_iter_idle, thread_iter_clears. Qed.

Lemma wq_worker_idle s : st_wq s = [] -> wq_worker_step s = (false, s).
Proof. intros E. unfold wq_worker_step. hs_step. by rewrite E. Qed.

(** (C31) Liveness of the work-queue build: from a queue without
    duplicates (every reachable one, by [wq_step_ok]), two steps of the worker take
    every pending work off [headset_wq], each step running the work it
    takes, and leave the queue empty; the next step finds nothing to do. *)
Theorem wq_drains s :
  wq_ok s ->
  let s2 := ((wq_worker_step ;; wq_worker_step) @@ s)%hs in
  st_wq s2 = [] /\ wq_worker_step s2 = (false, s2).
Proof.
  intros Hs. cbv zeta. pose proof (wq_ok_length s Hs) as Hl.
  unfold mbind, StM_bind. destruct (wq_worker_pop s) as [E1 Q1]. rewrite E1.
  destruct (wq_worker_pop (wq_worker_step @@ s)%hs) as [E2 Q2]. rewrite E2. cbn [snd].
  assert (Hq : st_wq (wq_worker_step @@ (wq_worker_step @@ s))%hs = []).
  { rewrite Q2, Q1. destruct (st_wq s) as [|a [|b [|c q]]]; cbn in *; done || lia. }
  split; [exact Hq|]. by apply wq_worker_idle.
Qed.

Lemma wq_drains_witness :
  let s := (@timer_tick wq_backend @@ (set_now 500 (headset_detect_irq_handler @@ wq_board)))%hs in
  st_wq s = [DetectWork]
  /\ st_wq ((wq_worker_step ;; wq_worker_step) @@ s)%hs = [].
Proof.
  split; [vm_compute; reflexivity|].
  apply (wq_drains _). unfold wq_ok. vm_compute. repeat constructor; set_solver.
Defined.
