(* ===== verification/Refine.v ===== *)
(** * The detection state machine of the spec, and its refinement

    The spec (sections 3 and 4.2) describes the detection state machine
    by what it publishes and by the button gate: a detect edge disables
    the button interrupt and keeps the published plug state; a detection
    run publishes [Removed] on an unplug, [HeadsetNoMic] for a headphone
    (gate unchanged) and [HeadsetMic] for a headset (gate enabled).
    [AState], [spec_edge] and [spec_detect] are that machine; [alpha]
    reads it off the driver's state ([sdev_state] of the switch device
    and the static flag of [headset_button_irq_enable]).

    Every entry point of the driver ([sys_step] of System.v) is either
    invisible to the abstract machine, or a detect edge, or a detection
    run on the level and readings the hardware offers at that moment.
    The back ends enter through the interface [BackendRefines]. *)

From S2P Require Import Prelude Adi Kernel Notifier Classifier Gates Button Detect Sched System.
From stdpp Require Import base gmap list relations.
From Stdlib Require Import ZArith Lia.

Local Open Scope Z_scope.

(** ** The abstract machine *)

(** [PlugSink.publish] of the spec. *)
Inductive plug_sink := Removed | HeadsetMic | HeadsetNoMic.

#[export] Instance plug_sink_eq_dec : EqDecision plug_sink.
Proof. solve_decision. Defined.

Record AState := mkAState { a_pub : option plug_sink; a_button_enabled : bool }.

#[export] Instance AState_eq_dec : EqDecision AState.
Proof. solve_decision. Defined.

(** A detect edge: the button interrupt is disabled, nothing published. *)
Definition spec_edge (a : AState) : AState := mkAState (a_pub a) false.

(** A detection run on the line level and the classification. *)
Definition spec_detect (inserted : bool) (t : SPRD_HEADSET_TYPE) (a : AState) : AState :=
  if inserted then
    if decide (t = HEADSET_NO_MIC) then mkAState (Some HeadsetNoMic) (a_button_enabled a)
    else mkAState (Some HeadsetMic) true
  else mkAState (Some Removed) (a_button_enabled a).

(** ** The abstraction of the driver's state *)

Definition pub_of (v : Z) : option plug_sink :=
  if decide (v = BIT_HEADSET_OUT) then Some Removed
  else if decide (v = BIT_HEADSET_MIC) then Some HeadsetMic
  else if decide (v = BIT_HEADSET_NO_MIC) then Some HeadsetNoMic
  else None.

Definition alpha (s : St) : AState :=
  mkAState (pub_of (st_g s sdev_state)) (bool_decide (st_g s button_irq_enable = 1)).

(** The inputs a detection run started in [s] reads: the level of the
    detect GPIO and the decision on conversions [n+2] and [n+7]. *)
Definition detect_inserted (s : St) : bool := c_true (detect_level (st_hw s) (st_ngpio s)).
Definition detect_type (s : St) : SPRD_HEADSET_TYPE :=
  headset_type_decision (adc_sample (st_hw s) (st_nadc s + 2)) (adc_sample (st_hw s) (st_nadc s + 7)).

Lemma alpha_obs s s' :
  st_g s sdev_state = st_g s' sdev_state ->
  st_g s button_irq_enable = st_g s' button_irq_enable -> alpha s = alpha s'.
Proof. unfold alpha. by intros -> ->. Qed.

(** ** The detection work refines [spec_detect] *)

Lemma detect_work_alpha s :
  gate_inv s ->
  alpha (headset_detect_workqueue_func @@ s)%hs = spec_detect (detect_inserted s) (detect_type s) (alpha s).
Proof.
  intros Hok. unfold spec_detect, detect_inserted, detect_type.
  destruct (c_true (detect_level _ _)) eqn:Hl.
  - rewrite detect_work_run, Hl. cbv zeta.
    destruct (detect_configured_notified s) as (Hd & Hg & Hp & _).
    destruct (detect_plug_in_report _ _ _ _) as [u s2] eqn:E2. cbn [snd].
    case_decide as Ht.
    + rewrite Ht in E2.
      destruct (detect_plug_in_report_nomic _ _ _ _ _ E2 Hp) as (H1 & _ & H3 & _).
      unfold alpha. by rewrite H1, H3, Hg.
    + assert (Hok1 : gate_ok (st_g s button_irq) (detect_configured (detect_notified s)))
        by (unfold gate_inv, gate_ok, irq_depth in *; rewrite Hd, !Hg by done; exact Hok).
      destruct (detect_plug_in_report_mic _ _ _ _ _ _ E2 Ht Hok1) as (H1 & _ & H3 & _).
      unfold alpha. by rewrite H1, H3.
  - rewrite detect_work_unplug_run by done. cbn [snd].
    unfold alpha, detect_unplugged, switch_apply, detect_notified.
    destruct (c_true (st_g s pwr_down_flags)); case_decide as E; st_simpl;
      rewrite ?E; st_simpl; reflexivity.
Qed.

(** ** What the back ends promise *)

(** What [alpha] reads. *)
Definition alpha_vars (s : St) : Z * Z := (st_g s sdev_state, st_g s button_irq_enable).

Lemma alpha_frame {A} (m : M A) s : frame alpha_vars m -> alpha (m @@ s)%hs = alpha s.
Proof. intros Hf. specialize (Hf s). injection Hf as H1 H2. by apply alpha_obs. Qed.

(** Posting leaves the abstract state alone, and one worker step either
    does too or is a detection run on the inputs of the state it starts
    from. *)
Class BackendRefines `{Backend} := {
  post_detect_alpha : frame alpha_vars post_detect;
  post_button_alpha : frame alpha_vars post_button;
  worker_step_alpha : forall s, gate_inv s ->
    alpha (worker_step @@ s)%hs = alpha s
    \/ alpha (worker_step @@ s)%hs = spec_detect (detect_inserted s) (detect_type s) (alpha s);
}.

Lemma button_work_alpha : frame alpha_vars headset_button_workqueue_func.
Proof.
  intros s. unfold alpha_vars.
  rewrite (button_work_frame sdev_state), (button_work_frame button_irq_enable) by discriminate.
  reflexivity.
Qed.

Lemma wake_alpha ev : frame alpha_vars (wake ev).
Proof. unfold wake, headset_wake_up_headset_thread. frame_solve. Qed.

(** A detection run started after a change of the scheduling state only
    reads what it would have read before. *)
Lemma detect_work_alpha_from s s0 :
  gate_inv s -> st_hw s0 = st_hw s -> st_ngpio s0 = st_ngpio s -> st_nadc s0 = st_nadc s ->
  alpha_vars s0 = alpha_vars s -> gate_obs s0 = gate_obs s ->
  alpha (headset_detect_workqueue_func @@ s0)%hs
  = spec_detect (detect_inserted s) (detect_type s) (alpha s).
Proof.
  intros Hok Hh Hg Hn Ha Ho. unfold detect_inserted, detect_type.
  rewrite <- Hh, <- Hg, <- Hn. injection Ha as H1 H2.
  rewrite (alpha_obs s s0) by done. apply detect_work_alpha, (gate_inv_obs s); done.
Qed.

Lemma thread_iter_alpha s :
  gate_inv s ->
  alpha (headset_thread_iter @@ s)%hs = alpha s
  \/ alpha (headset_thread_iter @@ s)%hs = spec_detect (detect_inserted s) (detect_type s) (alpha s).
Proof.
  intros Hok. unfold headset_thread_iter, get_g, put_g. hs_step.
  case_decide; [by left|]. hs_step.
  case_decide; [|case_decide].
  - right. destruct (headset_detect_workqueue_func _) as [[] s'] eqn:E. cbn.
    change s' with ((tt, s').2). rewrite <- E. by apply detect_work_alpha_from.
  - left. pose proof (button_work_alpha (set_g s_headset_event_flags 0 s)) as Hf.
    destruct (headset_button_workqueue_func _) as [[] s'] eqn:E. cbn in *.
    injection Hf as Hs1 Hs2. apply alpha_obs; rewrite ?Hs1, ?Hs2; done.
  - left. cbn. by apply alpha_obs.
Qed.

#[export] Instance thread_refines : @BackendRefines thread_backend.
Proof. split; [apply wake_alpha|apply wake_alpha|apply thread_iter_alpha]. Qed.

Lemma wq_post_alpha w : frame alpha_vars (wq_post w).
Proof. unfold wq_post. frame_solve. Qed.

Lemma wq_worker_alpha s :
  gate_inv s ->
  alpha (wq_worker_step @@ s)%hs = alpha s
  \/ alpha (wq_worker_step @@ s)%hs = spec_detect (detect_inserted s) (detect_type s) (alpha s).
Proof.
  intros Hok. unfold wq_worker_step. hs_step.
  destruct (st_wq s) as [|[] q]; hs_step; unfold run_work; [by left| |].
  - right. destruct (headset_detect_workqueue_func _) as [[] s'] eqn:E. cbn.
    change s' with ((tt, s').2). rewrite <- E. by apply detect_work_alpha_from.
  - left. pose proof (button_work_alpha (set_wq q s)) as Hf.
    destruct (headset_button_workqueue_func _) as [[] s'] eqn:E. cbn in *.
    injection Hf as Hs1 Hs2. apply alpha_obs; rewrite ?Hs1, ?Hs2; done.
Qed.

#[export] Instance wq_refines : @BackendRefines wq_backend.
Proof. split; [apply wq_post_alpha|apply wq_post_alpha|apply wq_worker_alpha]. Qed.

(** ** Every entry point is simulated *)

Section Simulation.
Context `{BackendLaws} `{!BackendRefines}.
#[local] Hint Resolve post_detect_alpha post_button_alpha : frame.

Lemma button_irq_handler_alpha : frame alpha_vars headset_button_irq_handler.
Proof. unfold headset_button_irq_handler, headset_plug_in. frame_solve. Qed.

Lemma timer_tick_alpha : frame alpha_vars timer_tick.
Proof. unfold timer_tick, headset_detect_timer. frame_solve. Qed.

Lemma detect_irq_alpha s :
  gate_inv s -> alpha (headset_detect_irq_handler @@ s)%hs = spec_edge (alpha s).
Proof.
  intros Hok. pose proof (detect_irq_handler_spec s Hok) as Hspec.
  assert (Hf : g_frame sdev_state headset_detect_irq_handler)
    by (unfold headset_detect_irq_handler, headset_button_irq_enable; frame_solve).
  specialize (Hf s). destruct (headset_detect_irq_handler s) as [r s']. cbn in *.
  destruct Hspec as (_ & _ & _ & He & _). unfold alpha, spec_edge. cbn. by rewrite Hf, He.
Qed.
End Simulation.

(** (C29) Refinement of the spec's detection state machine: for either
    back end, every entry point the kernel runs from a state where the
    button gate holds is, seen through [alpha] (what the switch device
    publishes and whether the button interrupt is enabled), invisible, or
    the detect edge of the spec (button interrupt disabled, publication
    unchanged), or the spec's detection run on the GPIO level and ADC
    readings of that state: [Removed] on an unplug, [HeadsetNoMic] with the
    gate unchanged for a headphone, [HeadsetMic] with the button interrupt
    enabled otherwise. *)
Theorem sys_step_refines {B : Backend} {R : @BackendRefines B} s s' :
  sys_step s s' -> gate_inv s ->
  alpha s' = alpha s \/ alpha s' = spec_edge (alpha s)
  \/ alpha s' = spec_detect (detect_inserted s) (detect_type s) (alpha s).
Proof.
  destruct 1 as [s|s Hd|s|s|s d Hd|s x v Hx Hv]; intros Hok.
  - right; left. by apply detect_irq_alpha.
  - left. by apply alpha_frame, button_irq_handler_alpha.
  - left. by apply alpha_frame, timer_tick_alpha.
  - destruct (worker_step_alpha s Hok); [left|right; right]; done.
  - left. by apply alpha_obs.
  - left. destruct (module_param_ne x Hx) as (_ & H1 & _ & H2).
    apply alpha_obs; cbn; by rewrite upd_g_other.
Qed.

(** The thread, woken by the timer after a plug-in edge, runs the
    detection: the abstract machine moves to [HeadsetMic] with the button
    interrupt enabled. *)
Lemma sys_step_refines_witness :
  let s1 := (headset_detect_irq_handler @@ (probed_state (scenario_hw 3000 500 1)))%hs in
  let s := (@timer_tick thread_backend @@ (set_now (st_now s1 + 500) s1))%hs in
  let s' := (@worker_step thread_backend @@ s)%hs in
  (alpha s' = alpha s \/ alpha s' = spec_edge (alpha s)
   \/ alpha s' = spec_detect (detect_inserted s) (detect_type s) (alpha s))
  /\ alpha s' = mkAState (Some HeadsetMic) true.
Proof.
  split; [|vm_compute; reflexivity].
  apply (@sys_step_refines thread_backend thread_refines); [apply sys_worker|].
  split; [left|]; vm_compute; reflexivity.
Defined.

(** ** A detect edge leads to a detection run *)

(** What a detection run reads: the hardware and its read counters. *)
Definition hw_inputs (s : St) : HwInputs * nat * nat := (st_hw s, st_ngpio s, st_nadc s).

Lemma detect_irq_inputs : frame hw_inputs headset_detect_irq_handler.
Proof. unfold headset_detect_irq_handler, headset_button_irq_enable. frame_solve. Qed.

Lemma detect_irq_flags : g_frame s_headset_event_flags headset_detect_irq_handler.
Proof. unfold headset_detect_irq_handler, headset_button_irq_enable. frame_solve. Qed.

(** (C30) Liveness of detection in the thread build: after a detect
    edge, if the line stays quiet for at least [headset_timer_period] ms,
    the timer fires and the thread's next iteration runs the detection,
    whatever event was pending before: the abstract machine ends in the
    spec's detection run, on the GPIO level and readings the hardware
    offers, after the spec's edge. *)
Theorem detect_edge_leads_to_detection s d :
  gate_inv s -> st_g s headset_timer_period <= d ->
  let s1 := (headset_detect_irq_handler @@ s)%hs in
  let s2 := (@timer_tick thread_backend @@ (set_now (st_now s1 + d) s1))%hs in
  let s3 := (@worker_step thread_backend @@ s2)%hs in
  alpha s3 = spec_detect (detect_inserted s) (detect_type s) (spec_edge (alpha s)).
Proof.
  intros Hok Hd. cbv zeta.
  pose proof (detect_irq_handler_spec s Hok) as Hspec.
  pose proof (detect_irq_alpha s Hok) as Ha.
  pose proof (detect_irq_inputs s) as Hi. pose proof (detect_irq_handler_frame s) as Hf.
  destruct (headset_detect_irq_handler s) as [r s1]. cbn [snd] in *.
  destruct Hspec as (_ & _ & _ & _ & Hg1 & Ht1). injection Hf as Hn Hbi Hp.
  unfold timer_tick, headset_detect_timer. hs_step. cbn [set_now st_timer st_now]. rewrite Ht1.
  rewrite decide_True by (cbn; lia). hs_step. cbn [post_detect thread_backend].
  unfold wake, headset_wake_up_headset_thread, get_g, put_g. hs_step.
  rewrite decide_False by (intros [E _]; discriminate). hs_step.
  cbn [worker_step thread_backend].
  unfold headset_thread_iter, get_g, put_g. hs_step. cbn [snd set_g st_g].
  rewrite upd_g_same, decide_False, decide_True by done. hs_step.
  destruct (headset_detect_workqueue_func _) as [[] s'] eqn:E. cbn.
  change s' with ((tt, s').2). rewrite <- E, <- Ha.
  unfold detect_inserted, detect_type. injection Hi as Hh Hg Hnadc.
  rewrite <- Hh, <- Hg, <- Hnadc.
  apply detect_work_alpha_from; [unfold gate_inv; rewrite Hbi; exact Hg1|reflexivity..].
Qed.

Lemma detect_edge_leads_to_detection_witness :
  let s := probed_state (scenario_hw 3000 500 1) in
  let s1 := (headset_detect_irq_handler @@ s)%hs in
  let s2 := (@timer_tick thread_backend @@ (set_now (st_now s1 + 500) s1))%hs in
  let s3 := (@worker_step thread_backend @@ s2)%hs in
  alpha s3 = spec_detect (detect_inserted s) (detect_type s) (spec_edge (alpha s))
  /\ alpha s3 = mkAState (Some HeadsetMic) true.
Proof.
  split; [|vm_compute; reflexivity].
  apply (detect_edge_leads_to_detection (probed_state (scenario_hw 3000 500 1)) 500).
  - split; [right|]; reflexivity.
  - vm_compute. discriminate.
Defined.

(** ** The spec's button invariant is not kept *)

(** A board with its button platform data and one button ([0, 500) is
    KEY_VOLUMEUP), whose readings
    are: a headset with a mic (conversions 0-9), two close readings of
    800 (10-19: a spurious button edge, ignored), a headphone without a
    mic (20-39: 50) and a key reading of 250; the comparators always
    report a plugged accessory with the button down. *)
Definition cex_hw : HwInputs :=
  mkHw (fun n => if (n <? 5)%nat then 3000 else if (n <? 10)%nat then 500
                 else if (n <? 20)%nat then 800 else if (n <? 40)%nat then 50 else 250)
       (fun _ => 0xe0) (fun _ => 1).

Definition cex_board : St :=
  set_g button_platform_data 1
    (set_buttons [mkButton 0 500 KEY_VOLUMEUP EV_KEY HEADSET_BUTTON_STATE_RELASED]
       (probed_state cex_hw)).

(** The thread build runs: a plug-in of the headset; a button edge whose
    work finds the readings implausible and re-arms the detect timer
    (lines 344-348) without touching the button interrupt; the timer;
    the detection, which now classifies a headphone without a mic; a
    second button edge, and its work. *)
Definition cex_before_key : St :=
  let s1 := @plug_in_run thread_backend cex_board in
  let s2 := (@headset_button_irq_handler thread_backend @@ s1)%hs in
  let s3 := (@worker_step thread_backend @@ s2)%hs in
  let s4 := (@timer_tick thread_backend @@ (set_now (st_now s3 + 1000) s3))%hs in
  let s5 := (@worker_step thread_backend @@ s4)%hs in
  (@headset_button_irq_handler thread_backend @@ s5)%hs.

(** (C35) The spec's invariant "button events are only emitted while a
    headset with a microphone is inserted" does not hold: when the button
    work's ignore path re-arms the detect timer, the detection that
    follows runs without a detect edge, so it never disables the button
    interrupt; if it finds a headphone without a mic it publishes
    [HeadsetNoMic] with the button interrupt still enabled, and the next
    button work sends a key-down.  The run is reachable from a probed
    driver by the kernel's steps. *)
Theorem headphone_key_reachable :
  exists s s',
    rtc (@sys_step thread_backend) cex_board s /\ @sys_step thread_backend s s'
    /\ alpha s = mkAState (Some HeadsetNoMic) true
    /\ st_trace s' = st_trace s ++ [EvInput EV_KEY KEY_VOLUMEUP 1; EvSync].
Proof.
  exists cex_before_key, (@worker_step thread_backend @@ cex_before_key)%hs.
  split; [|split; [apply sys_worker|split; vm_compute; reflexivity]].
  unfold cex_before_key. eapply rtc_trans; [apply plug_in_run_reach|].
  eapply rtc_l; [apply sys_button_irq; vm_compute; reflexivity|].
  eapply rtc_l; [apply sys_worker|].
  eapply rtc_l; [apply (sys_clock _ 1000); lia|].
  eapply rtc_l; [apply sys_timer|].
  eapply rtc_l; [apply sys_worker|].
  eapply rtc_l; [apply sys_button_irq; vm_compute; reflexivity|].
  apply rtc_refl.
Qed.

(** ** Two buttons pressed at once *)

(** A board with two buttons, [0, 500) for KEY_VOLUMEUP (115) and
    [500, 1000) for KEY_VOLUMEDOWN (114), and a headset with a mic
    (conversions 0-9); the button works read 100 for their ignore test
    and key readings of 250 (conversion 22) and 700 (conversion 37); the
    comparators report the button down throughout. *)
Definition two_key_hw : HwInputs :=
  mkHw (fun n => if (n <? 5)%nat then 3000 else if (n <? 10)%nat then 500
                 else if (n =? 22)%nat then 250 else if (n =? 37)%nat then 700 else 100)
       (fun _ => 0xe0) (fun _ => 1).

Definition two_key_board : St :=
  set_g button_platform_data 1
    (set_buttons [mkButton 0 500 KEY_VOLUMEUP EV_KEY HEADSET_BUTTON_STATE_RELASED;
                  mkButton 500 1000 114 EV_KEY HEADSET_BUTTON_STATE_RELASED]
       (probed_state two_key_hw)).

(** The thread build runs: a plug-in; a button edge and its work; a second
    button edge and its work. *)
Definition two_key_run : St :=
  let s1 := @plug_in_run thread_backend two_key_board in
  let s2 := (@headset_button_irq_handler thread_backend @@ s1)%hs in
  let s3 := (@worker_step thread_backend @@ s2)%hs in
  let s4 := (@headset_button_irq_handler thread_backend @@ s3)%hs in
  (@worker_step thread_backend @@ s4)%hs.

(** (C10) The table can hold two pressed entries at once, against the
    spec's invariant that at most one entry is pressed: from a probed
    board, after a plug-in of a headset with a mic, two button edges whose
    works read keys of different ranges send two key-downs with no key-up
    between and leave both entries pressed.  The button work never checks
    whether a key is already down (lines 360-376), and the run is one the
    kernel's steps reach. *)
Theorem two_presses_reachable :
  exists s,
    rtc (@sys_step thread_backend) two_key_board s
    /\ alpha s = mkAState (Some HeadsetMic) true
    /\ map bstate (st_buttons s) = [HEADSET_BUTTON_STATE_PRESSED; HEADSET_BUTTON_STATE_PRESSED]
    /\ st_trace s = st_trace (@plug_in_run thread_backend two_key_board)
                    ++ [EvIrqType 7 4; EvInput EV_KEY KEY_VOLUMEUP 1; EvSync;
                        EvIrqType 7 8; EvInput EV_KEY 114 1; EvSync].
Proof.
  exists two_key_run. split; [|vm_compute; repeat split; reflexivity].
  unfold two_key_run. eapply rtc_trans; [apply plug_in_run_reach|].
  eapply rtc_l; [apply sys_button_irq; vm_compute; reflexivity|].
  eapply rtc_l; [apply sys_worker|].
  eapply rtc_l; [apply sys_button_irq; vm_compute; reflexivity|].
  eapply rtc_l; [apply sys_worker|]. apply rtc_refl.
Qed.
