(* ===== verification/Preempt.v ===== *)
(** * The works preempted: interrupts between the statements of a work

    In [sys_step] (System.v) every entry point runs to completion.  The
    kernel does not run the works that way: the detect and button works
    run in process context (the kthread [headset_thread] or the worker of
    [headset_wq]) with interrupts enabled, so the detect and button
    interrupts and the debounce timer (a softirq) run between any two of
    their statements, and [spin_lock] (line 273) does not mask them.

    A work is written here as a [prog]: a tree whose node [PAct m k] runs
    one statement [m] of the source atomically and continues with [k] on
    its answer, and whose nodes [PLock] and [PUnlock] are the
    [spin_lock]/[spin_unlock] of [headmic_button_irq_lock] around the body
    of [headset_button_irq_enable], itself statement by statement
    ([gate_body]).  Calls of the driver's other helpers, which only touch
    state no handler reads or writes ([headset_pwr_on], the ADC and
    comparator reads, the notifier chain, the switch device, the button
    table), are one statement.  Each [prog] runs, without preemption, to
    the final state of the function of Detect.v, Button.v or Sched.v it
    is written from ([detect_work_prog_run] and the like).

    The machine [pstep] runs on one CPU, the one the interrupts are
    delivered to: a configuration [Cfg] holds the driver state, the lock,
    what is left of the current work and, when the detect handler found
    the lock taken, the rest of that handler, which spins.  The handlers
    run to their end: hard interrupt handlers run with interrupts masked,
    and the timer callback only posts its event.  [prun] follows a finite
    schedule of [pev] events.

    The theorems: each back end's worker takes and releases the lock in
    pairs ([lock_ok], a law of [PreemptBackend]); the button gate holds whenever the lock is free
    ([cfg_gate], with [in_gate] describing the body under the lock); a
    detect interrupt inside the lock spins forever; and in the thread
    build a detection posted between the read and the clear of the event
    word is lost. *)

From S2P Require Import Prelude Adi Kernel Notifier Classifier Gates Button Detect Sched System Refine.
From stdpp Require Import base gmap list relations.
From Stdlib Require Import ZArith Lia.

Local Open Scope Z_scope.

(** ** Programs with yield points *)

Inductive prog : Type :=
| PDone
| PAct {A : Type} (m : M A) (k : A -> prog)
| PLock (k : prog)
| PUnlock (k : prog).

(** Running a program without preemption. *)
Fixpoint prog_run (p : prog) : M unit :=
  match p with
  | PDone => mret tt
  | PAct m k => a ← m; prog_run (k a)
  | PLock k | PUnlock k => prog_run k
  end.

(** A handler runs to its end in interrupt context unless it reaches
    [spin_lock] with the lock taken: it then spins ([Some] of the rest). *)
Fixpoint irq_run (l : bool) (p : prog) : M (option prog) :=
  match p with
  | PDone => mret None
  | PAct m k => a ← m; irq_run l (k a)
  | PLock k => if l then mret (Some (PLock k)) else irq_run true k
  | PUnlock k => irq_run false k
  end.

(** Lines 274-285, the body of [headset_button_irq_enable] statement by
    statement, ending in [spin_unlock] and the caller's [k]. *)
Definition gate_body (enable irq : Z) (k : prog) : prog :=
  PAct (get_g button_irq_enable) (fun e =>
  if negb (c_true enable) then
    if c_true e then
      PAct (disable_irq irq) (fun _ =>
      PAct (put_g button_irq_enable 0) (fun _ => PUnlock k))
    else PUnlock k
  else
    if negb (c_true e) then
      PAct (enable_irq irq) (fun _ =>
      PAct (put_g button_irq_enable 1) (fun _ => PUnlock k))
    else PUnlock k).

(** Lines 269-288: [spin_lock(&headmic_button_irq_lock)] and the body. *)
Definition gate_prog (enable irq : Z) (k : prog) : prog := PLock (gate_body enable irq k).

(** Lines 559-561: [mod_timer] of the detect timer. *)
Definition detect_irq_tail : prog :=
  PAct (get_g headset_timer_period) (fun p =>
  PAct jiffies (fun j =>
  PAct (mod_timer (j + msecs_to_jiffies p)) (fun _ => PDone))).

(** Lines 542-562, [headset_detect_irq_handler], statement by statement. *)
Definition detect_irq_prog : prog :=
  PAct (get_g detect_active_low) (fun al =>
  PAct (get_g detect_irq) (fun di =>
  PAct (if decide (al = 1) then
          irq_set_irq_type di IRQF_TRIGGER_LOW ;; put_g detect_active_low 0
        else
          irq_set_irq_type di IRQF_TRIGGER_HIGH ;; put_g detect_active_low 1) (fun _ =>
  PAct (get_g button_irq) (fun bi =>
  gate_prog 0 bi detect_irq_tail)))).

(** Lines 413-429, the [switch (headset_type)], followed by [k]. *)
Definition detect_type_config_prog (headset_type : SPRD_HEADSET_TYPE) (sw bi : Z)
  (k : prog) : prog :=
  match headset_type with
  | HEADSET_NORTH_AMERICA =>
      PAct (gpio_direction_output sw 1) (fun _ =>
      PAct (irq_set_irq_type bi IRQF_TRIGGER_HIGH) (fun _ =>
      PAct (get_g headset_switch_gpio_delay) (fun d =>
      PAct (mdelay d) (fun _ => k))))
  | HEADSET_NORMAL => PAct (irq_set_irq_type bi IRQF_TRIGGER_HIGH) (fun _ => k)
  | HEADSET_NO_MIC =>
      PAct (irq_set_irq_type bi IRQF_TRIGGER_LOW) (fun _ =>
      PAct (adi (headset_mic_level 0)) (fun _ =>
      PAct (headset_pwr_on 0) (fun _ => k)))
  | _ => k
  end.

(** Lines 431-445, the publication. *)
Definition detect_report_prog (headset_type : SPRD_HEADSET_TYPE) (bi : Z) : prog :=
  if decide (headset_type = HEADSET_NO_MIC) then
    PAct (put_g headphone 1) (fun _ =>
    PAct (put_g ht_type BIT_HEADSET_NO_MIC) (fun _ =>
    PAct (get_g ht_type) (fun t =>
    PAct (switch_set_state t) (fun _ => PDone))))
  else
    PAct (put_g headphone 0) (fun _ =>
    PAct (put_g ht_type BIT_HEADSET_MIC) (fun _ =>
    PAct (get_g ht_type) (fun t =>
    PAct (switch_set_state t) (fun _ =>
    gate_prog 1 bi PDone)))).

(** Lines 392-460, [headset_detect_workqueue_func]. *)
Definition detect_work_prog : prog :=
  PAct (headset_pwr_on 1) (fun _ =>
  PAct (get_g detect_gpio) (fun dg =>
  PAct (gpio_get_value dg) (fun state =>
  PAct (blocking_notifier_call_chain state) (fun _ =>
  if c_true state then
    PAct (adi (headset_mic_level 1)) (fun _ =>
    PAct (get_g switch_gpio) (fun sw =>
    PAct (gpio_direction_output sw 0) (fun _ =>
    PAct (get_g headset_switch_gpio_delay) (fun d =>
    PAct (mdelay d) (fun _ =>
    PAct detect_headset_type (fun headset_type =>
    PAct (get_g button_irq) (fun bi =>
    detect_type_config_prog headset_type sw bi (detect_report_prog headset_type bi))))))))
  else
    PAct (headset_pwr_on 0) (fun _ =>
    PAct (put_g ht_type BIT_HEADSET_OUT) (fun _ =>
    PAct (get_g ht_type) (fun t =>
    PAct (switch_set_state t) (fun _ =>
    PAct headset_button_release (fun _ => PDone))))))))).

(** Lines 355-389: the confirmation of a press, with the 80 ms sleep of
    line 357 as a statement of its own. *)
Definition button_confirm_prog : prog :=
  PAct headset_button_down (fun state =>
  PAct (headset_read_adc 1) (fun adc_mic =>
  PAct (msleep 80) (fun _ =>
  PAct (if c_true state then
          d ← headset_button_down; mret (if c_true d then 1 else 0)
        else mret 0) (fun state =>
  PAct (gets st_buttons) (fun bs =>
  PAct (get_g key_code) (fun kc =>
  if c_true state then
    PAct (put_g key_code (scan_key bs adc_mic kc)) (fun _ =>
    PAct (input_event EV_KEY (scan_key bs adc_mic kc) 1) (fun _ =>
    PAct (modify (set_buttons
            (mark_first (scan_key bs adc_mic kc) HEADSET_BUTTON_STATE_PRESSED bs))) (fun _ =>
    PAct input_sync (fun _ => PDone))))
  else
    PAct (input_event EV_KEY kc 0) (fun _ =>
    PAct (modify (set_buttons (mark_first kc HEADSET_BUTTON_STATE_RELASED bs))) (fun _ =>
    PAct input_sync (fun _ => PDone))))))))).

(** Lines 331-390, [headset_button_workqueue_func]: the ignore test and the
    plug check (lines 341-354), then the confirmation. *)
Definition button_work_prog : prog :=
  PAct ignore_wrong_button (fun ignore_button =>
  if c_true ignore_button then
    PAct (get_g headset_timer_period) (fun p =>
    PAct jiffies (fun j =>
    PAct (mod_timer (j + msecs_to_jiffies p)) (fun _ => PDone)))
  else
    PAct headset_plug_in (fun plug =>
    if negb (c_true plug) then PDone else button_confirm_prog)).

(** Lines 478-488, the [switch (flags)] of [headset_thread]. *)
Definition thread_dispatch (flags : Z) : prog :=
  if decide (flags = HEADSET_DETECT) then detect_work_prog
  else if decide (flags = HEADSET_BUTTON) then button_work_prog
  else PDone.

(** Lines 469-489, one iteration of [headset_thread]: [wait_event]
    (line 473) reads the event word and blocks while it is 0, line 474
    reads it again, line 475 clears it; three statements. *)
Definition thread_iter_prog : prog :=
  PAct (get_g s_headset_event_flags) (fun f0 =>
  if decide (f0 = 0) then PDone
  else
    PAct (get_g s_headset_event_flags) (fun flags =>
    PAct (put_g s_headset_event_flags 0) (fun _ =>
    thread_dispatch flags))).

Definition work_prog (w : work) : prog :=
  match w with
  | DetectWork => detect_work_prog
  | ButtonWork => button_work_prog
  end.

(** The worker of [headset_wq]: the kernel takes the oldest pending work
    off the queue (under its own lock, interrupts masked) and runs it. *)
Definition wq_worker_prog : prog :=
  PAct (gets st_wq) (fun q =>
  match q with
  | [] => PDone
  | w :: q' => PAct (modify (set_wq q')) (fun _ => work_prog w)
  end).

(** ** Without preemption the programs are the functions *)

Lemma bind_ret_l_eq {A B} (a : A) (k : A -> M B) : (mret a ≫= k) = k a.
Proof. reflexivity. Qed.

Create Rewrite HintDb prog_run.

(** Two runs are equal when they do the same statements: bind by bind,
    reading variables, splitting the conditions of both sides at once. *)
Ltac run_eq :=
  repeat first
    [ reflexivity
    | rewrite bind_assoc
    | rewrite bind_ret_l
    | rewrite bind_ret_l_eq
    | rewrite bind_ret_unit
    | progress autorewrite with prog_run
    | progress cbn [prog_run irq_run]
    | rewrite gets_bind
    | apply bind_congr; intros ? ?
    | match goal with |- context [if ?c then _ else _] => destruct c end
    | match goal with |- context [match ?t with _ => _ end] => destruct t end ].

Lemma detect_work_prog_run s : prog_run detect_work_prog s = headset_detect_workqueue_func s.
Proof.
  unfold detect_work_prog, headset_detect_workqueue_func, detect_plug_in_report,
    detect_type_config_prog, detect_type_config, detect_report_prog, detect_report, gate_prog,
    gate_body, headset_button_irq_enable.
  run_eq.
Qed.

Lemma button_work_prog_run s : prog_run button_work_prog s = headset_button_workqueue_func s.
Proof.
  unfold button_work_prog, headset_button_workqueue_func, button_confirm_prog,
    button_confirm_and_report.
  run_eq.
Qed.
#[export] Hint Rewrite detect_work_prog_run button_work_prog_run : prog_run.

Lemma detect_irq_prog_run s :
  prog_run detect_irq_prog s = (_ ← headset_detect_irq_handler; mret tt) s.
Proof.
  unfold detect_irq_prog, detect_irq_tail, headset_detect_irq_handler, gate_prog, gate_body,
    headset_button_irq_enable.
  run_eq.
Qed.

Lemma thread_iter_prog_run s :
  prog_run thread_iter_prog s = (_ ← headset_thread_iter; mret tt) s.
Proof. unfold thread_iter_prog, headset_thread_iter, thread_dispatch, get_g. run_eq. Qed.

Lemma wq_worker_prog_run s :
  prog_run wq_worker_prog s = (_ ← wq_worker_step; mret tt) s.
Proof. unfold wq_worker_prog, wq_worker_step, run_work, work_prog. run_eq. Qed.

(** ** Statements that keep the gate *)

(** The gate invariant of the button line [b]. *)
Definition gate_at (b : Z) (s : St) : Prop := gate_inv s /\ st_g s button_irq = b.

(** [gate_safe b p]: [p] runs outside the lock; each of its statements,
    from a state where the gate of the line [b] holds, ends in one where
    it holds, on whatever the earlier statements answered; each
    [spin_lock] opens the body of [headset_button_irq_enable] on [b].
    [locked_safe b p]: [p] runs inside the lock, on any answers, to a
    [spin_unlock] after which [gate_safe] holds. *)
Fixpoint gate_safe (b : Z) (p : prog) : Prop :=
  match p with
  | PDone => True
  | PAct m k => forall s, gate_at b s -> gate_at b (m @@ s)%hs /\ gate_safe b (k (m @! s)%hs)
  | PLock k => (exists e k', k = gate_body e b k') /\ locked_safe b k
  | PUnlock _ => False
  end
with locked_safe (b : Z) (p : prog) : Prop :=
  match p with
  | PAct m k => forall a, locked_safe b (k a)
  | PUnlock k => gate_safe b k
  | PDone | PLock _ => False
  end.

Lemma gate_safe_act b {A} (m : M A) k :
  keeps (gate_at b) m -> (forall a, gate_safe b (k a)) -> gate_safe b (PAct m k).
Proof. intros Hm Hk s Hs. split; [by apply Hm|apply Hk]. Qed.

(** Reading [ht->button.irq] answers [b]. *)
Lemma gate_safe_button_irq b k : gate_safe b (k b) -> gate_safe b (PAct (get_g button_irq) k).
Proof. intros Hk s [Hs Hb]. cbn. rewrite Hb. by split; [split|]. Qed.

Lemma gate_safe_lock b e k : gate_safe b k -> gate_safe b (PLock (gate_body e b k)).
Proof.
  intros Hk. split; [by exists e, k|]. intros f.
  by destruct (c_true e), (c_true f); cbn.
Qed.

(** What follows the body is [gate_safe]. *)
Lemma locked_gate_body b e k : locked_safe b (gate_body e b k) -> gate_safe b k.
Proof. intros H. specialize (H (if c_true e then 1 else 0)). by destruct (c_true e) in H |- *. Qed.

#[local] Hint Resolve adc_fill_gate : frame.

(** A statement that leaves the gate's variables alone keeps it. *)
Ltac atomic_gate :=
  apply (keeps_frame _ gate_obs); [intros ???; apply gate_inv_at_obs|];
  unfold headset_pwr_on, detect_headset_type, headset_read_adc, ignore_wrong_button,
    headset_plug_in, headset_button_down, blocking_notifier_call_chain, switch_set_state,
    headset_button_release, release_one;
  frame_solve.

Ltac gate_safe_solve :=
  repeat lazymatch goal with
  | |- gate_safe _ PDone => exact I
  | |- gate_safe _ (PAct (get_g button_irq) _) => apply gate_safe_button_irq
  | |- gate_safe _ (gate_prog _ _ _) => unfold gate_prog
  | |- gate_safe _ (PLock (gate_body _ _ _)) => apply gate_safe_lock
  | |- gate_safe _ (PAct _ _) => apply gate_safe_act; [atomic_gate|intros]
  | |- gate_safe _ (match ?t with _ => _ end) => destruct t
  end.

(** ** Balanced locking *)

(** [lock_ok l p]: run from the lock held ([true]) or free, [p] never takes
    the lock it holds, never meets [PDone] holding it, and ends with it
    free. *)
Fixpoint lock_ok (l : bool) (p : prog) : Prop :=
  match p with
  | PDone => l = false
  | PAct m k => forall a, lock_ok l (k a)
  | PLock k => l = false /\ lock_ok true k
  | PUnlock k => lock_ok false k
  end.

Ltac lock_ok_solve :=
  repeat lazymatch goal with
  | |- lock_ok _ PDone => reflexivity
  | |- false = false => reflexivity
  | |- lock_ok _ (gate_prog _ _ _) => unfold gate_prog
  | |- lock_ok _ (gate_body _ _ _) => unfold gate_body
  | |- lock_ok _ (PAct _ _) => intros ?
  | |- lock_ok _ (PLock _) => split; [reflexivity|]
  | |- lock_ok _ (PUnlock _) => cbn [lock_ok]
  | |- lock_ok _ (match ?t with _ => _ end) => destruct t
  | |- lock_ok _ _ => progress cbv beta
  end.

(** ** What a back end's worker is, statement by statement *)

(** A back end whose worker step is a program: one iteration of the loop
    of [headset_thread], or the worker of [headset_wq] taking one work.
    The laws say that run without preemption it is [worker_step], and
    that it takes and releases the lock in pairs. *)
Class PreemptBackend `{Backend} := {
  worker_prog : prog;
  worker_prog_run s : (prog_run worker_prog @@ s)%hs = (worker_step @@ s)%hs;
  worker_prog_locks : lock_ok false worker_prog;
}.

Lemma snd_bind_ret {A} (m : M A) s : ((_ ← m; mret tt) @@ s)%hs = (m @@ s)%hs.
Proof. unfold mbind, StM_bind. by destruct (m s). Qed.

#[export] Instance thread_preempt : @PreemptBackend thread_backend.
Proof.
  refine {| worker_prog := thread_iter_prog |}.
  - intros s. by rewrite thread_iter_prog_run, snd_bind_ret.
  - unfold thread_iter_prog, thread_dispatch, detect_work_prog, detect_type_config_prog,
      detect_report_prog, button_work_prog, button_confirm_prog.
    lock_ok_solve.
Defined.

#[export] Instance wq_preempt : @PreemptBackend wq_backend.
Proof.
  refine {| worker_prog := wq_worker_prog |}.
  - intros s. by rewrite wq_worker_prog_run, snd_bind_ret.
  - unfold wq_worker_prog, work_prog, detect_work_prog, detect_type_config_prog,
      detect_report_prog, button_work_prog, button_confirm_prog.
    lock_ok_solve.
Defined.

(** The statements of both workers keep the gate. *)
Lemma thread_iter_prog_gate b : gate_safe b (@worker_prog _ thread_preempt).
Proof.
  change (gate_safe b thread_iter_prog).
  unfold thread_iter_prog, thread_dispatch, detect_work_prog, detect_type_config_prog,
    detect_report_prog, button_work_prog, button_confirm_prog.
  gate_safe_solve.
Qed.

Lemma wq_worker_prog_gate b : gate_safe b (@worker_prog _ wq_preempt).
Proof.
  change (gate_safe b wq_worker_prog).
  unfold wq_worker_prog, work_prog, detect_work_prog, detect_type_config_prog,
    detect_report_prog, button_work_prog, button_confirm_prog.
  gate_safe_solve.
Qed.

(** ** The preemptive machine *)

(** The driver state, [headmic_button_irq_lock], what is left of the
    work the worker runs ([PDone]: between two works) and the rest of a
    handler that spins on the lock. *)
Record Cfg := mkCfg {
  c_st : St;
  c_lock : bool;
  c_work : prog;
  c_spin : option prog;
}.

Definition set_st (s : St) (c : Cfg) : Cfg := mkCfg s (c_lock c) (c_work c) (c_spin c).

Definition irq_cfg (p : prog) (c : Cfg) : Cfg :=
  let '(r, s') := irq_run (c_lock c) p (c_st c) in mkCfg s' (c_lock c) (c_work c) r.

(** One statement of the worker. *)
Definition worker_move `{PreemptBackend} (c : Cfg) : option Cfg :=
  match c_work c with
  | PDone => Some (mkCfg (c_st c) (c_lock c) worker_prog None)
  | PAct m k => Some (mkCfg (m @@ (c_st c))%hs (c_lock c) (k (m @! (c_st c))%hs) None)
  | PLock k => if c_lock c then None else Some (mkCfg (c_st c) true k None)
  | PUnlock k => Some (mkCfg (c_st c) false k None)
  end.

Section Machine.
Context `{PreemptBackend}.

(** Nothing runs on the CPU while a handler spins but the handler itself
    (when the lock is free) and the clock; otherwise the detect and
    button interrupts (the button line only while enabled), the timer
    softirq, one statement of the worker and the sysfs writes come in any
    order. *)
Inductive pstep : Cfg -> Cfg -> Prop :=
| p_detect_irq c : c_spin c = None -> pstep c (irq_cfg detect_irq_prog c)
| p_button_irq c :
    c_spin c = None -> irq_depth (c_st c) (st_g (c_st c) button_irq) = 0 ->
    pstep c (set_st (headset_button_irq_handler @@ (c_st c))%hs c)
| p_timer c : c_spin c = None -> pstep c (set_st (timer_tick @@ (c_st c))%hs c)
| p_worker c c' : c_spin c = None -> worker_move c = Some c' -> pstep c c'
| p_spin c p : c_spin c = Some p -> c_lock c = false -> pstep c (irq_cfg p c)
| p_clock c d : 0 <= d -> pstep c (set_st (set_now (st_now (c_st c) + d) (c_st c)) c)
| p_param c x v :
    c_spin c = None -> x ∈ module_params -> 0 <= v < 2 ^ 31 -> pstep c (set_st (set_g x v (c_st c)) c).

(** A schedule: which source runs next. *)
Inductive pev := PeDetect | PeButton | PeTimer | PeWorker | PeClock (d : Z).

Definition pmove (e : pev) (c : Cfg) : option Cfg :=
  match c_spin c, e with
  | _, PeClock d =>
      if decide (0 <= d) then Some (set_st (set_now (st_now (c_st c) + d) (c_st c)) c)
      else None
  | Some _, _ => None
  | None, PeDetect => Some (irq_cfg detect_irq_prog c)
  | None, PeButton =>
      if decide (irq_depth (c_st c) (st_g (c_st c) button_irq) = 0)
      then Some (set_st (headset_button_irq_handler @@ (c_st c))%hs c) else None
  | None, PeTimer => Some (set_st (timer_tick @@ (c_st c))%hs c)
  | None, PeWorker => worker_move c
  end.

Fixpoint prun (es : list pev) (c : Cfg) : option Cfg :=
  match es with
  | [] => Some c
  | e :: es' => c' ← pmove e c; prun es' c'
  end.

Lemma pmove_step e c c' : pmove e c = Some c' -> pstep c c'.
Proof.
  unfold pmove. destruct (c_spin c) eqn:Hs, e; intros E;
    repeat (case_decide || discriminate || injection E as <-);
    by constructor.
Qed.

Lemma prun_reach es c c' : prun es c = Some c' -> rtc pstep c c'.
Proof.
  revert c. induction es as [|e es IH]; intros c; cbn; [by intros [= <-]|].
  destruct (pmove e c) as [c1|] eqn:E; [|discriminate].
  intros Hr. eapply rtc_l; [by apply (pmove_step e)|]. by apply IH.
Qed.
End Machine.

(** ** A handler that spins never lets the CPU go *)

(** Once a handler spins on the lock the worker holds, nothing but the
    clock moves: the lock stays taken, the work stays where it was and no
    event is ever sent again. *)
Lemma spin_stuck `{PreemptBackend} c c' :
  is_Some (c_spin c) -> c_lock c = true -> rtc pstep c c' ->
  is_Some (c_spin c') /\ c_lock c' = true /\ c_work c' = c_work c
  /\ st_trace (c_st c') = st_trace (c_st c).
Proof.
  intros Hs Hl Hr. revert Hs Hl. induction Hr as [c|c c1 c2 Hstep _ IH]; intros Hs Hl; [done|].
  destruct Hs as [p Hp].
  destruct Hstep as [c E|c E _|c E|c c1 E _|c q _ E|c d _|c x v E _ _];
    try (rewrite Hp in E; discriminate); [congruence|].
  destruct (IH (ex_intro _ p Hp) Hl) as (H1 & H2 & H3 & H4). by cbn in *.
Qed.

(** ** The gate under preemption *)

(** Where the worker can be while it holds the lock, inside the body of
    [headset_button_irq_enable(e, b)] called before [k], with the flag and
    the depth of the line at each statement: the gate is broken only
    between [disable_irq]/[enable_irq] and the store of the flag. *)
Definition in_gate (b : Z) (p : prog) (s : St) : Prop :=
  st_g s button_irq = b /\ exists e k, gate_safe b k /\
  ( (p = gate_body e b k /\ gate_ok b s)
  \/ (p = PAct (disable_irq b) (fun _ => PAct (put_g button_irq_enable 0) (fun _ => PUnlock k))
      /\ st_g s button_irq_enable = 1 /\ irq_depth s b = 0)
  \/ (p = PAct (put_g button_irq_enable 0) (fun _ => PUnlock k)
      /\ st_g s button_irq_enable = 1 /\ irq_depth s b = 1)
  \/ (p = PAct (enable_irq b) (fun _ => PAct (put_g button_irq_enable 1) (fun _ => PUnlock k))
      /\ st_g s button_irq_enable = 0 /\ irq_depth s b = 1)
  \/ (p = PAct (put_g button_irq_enable 1) (fun _ => PUnlock k)
      /\ st_g s button_irq_enable = 0 /\ irq_depth s b = 0)
  \/ (p = PUnlock k /\ gate_ok b s)).

Lemma in_gate_obs b p s s' : gate_obs s = gate_obs s' -> in_gate b p s -> in_gate b p s'.
Proof.
  unfold gate_obs. intros Ho. injection Ho as E1 E2 E3.
  unfold in_gate, gate_ok, irq_depth. rewrite <- E1, <- E2, <- E3. done.
Qed.

(** One statement of the body. *)
Lemma in_gate_move `{PreemptBackend} b c c' :
  c_lock c = true -> in_gate b (c_work c) (c_st c) -> worker_move c = Some c' ->
  if c_lock c' then in_gate b (c_work c') (c_st c')
  else gate_at b (c_st c') /\ gate_safe b (c_work c').
Proof.
  unfold worker_move. intros Hl (Hb & e & k & Hk & Hs).
  destruct Hs as [(Hw & Hok)|[(Hw & Hf & Hd)|[(Hw & Hf & Hd)|[(Hw & Hf & Hd)|[(Hw & Hf & Hd)|(Hw & Hok)]]]]];
    rewrite Hw; intros [= <-]; cbn; rewrite ?Hl.
  - split; [done|]. exists e, k. split; [done|].
    destruct Hok as [[F|F] D]; rewrite F; destruct (c_true e); cbn.
    + do 3 right; left. split; [done|]. split; [done|]. by rewrite D, F.
    + do 5 right. split; [done|]. split; [by left|]. by rewrite D, F.
    + do 5 right. split; [done|]. split; [by right|]. by rewrite D, F.
    + right; left. split; [done|]. split; [done|]. by rewrite D, F.
  - split; [done|]. exists e, k. split; [done|]. do 2 right; left. split; [done|].
    unfold irq_depth in *. cbn. rewrite lookup_insert_eq. cbn. split; [done|lia].
  - split; [done|]. exists e, k. split; [done|]. do 5 right. split; [done|].
    unfold gate_ok, irq_depth in *. cbn. rewrite upd_g_same. split; [by left|lia].
  - split; [done|]. exists e, k. split; [done|]. do 4 right; left. split; [done|].
    unfold irq_depth in *. cbn. rewrite lookup_insert_eq. cbn. split; [done|lia].
  - split; [done|]. exists e, k. split; [done|]. do 5 right. split; [done|].
    unfold gate_ok, irq_depth in *. cbn. rewrite upd_g_same. split; [by right|lia].
  - split; [|done]. split; [|done]. unfold gate_inv. by rewrite Hb.
Qed.

(** One call of the body on the gate keeps it. *)
Lemma enable_gate_at b e s : gate_at b s -> gate_at b (headset_button_irq_enable e b @@ s)%hs.
Proof.
  intros [Hs Hb].
  assert (Hf : g_frame button_irq (headset_button_irq_enable e b))
    by (unfold headset_button_irq_enable; frame_solve).
  unfold gate_at, gate_inv in *. rewrite Hb in Hs. rewrite Hf, Hb.
  split; [apply button_irq_enable_gate, Hs|done].
Qed.

(** The detect handler with the lock free runs to its end as
    [headset_detect_irq_handler]. *)
Lemma detect_irq_free_run s :
  irq_run false detect_irq_prog s = (_ ← headset_detect_irq_handler; mret None) s.
Proof.
  unfold detect_irq_prog, detect_irq_tail, headset_detect_irq_handler, gate_prog, gate_body,
    headset_button_irq_enable.
  run_eq.
Qed.

(** With the lock taken it changes none of the gate's variables and spins
    in the [spin_lock] (line 273) of its call at line 557. *)
Lemma detect_irq_locked s :
  (irq_run true detect_irq_prog @! s)%hs = Some (gate_prog 0 (st_g s button_irq) detect_irq_tail)
  /\ gate_obs (irq_run true detect_irq_prog @@ s)%hs = gate_obs s.
Proof.
  unfold detect_irq_prog, gate_obs, get_g, put_g, irq_set_irq_type, emit. cbn -[decide]. hs_step.
  case_decide; cbn; by rewrite ?upd_g_other.
Qed.

(** When the lock comes free the spinning handler runs the body and the
    end of the handler. *)
Lemma irq_run_gate_prog e b k s :
  irq_run false (gate_prog e b k) s = (_ ← headset_button_irq_enable e b; irq_run false k) s.
Proof. unfold gate_prog, gate_body, headset_button_irq_enable. run_eq. Qed.

Lemma detect_irq_tail_gate b s :
  gate_at b s -> gate_at b (irq_run false detect_irq_tail @@ s)%hs
  /\ (irq_run false detect_irq_tail @! s)%hs = None.
Proof. intros Hs. split; [|done]. by apply (gate_inv_at_obs _ s). Qed.

(** The configuration invariant: outside the lock the gate holds and the
    rest of the work keeps it; inside, the worker is in the body; a
    spinning handler is the detect handler in its call of line 557. *)
Definition cfg_gate (b : Z) (c : Cfg) : Prop :=
  (if c_lock c then in_gate b (c_work c) (c_st c)
   else gate_at b (c_st c) /\ gate_safe b (c_work c))
  /\ (c_spin c = None \/ c_spin c = Some (gate_prog 0 b detect_irq_tail)).

Lemma cfg_gate_obs b c s' :
  gate_obs (c_st c) = gate_obs s' -> cfg_gate b c -> cfg_gate b (set_st s' c).
Proof.
  intros Ho [Hw Hs]. split; [cbn|done]. destruct (c_lock c); [by apply (in_gate_obs _ _ (c_st c))|].
  destruct Hw as [Hg Hp]. split; [|done]. by apply (gate_inv_at_obs _ (c_st c)).
Qed.

Lemma set_st_gate {A} b (m : M A) c :
  frame gate_obs m -> cfg_gate b c -> cfg_gate b (set_st (m @@ (c_st c))%hs c).
Proof. intros Hm. apply cfg_gate_obs. by rewrite Hm. Qed.

Section GatePreempt.
Context {B : Backend} {L : BackendLaws} {PB : PreemptBackend}.
Hypothesis worker_prog_gate : forall b, gate_safe b worker_prog.

Lemma detect_irq_cfg_gate b c : c_spin c = None -> cfg_gate b c -> cfg_gate b (irq_cfg detect_irq_prog c).
Proof.
  intros Hn [Hw _]. unfold irq_cfg. destruct (c_lock c) eqn:El.
  - destruct (detect_irq_locked (c_st c)) as [Hr Ho].
    destruct (irq_run true detect_irq_prog (c_st c)) as [r s'] eqn:E. cbn in Hr, Ho |- *.
    split; [by apply (in_gate_obs _ _ (c_st c))|].
    destruct Hw as [Hb _]. right. by rewrite Hr, Hb.
  - destruct Hw as [Hg Hp]. pose proof (detect_irq_gate (c_st c) (proj1 Hg)) as Hi.
    assert (Hf : g_frame button_irq headset_detect_irq_handler)
      by (unfold headset_detect_irq_handler, headset_button_irq_enable; frame_solve).
    rewrite detect_irq_free_run. unfold mbind, StM_bind.
    specialize (Hf (c_st c)). destruct (headset_detect_irq_handler (c_st c)) as [r s'].
    cbn in Hi, Hf |- *. split; [|by left]. split; [|done].
    cbn. split; [done|]. destruct Hg as [_ Hb]. by rewrite Hf.
Qed.

Lemma worker_move_gate b c c' : worker_move c = Some c' -> cfg_gate b c -> cfg_gate b c'.
Proof.
  intros E [Hw Hs]. destruct (c_lock c) eqn:El.
  - split; [by apply (in_gate_move _ c)|].
    revert E. unfold worker_move. destruct (c_work c); [..|rewrite El|];
      intros [= <-]; by left.
  - destruct Hw as [Hg Hp]. revert E. unfold worker_move.
    destruct (c_work c) as [|A m k|k|k]; cbn in Hp; [| |rewrite El|done];
      intros [= <-]; (split; [cbn; rewrite ?El|by left]).
    + split; [done|]. apply worker_prog_gate.
    + destruct (Hp _ Hg). by split.
    + destruct Hp as ((e & k' & ->) & Hk). apply locked_gate_body in Hk. destruct Hg as [Hg Hb].
      split; [done|]. exists e, k'. split; [done|]. left. split; [done|].
      unfold gate_inv in Hg. by rewrite Hb in Hg.
Qed.

Lemma pstep_gate b c c' : pstep c c' -> cfg_gate b c -> cfg_gate b c'.
Proof.
  destruct 1 as [c E|c E _|c E|c c1 E Hm|c p E El|c d _|c x v E Hx _].
  - by apply detect_irq_cfg_gate.
  - apply set_st_gate, button_irq_handler_gate.
  - apply set_st_gate, timer_tick_gate.
  - by apply worker_move_gate.
  - intros [Hw [Hn|Hsp]]; [congruence|]. rewrite E in Hsp. injection Hsp as ->.
    rewrite El in Hw. destruct Hw as [Hg Hp]. unfold irq_cfg. rewrite El, irq_run_gate_prog.
    pose proof (enable_gate_at b 0 _ Hg) as He. rewrite bind_unfold.
    destruct (headset_button_irq_enable 0 b (c_st c)) as [u s1]. cbn in He.
    destruct (detect_irq_tail_gate _ _ He) as [H1 H2].
    destruct (irq_run false detect_irq_tail s1) as [r s']. cbn in H1, H2 |- *. rewrite H2.
    split; [done|by left].
  - apply cfg_gate_obs. done.
  - apply cfg_gate_obs. destruct (module_param_ne x Hx) as (H1 & H2 & _).
    unfold gate_obs. cbn. by rewrite !upd_g_other.
Qed.

Lemma preempt_reach_gate b c0 c : rtc pstep c0 c -> cfg_gate b c0 -> cfg_gate b c.
Proof. induction 1; [done|]. intros. eauto using pstep_gate. Qed.
End GatePreempt.

(** ** Runs of the thread build *)

(** The board of Refine.v ([cex_board]: button line 7 enabled, one
    button, a headset with a mic in), the lock free, the worker between
    two works. *)
Definition board_cfg : Cfg := mkCfg cex_board false PDone None.

Definition reach_of `{PreemptBackend} (es : list pev) (c : Cfg) : Cfg := default c (prun es c).

(** The schedule can be followed to its end. *)
Definition reaches `{PreemptBackend} (es : list pev) (c : Cfg) : bool :=
  if prun es c is Some _ then true else false.

Lemma reach_of_reach `{PreemptBackend} es c : reaches es c = true -> rtc pstep c (reach_of es c).
Proof.
  unfold reaches, reach_of. destruct (prun es c) eqn:E; [|discriminate].
  intros _. by apply (prun_reach es).
Qed.

(** The detect edge of the plug, its timer, the thread's wake-up and the
    detection up to the [spin_lock] of [headset_button_irq_enable(1, ...)]
    (line 441) and into it; then a second detect edge. *)
Definition deadlock_sched : list pev :=
  [PeDetect; PeClock 500; PeTimer] ++ replicate 21 PeWorker ++ [PeDetect].

(** A button edge; the thread wakes and reads [HEADSET_BUTTON] twice
    (lines 473 and 474); a detect edge and its timer post
    [HEADSET_DETECT]. *)
Definition lost_sched : list pev :=
  [PeButton; PeWorker; PeWorker; PeWorker; PeDetect; PeClock 500; PeTimer].

(** The thread clears the event word (line 475) and runs the button work
    to its end. *)
Definition button_run_sched : list pev := replicate 13 PeWorker.

(** ** Properties *)

(** (C13) The gate under preemption, for either back end: in every
    configuration reachable from one where the gate holds, the lock is
    free and no work or handler is under way, whatever interrupts, timer
    expiries, sysfs writes and delays come between the statements of the
    works, if [headmic_button_irq_lock] is free then the static flag of
    [headset_button_irq_enable] is 0 or 1 and the button line's disable
    depth is its complement.  Inside the lock the body breaks the gate
    between [disable_irq]/[enable_irq] and the store of the flag; the lock
    keeps the detect handler, the only other caller, out of that window. *)
Theorem preempt_reachable_gate_ok {B : Backend} {L : @BackendLaws B}
  {PB : @PreemptBackend B} c0 c :
  (forall b, gate_safe b worker_prog) ->
  gate_inv (c_st c0) -> c_work c0 = PDone -> c_spin c0 = None -> c_lock c0 = false ->
  rtc pstep c0 c -> c_lock c = false ->
  gate_inv (c_st c) /\ 0 <= irq_depth (c_st c) (st_g (c_st c) button_irq) <= 1.
Proof.
  intros Hwg Hg Hw Hs Hl Hr Hl'.
  assert (Hc : cfg_gate (st_g (c_st c0) button_irq) c).
  { apply (preempt_reach_gate Hwg _ c0); [done|]. unfold cfg_gate. rewrite Hw, Hs, Hl.
    split; [|by left]. done. }
  destruct Hc as (Hc & _). rewrite Hl' in Hc. destruct Hc as ([Hi _] & _). split; [done|]. destruct Hi as [[E|E] Hd]; rewrite Hd, E; lia.
Qed.

(** (C26) A deadlock: [headset_button_irq_enable] takes
    [headmic_button_irq_lock] with [spin_lock] (line 273), which leaves
    interrupts enabled, and is called both from the detect work (line 441)
    and from the detect interrupt handler (line 557).  In the thread build,
    after a plug-in of the board's headset the detection reaches line 441
    and takes the lock; a detect edge then interrupts it on its CPU and the
    handler spins on the lock forever: from there on the lock stays taken,
    the work never resumes and no event is sent again, whatever happens. *)
Theorem detect_irq_deadlock :
  exists c,
    rtc (@pstep _ thread_preempt) board_cfg c
    /\ c_lock c = true
    /\ c_work c = gate_body 1 7 PDone
    /\ is_Some (c_spin c)
    /\ forall c', rtc (@pstep _ thread_preempt) c c' ->
         is_Some (c_spin c') /\ c_lock c' = true /\ c_work c' = c_work c
         /\ st_trace (c_st c') = st_trace (c_st c).
Proof.
  exists (@reach_of _ thread_preempt deadlock_sched board_cfg).
  assert (Hl : c_lock (@reach_of _ thread_preempt deadlock_sched board_cfg) = true)
    by (vm_compute; reflexivity).
  assert (Hs : is_Some (c_spin (@reach_of _ thread_preempt deadlock_sched board_cfg)))
    by (vm_compute; eauto).
  split; [apply reach_of_reach; vm_compute; reflexivity|].
  split; [done|]. split; [reflexivity|]. split; [done|].
  intros c'. by apply spin_stuck.
Qed.

(** (C20) A detection request is lost in the thread build: the thread
    reads the event word (line 474) and clears it (line 475) in two
    statements, and the timer softirq may run between them.  On the
    board, a button edge wakes the thread, which reads [HEADSET_BUTTON];
    a detect edge and its timer then post [HEADSET_DETECT]; the thread
    clears the word and runs the button work.  At the end the thread
    waits on an empty word, no timer is pending and the headset, whose
    detect GPIO still reads high, was never published: the switch state
    is still [BIT_HEADSET_OUT]. *)
Theorem detect_request_lost :
  exists c c',
    rtc (@pstep _ thread_preempt) board_cfg c
    /\ st_g (c_st c) s_headset_event_flags = HEADSET_DETECT
    /\ c_work c = PAct (put_g s_headset_event_flags 0) (fun _ => thread_dispatch HEADSET_BUTTON)
    /\ rtc (@pstep _ thread_preempt) c c'
    /\ c_work c' = PDone /\ c_spin c' = None
    /\ st_g (c_st c') s_headset_event_flags = 0 /\ st_timer (c_st c') = None
    /\ st_g (c_st c') sdev_state = BIT_HEADSET_OUT
    /\ detect_level (st_hw (c_st c')) (st_ngpio (c_st c')) = 1.
Proof.
  exists (@reach_of _ thread_preempt lost_sched board_cfg),
    (@reach_of _ thread_preempt button_run_sched (@reach_of _ thread_preempt lost_sched board_cfg)).
  split; [apply reach_of_reach; vm_compute; reflexivity|].
  split; [vm_compute; reflexivity|]. split; [reflexivity|].
  split; [apply reach_of_reach; vm_compute; reflexivity|].
  vm_compute. repeat split.
Qed.

Lemma preempt_reachable_gate_ok_witness :
  let c := @reach_of _ thread_preempt lost_sched board_cfg in
  (gate_inv (c_st c) /\ 0 <= irq_depth (c_st c) (st_g (c_st c) button_irq) <= 1)
  /\ st_g (c_st c) button_irq_enable = 0.
Proof.
  split; [|vm_compute; reflexivity].
  apply (@preempt_reachable_gate_ok thread_backend thread_laws thread_preempt board_cfg).
  - apply thread_iter_prog_gate.
  - split; [right|]; reflexivity.
  - reflexivity.
  - reflexivity.
  - reflexivity.
  - apply reach_of_reach. vm_compute. reflexivity.
  - vm_compute. reflexivity.
Defined.
