(* ===== verification/Keys.v ===== *)
(** * The key lookup and the entry updates against their references

    The loops of [headset_button_workqueue_func] that find the key of a
    press (lines 361-368, [scan_key] of Button.v) and mark a table entry
    (lines 372-377 and 382-387, [mark_first]) are compared with the
    spec's declarative description (section 4.3, step 4): the key is the
    code of the first entry whose range [[adc_min, adc_max)] holds the
    reading, [KEY_RESERVED] when none does; the entry marked is the first
    whose code is the key.  The references are written with stdpp's
    [list_find] and list [insert]. *)

From S2P Require Import Prelude Adi Kernel Classifier Button.
From stdpp Require Import base list.
From Stdlib Require Import ZArith Lia.

Local Open Scope Z_scope.

(** ** The references *)

Definition in_range (v : Z) (b : headset_button) : Prop := adc_min b <= v < adc_max b.

#[export] Instance in_range_dec v b : Decision (in_range v b).
Proof. unfold in_range. apply _. Defined.

(** The key of a reading: the code of the first entry whose range holds
    it, [KEY_RESERVED] when there is none. *)
Definition key_spec (bs : list headset_button) (v : Z) : Z :=
  match list_find (in_range v) bs with
  | Some (_, b) => code b
  | None => KEY_RESERVED
  end.

(** The table with the first entry of code [key] set to [st]. *)
Definition mark_spec (key : Z) (st : button_state) (bs : list headset_button)
  : list headset_button :=
  match list_find (fun b => code b = key) bs with
  | Some (i, b) => <[i := set_bstate st b]> bs
  | None => bs
  end.

Lemma in_range_test v b :
  (adc_min b <=? v) && (v <? adc_max b) = bool_decide (in_range v b).
Proof.
  unfold in_range. apply eq_iff_eq_true. rewrite andb_true_iff, bool_decide_eq_true, Z.leb_le, Z.ltb_lt.
  lia.
Qed.

(** ** The loops equal their references *)

(** (C32) Equivalence of the key lookup with its reference: on a
    non-empty table the loop of lines 361-368 answers the code of the
    first entry whose range holds the reading, or [KEY_RESERVED]; on an
    empty table (no iteration) it leaves the previous [key_code], which
    the spec does not foresee. *)
Theorem scan_key_spec bs v kc :
  scan_key bs v kc = match bs with [] => kc | _ => key_spec bs v end.
Proof.
  revert kc. induction bs as [|b bs IH]; intros kc; [done|].
  cbn [scan_key]. rewrite in_range_test. unfold key_spec. cbn [list_find].
  case_bool_decide; [by rewrite decide_True|rewrite decide_False by done].
  rewrite IH. destruct bs as [|b' bs']; [done|]. unfold key_spec.
  by destruct (list_find _ _) as [[i b'']|].
Qed.

(** (C33) Equivalence of the entry update with its reference: the loops
    of lines 372-377 and 382-387 set the state of the first entry whose
    code is the key, and leave the table unchanged when no entry has it. *)
Theorem mark_first_spec key st bs : mark_first key st bs = mark_spec key st bs.
Proof.
  induction bs as [|b bs IH]; [done|]. unfold mark_spec. cbn [mark_first list_find].
  destruct (Z.eqb_spec (code b) key) as [E|E].
  - by rewrite decide_True.
  - rewrite decide_False by done. rewrite IH. unfold mark_spec.
    by destruct (list_find _ _) as [[i b']|].
Qed.
