(* ===== verification/Debug.v ===== *)
(** * sprd_debug.h: the debug level word, the scheduling-log hooks, the log structures

    src/arch/arm/mach-sc8825/include/mach/sprd_debug.h declares the
    platform's debug interface; the headset driver does not include it.
    What the header itself defines is modelled here:
    - the IRAM addresses of the magic and inform words (lines 11-18), for
      any [SPRD_IRAM_BASE];
    - the union [sprd_debug_level_t] (lines 20-26): one 32-bit word
      [uint_val] seen as two 16-bit fields [en.kernel_fault] (low half,
      ARM being little-endian) and [en.user_fault] (high half);
    - the inline logging hooks of CONFIG_SPRD_DEBUG_SCHED_LOG (lines
      97-131) and their empty variants (135-155), the irq-exit hook
      (158-164) and the semaphore hooks with their read/write macros
      (166-205), over a log of entries standing for the calls of the
      [extern] functions;
    - the log structures [sched_log], [sem_debug], [rwsem_debug] (lines
      208-276) with their layout by the rules of the ARM EABI.
    The configuration options are the fields of [DebugConfig]. *)

From S2P Require Import Prelude Adi.
From stdpp Require Import base list.
From Stdlib Require Import ZArith Lia.
From coqutil Require Import Z.bitblast.

Local Open Scope Z_scope.

Record DebugConfig := mkDebugConfig {
  CONFIG_SPRD_DEBUG : bool;
  CONFIG_SPRD_DEBUG_SCHED_LOG : bool;
  CONFIG_SPRD_DEBUG_HRTIMER_LOG : bool;
  CONFIG_SPRD_DEBUG_SOFTIRQ_LOG : bool;
  CONFIG_SPRD_DEBUG_IRQ_EXIT_LOG : bool;
  CONFIG_SPRD_DEBUG_SEMAPHORE_LOG : bool;
}.

(** ** The IRAM words *)

Section Iram.
Context (SPRD_IRAM_BASE : Z).

Definition MAGIC_ADDR : Z := SPRD_IRAM_BASE + 0x00003f64.
Definition SPRD_INFORM0 : Z := MAGIC_ADDR + 0x00000004.
Definition SPRD_INFORM1 : Z := SPRD_INFORM0 + 0x00000004.
Definition SPRD_INFORM2 : Z := SPRD_INFORM1 + 0x00000004.
Definition SPRD_INFORM3 : Z := SPRD_INFORM2 + 0x00000004.
Definition SPRD_INFORM4 : Z := SPRD_INFORM3 + 0x00000004.
Definition SPRD_INFORM5 : Z := SPRD_INFORM4 + 0x00000004.
Definition SPRD_INFORM6 : Z := SPRD_INFORM5 + 0x00000004.
End Iram.

(** ** The union [sprd_debug_level_t] *)

(** The two 16-bit fields of [en] read from the 32-bit word. *)
Definition en_kernel_fault (uint_val : Z) : Z := Z.land uint_val (Z.ones 16).
Definition en_user_fault (uint_val : Z) : Z := Z.land (Z.shiftr uint_val 16) (Z.ones 16).

(** Stores to one field: the value is truncated to [u16] and the other
    half of the word is kept. *)
Definition set_kernel_fault (uint_val v : Z) : Z :=
  Z.lor (Z.land uint_val (Z.shiftl (Z.ones 16) 16)) (Z.land v (Z.ones 16)).
Definition set_user_fault (uint_val v : Z) : Z :=
  Z.lor (Z.land uint_val (Z.ones 16)) (Z.shiftl (Z.land v (Z.ones 16)) 16).

(** ** The logging hooks *)

(** The entries the [__sprd_debug_*_log] functions record, with the
    arguments they are passed (pointers as addresses). *)
Inductive dbg_entry :=
| TaskLog (cpu task : Z)
| IrqLog (irq fn en : Z)
| WorkLog (worker work f : Z)
| HrtimerLog (timer fn en : Z)
| IrqExitLog
| SemInitLog
| SemDownLog (sem : Z)
| SemUpLog (sem : Z)
| RwInitLog
| RwDownLog (sem dir : Z)
| RwUpLog (sem : Z).

#[export] Instance dbg_entry_eq_dec : EqDecision dbg_entry.
Proof. solve_decision. Defined.

(** [enum { READ_SEM, WRITE_SEM }] of lines 262-265. *)
Definition READ_SEM : Z := 0.
Definition WRITE_SEM : Z := 1.

Section Hooks.
Context (cfg : DebugConfig) (sprd_debug_level : Z).

(** [if (unlikely(sprd_debug_level.en.kernel_fault)) __log(...)] *)
Definition log_if (e : dbg_entry) (log : list dbg_entry) : list dbg_entry :=
  if c_true (en_kernel_fault sprd_debug_level) then log ++ [e] else log.

Definition sprd_debug_task_log (cpu task : Z) (log : list dbg_entry) : list dbg_entry :=
  if CONFIG_SPRD_DEBUG_SCHED_LOG cfg then log_if (TaskLog cpu task) log else log.

Definition sprd_debug_irq_log (irq fn en : Z) (log : list dbg_entry) : list dbg_entry :=
  if CONFIG_SPRD_DEBUG_SCHED_LOG cfg then log_if (IrqLog irq fn en) log else log.

Definition sprd_debug_work_log (worker work f : Z) (log : list dbg_entry) : list dbg_entry :=
  if CONFIG_SPRD_DEBUG_SCHED_LOG cfg then log_if (WorkLog worker work f) log else log.

Definition sprd_debug_hrtimer_log (timer fn en : Z) (log : list dbg_entry) : list dbg_entry :=
  if CONFIG_SPRD_DEBUG_SCHED_LOG cfg && CONFIG_SPRD_DEBUG_HRTIMER_LOG cfg
  then log_if (HrtimerLog timer fn en) log else log.

(** The softirq hook calls [__sprd_debug_irq_log]: its entries are irq
    entries. *)
Definition sprd_debug_softirq_log (irq fn en : Z) (log : list dbg_entry) : list dbg_entry :=
  if CONFIG_SPRD_DEBUG_SCHED_LOG cfg && CONFIG_SPRD_DEBUG_SOFTIRQ_LOG cfg
  then log_if (IrqLog irq fn en) log else log.

(** Lines 158-164. *)
Definition sprd_debug_irq_last_exit_log (log : list dbg_entry) : list dbg_entry :=
  if CONFIG_SPRD_DEBUG_IRQ_EXIT_LOG cfg then log ++ [IrqExitLog] else log.

(** Lines 166-205: the [extern] semaphore hooks of
    CONFIG_SPRD_DEBUG_SEMAPHORE_LOG, or empty ones; reading and writing
    down of an rw-semaphore are the macros of lines 173-176. *)
Definition log_sem (e : dbg_entry) (log : list dbg_entry) : list dbg_entry :=
  if CONFIG_SPRD_DEBUG_SEMAPHORE_LOG cfg then log ++ [e] else log.

Definition debug_semaphore_init := log_sem SemInitLog.
Definition debug_semaphore_down_log (sem : Z) := log_sem (SemDownLog sem).
Definition debug_semaphore_up_log (sem : Z) := log_sem (SemUpLog sem).
Definition debug_rwsemaphore_init := log_sem RwInitLog.
Definition debug_rwsemaphore_up_log (sem : Z) := log_sem (RwUpLog sem).
Definition debug_rwsemaphore_down_read_log (sem : Z) := log_sem (RwDownLog sem READ_SEM).
Definition debug_rwsemaphore_down_write_log (sem : Z) := log_sem (RwDownLog sem WRITE_SEM).
End Hooks.

(** One call of a hook, as a value. *)
Inductive hook_call :=
| CallTask (cpu task : Z)
| CallIrq (irq fn en : Z)
| CallWork (worker work f : Z)
| CallHrtimer (timer fn en : Z)
| CallSoftirq (irq fn en : Z)
| CallIrqExit
| CallSemInit
| CallSemDown (sem : Z)
| CallSemUp (sem : Z)
| CallRwInit
| CallRwDownRead (sem : Z)
| CallRwDownWrite (sem : Z)
| CallRwUp (sem : Z).

Definition run_hook (cfg : DebugConfig) (lvl : Z) (c : hook_call) : list dbg_entry -> list dbg_entry :=
  match c with
  | CallTask cpu task => sprd_debug_task_log cfg lvl cpu task
  | CallIrq irq fn en => sprd_debug_irq_log cfg lvl irq fn en
  | CallWork w wk f => sprd_debug_work_log cfg lvl w wk f
  | CallHrtimer t fn en => sprd_debug_hrtimer_log cfg lvl t fn en
  | CallSoftirq irq fn en => sprd_debug_softirq_log cfg lvl irq fn en
  | CallIrqExit => sprd_debug_irq_last_exit_log cfg
  | CallSemInit => debug_semaphore_init cfg
  | CallSemDown sem => debug_semaphore_down_log cfg sem
  | CallSemUp sem => debug_semaphore_up_log cfg sem
  | CallRwInit => debug_rwsemaphore_init cfg
  | CallRwDownRead sem => debug_rwsemaphore_down_read_log cfg sem
  | CallRwDownWrite sem => debug_rwsemaphore_down_write_log cfg sem
  | CallRwUp sem => debug_rwsemaphore_up_log cfg sem
  end.

(** ** Lemmas on the level word *)

Lemma en_kernel_fault_build kf uf :
  0 <= kf < 2 ^ 16 -> en_kernel_fault (set_user_fault (set_kernel_fault 0 kf) uf) = kf.
Proof.
  intros Hk. unfold en_kernel_fault, set_user_fault, set_kernel_fault.
  rewrite <- (Z.mod_small kf (2 ^ 16)) at 2 by lia. rewrite <- Z.land_ones by lia. Z.bitblast.
Qed.

(** ** What each hook records *)

(** When a hook records: the scheduling hooks on their options and a
    non-zero [kernel_fault] half; the irq-exit and semaphore hooks on their
    option alone. *)
Definition hook_records (cfg : DebugConfig) (kf : Z) (c : hook_call) : bool :=
  match c with
  | CallTask _ _ | CallIrq _ _ _ | CallWork _ _ _ => CONFIG_SPRD_DEBUG_SCHED_LOG cfg && c_true kf
  | CallHrtimer _ _ _ =>
      CONFIG_SPRD_DEBUG_SCHED_LOG cfg && CONFIG_SPRD_DEBUG_HRTIMER_LOG cfg && c_true kf
  | CallSoftirq _ _ _ =>
      CONFIG_SPRD_DEBUG_SCHED_LOG cfg && CONFIG_SPRD_DEBUG_SOFTIRQ_LOG cfg && c_true kf
  | CallIrqExit => CONFIG_SPRD_DEBUG_IRQ_EXIT_LOG cfg
  | _ => CONFIG_SPRD_DEBUG_SEMAPHORE_LOG cfg
  end.

Definition hook_entry (c : hook_call) : dbg_entry :=
  match c with
  | CallTask cpu task => TaskLog cpu task
  | CallIrq irq fn en | CallSoftirq irq fn en => IrqLog irq fn en
  | CallWork w wk f => WorkLog w wk f
  | CallHrtimer t fn en => HrtimerLog t fn en
  | CallIrqExit => IrqExitLog
  | CallSemInit => SemInitLog
  | CallSemDown sem => SemDownLog sem
  | CallSemUp sem => SemUpLog sem
  | CallRwInit => RwInitLog
  | CallRwDownRead sem => RwDownLog sem 0
  | CallRwDownWrite sem => RwDownLog sem 1
  | CallRwUp sem => RwUpLog sem
  end.

(** (C34) Each debug hook of the header records one entry exactly when
    it should: the hooks of CONFIG_SPRD_DEBUG_SCHED_LOG when their options
    are set and the [kernel_fault] half of [sprd_debug_level] is non-zero,
    whatever its [user_fault] half (a level that only sets [user_fault]
    records nothing, and a softirq is recorded as an irq entry); the
    irq-exit and semaphore hooks when their option is set, reading and
    writing down of an rw-semaphore with directions 0 and 1. *)
Theorem debug_hooks_record cfg kf uf c log :
  0 <= kf < 2 ^ 16 ->
  run_hook cfg (set_user_fault (set_kernel_fault 0 kf) uf) c log
  = if hook_records cfg kf c then log ++ [hook_entry c] else log.
Proof.
  intros Hk. destruct c; cbn;
    unfold sprd_debug_task_log, sprd_debug_irq_log, sprd_debug_work_log,
      sprd_debug_hrtimer_log, sprd_debug_softirq_log, log_if, sprd_debug_irq_last_exit_log,
      debug_semaphore_init, debug_semaphore_down_log, debug_semaphore_up_log,
      debug_rwsemaphore_init, debug_rwsemaphore_up_log, debug_rwsemaphore_down_read_log,
      debug_rwsemaphore_down_write_log, log_sem, hook_records, hook_entry;
    rewrite ?en_kernel_fault_build by done;
    destruct (CONFIG_SPRD_DEBUG_SCHED_LOG cfg), (CONFIG_SPRD_DEBUG_HRTIMER_LOG cfg),
      (CONFIG_SPRD_DEBUG_SOFTIRQ_LOG cfg), (CONFIG_SPRD_DEBUG_IRQ_EXIT_LOG cfg),
      (CONFIG_SPRD_DEBUG_SEMAPHORE_LOG cfg), (c_true kf); reflexivity.
Qed.

Lemma debug_hooks_record_witness :
  let cfg := mkDebugConfig true true false true false false in
  run_hook cfg (set_user_fault (set_kernel_fault 0 0) 1) (CallTask 0 7) [] = []
  /\ run_hook cfg (set_user_fault (set_kernel_fault 0 1) 0) (CallSoftirq 3 4 1) []
     = [IrqLog 3 4 1].
Proof.
  split.
  - rewrite (debug_hooks_record _ 0 1) by lia. reflexivity.
  - rewrite (debug_hooks_record _ 1 0) by lia. reflexivity.
Defined.

(** ** The log structures of lines 208-278 *)

(** The size and alignment of a C type, by the rules of the ARM EABI:
    a field is placed at the next multiple of its alignment, a structure
    is aligned as its most aligned field and padded to a multiple of it,
    an array is its element repeated. *)
Record ctype := mkCtype { ly_size : Z; ly_align : Z }.

Definition align_up (x a : Z) : Z := (x + a - 1) / a * a.

Fixpoint fields_end (pos : Z) (fs : list ctype) : Z :=
  match fs with
  | [] => pos
  | f :: fs' => fields_end (align_up pos (ly_align f) + ly_size f) fs'
  end.

Definition max_align (fs : list ctype) : Z := foldr (fun f a => Z.max (ly_align f) a) 1 fs.

Definition c_struct (fs : list ctype) : ctype :=
  mkCtype (align_up (fields_end 0 fs) (max_align fs)) (max_align fs).

Definition c_array (n : Z) (t : ctype) : ctype := mkCtype (n * ly_size t) (ly_align t).

Definition c_u64 : ctype := mkCtype 8 8.
Definition c_word : ctype := mkCtype 4 4.
Definition c_char : ctype := mkCtype 1 1.

(** [TASK_COMM_LEN] of linux/sched.h. *)
Definition TASK_COMM_LEN : Z := 16.
Definition SCHED_LOG_MAX : Z := 2048.
Definition SEMAPHORE_LOG_MAX : Z := 100.
Definition RWSEMAPHORE_LOG_MAX : Z := 100.

(** The entries, with [sys_cnt] since [CP_DEBUG] is defined (line 210). *)
Definition task_log : ctype := c_struct [c_u64; c_word; c_array TASK_COMM_LEN c_char; c_word].
Definition irq_log : ctype := c_struct [c_u64; c_word; c_word; c_word; c_word].
Definition work_log : ctype := c_struct [c_u64; c_word; c_word; c_word; c_word].
Definition hrtimer_log : ctype := c_struct [c_u64; c_word; c_word; c_word; c_word].

Definition sched_log (NR_CPUS : Z) : ctype :=
  c_struct [c_array NR_CPUS (c_array SCHED_LOG_MAX task_log);
            c_array NR_CPUS (c_array SCHED_LOG_MAX irq_log);
            c_array NR_CPUS (c_array SCHED_LOG_MAX work_log);
            c_array NR_CPUS (c_array 8 hrtimer_log)].

Definition list_head : ctype := c_struct [c_word; c_word].
Definition sem_debug : ctype := c_struct [list_head; c_word; c_word; c_word; c_word].
Definition rwsem_debug : ctype := c_struct [list_head; c_word; c_word; c_word; c_word; c_word].

Lemma align_up_div a x : 0 < a -> (a | x)%Z -> align_up x a = x.
Proof.
  intros Ha [k ->]. unfold align_up.
  replace (k * a + a - 1) with ((a - 1) + k * a) by lia.
  rewrite Z.div_add, Z.div_small by lia. lia.
Qed.

(** Fields that all have alignment [a] and a size multiple of [a] are
    packed without padding. *)
Lemma fields_end_packed a pos fs :
  0 < a -> (a | pos)%Z -> Forall (fun f => ly_align f = a /\ (a | ly_size f)%Z) fs ->
  fields_end pos fs = pos + foldr (fun f n => ly_size f + n) 0 fs.
Proof.
  revert pos. induction fs as [|f fs IH]; intros pos Ha Hp Hf; cbn; [lia|].
  apply Forall_cons in Hf as [[Hal Hs] Hf]. rewrite Hal, align_up_div by done.
  rewrite IH; [lia|done|by apply Z.divide_add_r|done].
Qed.

(** The scheduling log takes 164032 bytes per CPU (about 160 KiB), the
    entries 32, 24, 24 and 24 bytes; a semaphore record takes 24 bytes and
    an rw-semaphore record 28. *)
Lemma debug_log_sizes NR_CPUS :
  0 <= NR_CPUS ->
  ly_size (sched_log NR_CPUS) = 164032 * NR_CPUS
  /\ map ly_size [task_log; irq_log; work_log; hrtimer_log; sem_debug; rwsem_debug]
     = [32; 24; 24; 24; 24; 28].
Proof.
  intros Hn. split; [|reflexivity].
  unfold sched_log, c_struct, SCHED_LOG_MAX.
  rewrite (fields_end_packed 8); [|lia|apply Z.divide_0_r|].
  - cbn [foldr c_array ly_size max_align ly_align].
    change (ly_size task_log) with 32. change (ly_size irq_log) with 24.
    change (ly_size work_log) with 24. change (ly_size hrtimer_log) with 24.
    change (ly_align task_log) with 8. change (ly_align irq_log) with 8.
    change (ly_align work_log) with 8. change (ly_align hrtimer_log) with 8.
    change (Z.max 8 (Z.max 8 (Z.max 8 (Z.max 8 1)))) with 8.
    rewrite align_up_div by (lia || (exists (20504 * NR_CPUS); lia)). lia.
  - unfold c_array. cbn [ly_align ly_size].
    change (ly_size task_log) with 32. change (ly_size irq_log) with 24.
    change (ly_size work_log) with 24. change (ly_size hrtimer_log) with 24.
    constructor; [split; [reflexivity|exists (8192 * NR_CPUS); cbn; lia]|].
    constructor; [split; [reflexivity|exists (6144 * NR_CPUS); cbn; lia]|].
    constructor; [split; [reflexivity|exists (6144 * NR_CPUS); cbn; lia]|].
    constructor; [split; [reflexivity|exists (24 * NR_CPUS); cbn; lia]|].
    constructor.
Qed.
